(** * Keypair manager of commune (src/commune/key/key.py)

    A shallow embedding of the [Keypair] class: the constructor state
    machine [set_params], the [create_from_*] class methods, signing and
    verification, message encryption, and the persistence methods
    [state_dict], [save], [load] and [is_encrypted].

    Python objects are modelled by their attribute dictionary, Python values
    by the type [pyval], exceptions by the type [exn].  Methods that write
    [self] or the storage run in a state-and-exception monad; methods that
    only read [self] are functions of it.  The libraries the module imports
    (sr25519, ed25519_zebra, scalecodec, bip39, nacl, eth_keys,
    substrateinterface, json, time, secrets) and the helpers inherited from
    [commune.Module] are interfaces: type classes whose fields carry the
    names of the imported functions. *)

From Stdlib Require Import String Ascii List ZArith Bool Lia PeanoNat.
From Stdlib Require Import Strings.Byte.
Import ListNotations.

Local Open Scope string_scope.
Local Open Scope list_scope.

(** ** Bytes and hexadecimal text *)

Definition bytes := list byte.

Module Hex.

(** The sixteen digits that [bytes.hex] and [binascii.hexlify] print. *)
Definition digit (n : N) : ascii :=
  match n with
  | 0 => "0" | 1 => "1" | 2 => "2" | 3 => "3" | 4 => "4" | 5 => "5"
  | 6 => "6" | 7 => "7" | 8 => "8" | 9 => "9" | 10 => "a" | 11 => "b"
  | 12 => "c" | 13 => "d" | 14 => "e" | _ => "f"
  end%N%char.

(** The value of a digit for [bytes.fromhex]: both cases are read. *)
Definition value (c : ascii) : option N :=
  let n := N_of_ascii c in
  if (48 <=? n)%N && (n <=? 57)%N then Some (n - 48)%N
  else if (97 <=? n)%N && (n <=? 102)%N then Some (n - 87)%N
  else if (65 <=? n)%N && (n <=? 70)%N then Some (n - 55)%N
  else None.

(** ASCII whitespace, which [bytes.fromhex] skips between two bytes. *)
Definition is_space (c : ascii) : bool :=
  let n := N_of_ascii c in
  (n =? 32)%N || ((9 <=? n)%N && (n <=? 13)%N).

Definition byte_of_N (n : N) : byte :=
  match Byte.of_N n with Some b => b | None => x00 end.

(** [b.hex()], also [binascii.hexlify(b).decode("ascii")]. *)
Fixpoint encode (b : bytes) : string :=
  match b with
  | [] => EmptyString
  | x :: r =>
      let n := Byte.to_N x in
      String (digit (n / 16)) (String (digit (n mod 16)) (encode r))
  end.

(** [bytes.fromhex(s)]; [None] is Python's [ValueError]. *)
Fixpoint decode (s : string) : option bytes :=
  match s with
  | EmptyString => Some []
  | String c r =>
      if is_space c then decode r
      else match r with
           | EmptyString => None
           | String d r' =>
               match value c, value d, decode r' with
               | Some h, Some l, Some t => Some (byte_of_N (16 * h + l) :: t)
               | _, _, _ => None
               end
           end
  end.

(** [s.replace('0x', '')]: every occurrence, left to right. *)
Fixpoint strip_0x (s : string) : string :=
  match s with
  | String "0" (String "x" r) => strip_0x r
  | String c r => String c (strip_0x r)
  | EmptyString => EmptyString
  end.

(** Text without the letter x has no 0x to strip. *)
Fixpoint no_x (s : string) : bool :=
  match s with
  | EmptyString => true
  | String c r => negb (Ascii.eqb c "x") && no_x r
  end.

End Hex.

(** ** Python values, exceptions and dictionaries *)

(** The values the module handles.  A [str] is held as its UTF-8 text, so
    that [s.encode()] is the byte list of the same characters. *)
#[warnings="-register-all"]
Inductive pyval : Type :=
| PNone
| PBool (b : bool)
| PInt (z : Z)
| PStr (s : string)
| PBytes (b : bytes)
| PScaleBytes (data : bytes)
| PList (l : list pyval)
| PDict (d : list (string * pyval)).

(** A [dict] with string keys, in insertion order; also the attribute
    dictionary [self.__dict__] of an object and a [**kwargs] argument. *)
Definition dict : Type := list (string * pyval).

Inductive exn : Type :=
| ValueError (msg : string)
| NotImplementedError (msg : string)
| ConfigurationError (msg : string)
| TypeError (msg : string)
| AttributeError (name : string)
| KeyError (key : string)
| AssertionError (msg : string)
| NameError (name : string)
| RecursionError
| LibraryError (msg : string).

(** The outcome of a call: a value or a raised exception. *)
Inductive res (A : Type) : Type :=
| Ok (a : A)
| Err (e : exn).
Arguments Ok {A} a.
Arguments Err {A} e.

Definition res_bind {A B : Type} (r : res A) (f : A -> res B) : res B :=
  match r with
  | Ok a => f a
  | Err e => Err e
  end.

Notation "'let?' x := r 'in' k" := (res_bind r (fun x => k))
  (at level 10, x pattern, r at level 200, k at level 200).

Fixpoint dict_get (k : string) (d : dict) : option pyval :=
  match d with
  | [] => None
  | (k', v) :: r => if String.eqb k k' then Some v else dict_get k r
  end.

(** [d[k] = v]: an existing key keeps its place, a new one goes last. *)
Fixpoint dict_set (k : string) (v : pyval) (d : dict) : dict :=
  match d with
  | [] => [(k, v)]
  | (k', v') :: r =>
      if String.eqb k k' then (k, v) :: r else (k', v') :: dict_set k v r
  end.

(** [d.update(kw)]. *)
Definition dict_update (d kw : dict) : dict :=
  fold_left (fun acc kv => dict_set (fst kv) (snd kv) acc) kw d.

(** [k in d]. *)
Definition dict_has (k : string) (d : dict) : bool :=
  match dict_get k d with Some _ => true | None => false end.

(** [d.get(k, default)]. *)
Definition dict_get_default (k : string) (default : pyval) (d : dict) : pyval :=
  match dict_get k d with Some v => v | None => default end.

(** [d[k]] on a value: only a dict can be indexed by a string key. *)
Definition py_getitem (v : pyval) (k : string) : res pyval :=
  match v with
  | PDict d => match dict_get k d with
               | Some x => Ok x
               | None => Err (KeyError k)
               end
  | _ => Err (TypeError "indices must be integers or slices, not str")
  end.

(** Truth value of a value in [if v:] and [not v]. *)
Definition truthy (v : pyval) : bool :=
  match v with
  | PNone => false
  | PBool b => b
  | PInt z => negb (Z.eqb z 0)
  | PStr s => negb (String.eqb s "")
  | PBytes b => negb (Nat.eqb (List.length b) 0)
  | PScaleBytes b => negb (Nat.eqb (List.length b) 0)
  | PList l => negb (Nat.eqb (List.length l) 0)
  | PDict d => negb (Nat.eqb (List.length d) 0)
  end.

(** [v == None]. *)
Definition is_none (v : pyval) : bool :=
  match v with PNone => true | _ => false end.

(** [type(v) is str]. *)
Definition is_str (v : pyval) : bool :=
  match v with PStr _ => true | _ => false end.

(** [v == s] for a string literal [s]. *)
Definition eq_str (v : pyval) (s : string) : bool :=
  match v with PStr t => String.eqb t s | _ => false end.

(** [v == True] ([1 == True] holds in Python). *)
Definition eq_True (v : pyval) : bool :=
  match v with PBool b => b | PInt z => Z.eqb z 1 | _ => false end.

(** [v == False]. *)
Definition eq_False (v : pyval) : bool :=
  match v with PBool b => negb b | PInt z => Z.eqb z 0 | _ => false end.

(** [len(v)]. *)
Definition py_len (v : pyval) : res nat :=
  match v with
  | PStr s => Ok (String.length s)
  | PBytes b => Ok (List.length b)
  | PScaleBytes b => Ok (List.length b)
  | PList l => Ok (List.length l)
  | PDict d => Ok (List.length d)
  | _ => Err (TypeError "object has no len()")
  end.

(** [bytes.fromhex(s)]. *)
Definition fromhex (s : string) : res bytes :=
  match Hex.decode s with
  | Some b => Ok b
  | None => Err (ValueError "non-hexadecimal number found in fromhex() arg")
  end.

(** [v.hex()]: a method of [bytes] only. *)
Definition py_hex (v : pyval) : res string :=
  match v with
  | PBytes b => Ok (Hex.encode b)
  | _ => Err (AttributeError "hex")
  end.

(** [s.encode()]. *)
Definition str_encode (s : string) : bytes := list_byte_of_string s.

(** [v[0:2] == '0x']. *)
Definition starts_0x (v : pyval) : res bool :=
  match v with
  | PStr s => Ok (String.prefix "0x" s)
  | PBytes _ | PList _ => Ok false
  | PDict _ => Err (TypeError "unhashable type: 'slice'")
  | _ => Err (TypeError "object is not subscriptable")
  end.

(** [s[n:]] on text. *)
Fixpoint str_drop (n : nat) (s : string) : string :=
  match n, s with
  | S n', String _ r => str_drop n' r
  | _, _ => s
  end.

(** [s[:n]] on text. *)
Fixpoint str_take (n : nat) (s : string) : string :=
  match n, s with
  | S n', String c r => String c (str_take n' r)
  | _, _ => EmptyString
  end.

(** [sub in s] on text. *)
Fixpoint str_contains (sub s : string) : bool :=
  String.prefix sub s ||
  match s with
  | EmptyString => false
  | String _ r => str_contains sub r
  end.

(** [name in v] for a string literal [name]: membership in a list, key of a
    dict, substring of a str. *)
Definition py_contains_str (name : string) (v : pyval) : res bool :=
  match v with
  | PList l => Ok (existsb (fun x => eq_str x name) l)
  | PDict d => Ok (dict_has name d)
  | PStr s => Ok (str_contains name s)
  | _ => Err (TypeError "argument is not iterable")
  end.

(** [b'<Bytes>' + data + b'</Bytes>']. *)
Definition wrap_bytes (data : pyval) : res pyval :=
  match data with
  | PBytes b => Ok (PBytes (str_encode "<Bytes>" ++ b ++ str_encode "</Bytes>"))
  | _ => Err (TypeError "can't concat to bytes")
  end.

(** [a + b] on two attributes. *)
Definition py_add (a b : pyval) : res pyval :=
  match a, b with
  | PBytes x, PBytes y => Ok (PBytes (x ++ y))
  | PStr x, PStr y => Ok (PStr (x ++ y))
  | PInt x, PInt y => Ok (PInt (x + y))
  | PList x, PList y => Ok (PList (x ++ y))
  | _, _ => Err (TypeError "unsupported operand type(s) for +")
  end.

(** ** The state-and-exception monad of methods

    A method that writes runs on a state [S] (the attribute dictionary of
    [self] together with the world outside, or the world alone for a class
    method).  A raised exception keeps the writes made before it. *)

Definition M (S A : Type) : Type := S -> res A * S.

Definition ret {S A : Type} (a : A) : M S A := fun s => (Ok a, s).

Definition bind {S A B : Type} (m : M S A) (f : A -> M S B) : M S B :=
  fun s => match m s with
           | (Ok a, s') => f a s'
           | (Err e, s') => (Err e, s')
           end.

Definition raise {S A : Type} (e : exn) : M S A := fun s => (Err e, s).

(** A call that does not touch the state. *)
Definition pure {S A : Type} (r : res A) : M S A := fun s => (r, s).

Notation "x <- m ;; k" := (bind m (fun x => k))
  (at level 61, m at next level, right associativity).
Notation "m ;; k" := (bind m (fun _ => k))
  (at level 61, right associativity).

(** ** The regular expression of [create_from_uri]

    A backtracking matcher in the manner of Python's [re], for the operators
    the pattern uses.  Greedy operators try the longer match first; a named
    group records the text of its last match.  Every call spends one unit of
    fuel, so that the matcher is structurally recursive. *)

Inductive regex : Type :=
| RDot                                  (* .    any character but a newline *)
| RNotSlash                             (* [^/] *)
| RChar (c : ascii)                     (* a literal character *)
| RSeq (r1 r2 : regex)                  (* r1 r2 *)
| RStar (r : regex)                     (* r*   greedy *)
| ROpt (r : regex)                      (* r?   greedy *)
| RGroup (name : string) (r : regex)    (* (?P<name>r) *)
| REps                                  (* the empty pattern *)
| REnd.                                 (* $    the end, or before a last newline *)

(** [r+]. *)
Definition RPlus (r : regex) : regex := RSeq r (RStar r).

Definition captures : Type := list (string * string).

Inductive outcome : Type :=
| Matched (caps : captures)
| NoMatch
| OutOfFuel.

Definition newline : ascii := ascii_of_nat 10.

Definition or_else (o : outcome) (alt : unit -> outcome) : outcome :=
  match o with
  | NoMatch => alt tt
  | _ => o
  end.

Fixpoint set_capture (name text : string) (caps : captures) : captures :=
  match caps with
  | [] => [(name, text)]
  | (n, t) :: r =>
      if String.eqb n name then (name, text) :: r
      else (n, t) :: set_capture name text r
  end.

Fixpoint get_capture (name : string) (caps : captures) : option string :=
  match caps with
  | [] => None
  | (n, t) :: r => if String.eqb n name then Some t else get_capture name r
  end.

Fixpoint rmatch (fuel : nat) (r : regex) (s : string) (caps : captures)
    (k : string -> captures -> outcome) : outcome :=
  match fuel with
  | O => OutOfFuel
  | S fuel =>
      match r with
      | RDot =>
          match s with
          | String c s' => if Ascii.eqb c newline then NoMatch else k s' caps
          | EmptyString => NoMatch
          end
      | RNotSlash =>
          match s with
          | String c s' => if Ascii.eqb c "/" then NoMatch else k s' caps
          | EmptyString => NoMatch
          end
      | RChar a =>
          match s with
          | String c s' => if Ascii.eqb c a then k s' caps else NoMatch
          | EmptyString => NoMatch
          end
      | RSeq r1 r2 =>
          rmatch fuel r1 s caps (fun s1 c1 => rmatch fuel r2 s1 c1 k)
      | RStar r1 =>
          or_else
            (rmatch fuel r1 s caps (fun s1 c1 =>
               if Nat.ltb (String.length s1) (String.length s)
               then rmatch fuel (RStar r1) s1 c1 k
               else NoMatch))
            (fun _ => k s caps)
      | ROpt r1 =>
          or_else (rmatch fuel r1 s caps k) (fun _ => k s caps)
      | RGroup name r1 =>
          rmatch fuel r1 s caps (fun s1 c1 =>
            k s1 (set_capture name
                    (str_take (String.length s - String.length s1) s) c1))
      | REps => k s caps
      | REnd =>
          match s with
          | EmptyString => k s caps
          | String c EmptyString => if Ascii.eqb c newline then k s caps else NoMatch
          | _ => NoMatch
          end
      end
  end.

(** [re.match(r, s)]: anchored at the start, any rest allowed. *)
Definition re_match (r : regex) (s : string) : outcome :=
  rmatch (2 * String.length s + 64) r s [] (fun _ caps => Matched caps).

(** The pattern of [create_from_uri]: the group phrase is a character, one
    or more non-slashes, then any number of (space, character, one or more
    non-slashes); the group path is any number of (one or two slashes, one
    or more non-slashes); then optionally three slashes and the group
    password, any characters; then the end. *)
Definition suri_pattern : regex :=
  RSeq (RGroup "phrase"
          (RSeq RDot (RSeq (RPlus RNotSlash)
             (RStar (RSeq (RChar " ") (RSeq RDot (RPlus RNotSlash)))))))
    (RSeq (RGroup "path"
             (RStar (RSeq (RChar "/") (RSeq (ROpt (RChar "/")) (RPlus RNotSlash)))))
       (RSeq (ROpt (RSeq (RChar "/") (RSeq (RChar "/") (RSeq (RChar "/")
                      (RGroup "password" (RStar RDot))))))
          REnd)).

(** [groupdict()] of a match: a group that took no part is [None]. *)
Definition groupdict (caps : captures) : dict :=
  map (fun name => (name, match get_capture name caps with
                          | Some t => PStr t
                          | None => PNone
                          end))
      ["phrase"; "path"; "password"].

(** ** The imported libraries

    Each library is an interface.  A function takes Python values where the
    module hands it attributes or arguments as they are, and returns a typed
    result or raises. *)

Module sr25519.
Class Lib : Type := {
  (* (public_key, private_key) *)
  pair_from_seed : pyval -> res (bytes * bytes);
  public_from_secret_key : pyval -> res bytes;
  (* (chain_code, public_key, private_key) and an id; the same triple back *)
  hard_derive_keypair : pyval * pyval * pyval -> bytes -> res (bytes * bytes * bytes);
  derive_keypair : pyval * pyval * pyval -> bytes -> res (bytes * bytes * bytes);
  sign : pyval * pyval -> pyval -> res bytes;
  verify : pyval -> pyval -> pyval -> res bool;
  convert_secret_key_to_ed25519 : pyval -> res bytes
}.
End sr25519.

Module ed25519_zebra.
Class Lib : Type := {
  (* (private_key, public_key) *)
  ed_from_seed : pyval -> res (bytes * bytes);
  ed_sign : pyval -> pyval -> res bytes;
  ed_verify : pyval -> pyval -> pyval -> res bool
}.
End ed25519_zebra.

Module ecdsa_helpers.
Class Lib : Type := {
  (* mnemonic, str_derivation_path, passphrase *)
  mnemonic_to_ecdsa_private_key : pyval -> pyval -> pyval -> res bytes;
  ecdsa_sign : pyval -> pyval -> res bytes;
  ecdsa_verify : pyval -> pyval -> pyval -> res bool
}.
End ecdsa_helpers.

Module eth_keys.
Class Lib : Type := {
  (* PrivateKey(k).public_key.to_address() *)
  to_address : pyval -> res string;
  (* PrivateKey(k).public_key.to_checksum_address() *)
  to_checksum_address : pyval -> res string
}.
End eth_keys.

Module ss58.
Class Lib : Type := {
  (* address bytes, ss58_format *)
  ss58_encode : pyval -> pyval -> res string;
  (* address, valid_ss58_format; the public key as hex text *)
  ss58_decode : pyval -> pyval -> res string;
  get_ss58_format : pyval -> res Z
}.
End ss58.

(** A junction of a derivation path, as [extract_derive_path] returns it. *)
Record junction : Type := {
  chain_code : bytes;
  is_hard : bool
}.

Module substrateinterface.
Class Lib : Type := {
  DEV_PHRASE : string;
  extract_derive_path : string -> res (list junction);
  (* json_data, passphrase; (private_key, public_key) *)
  decode_pair_from_encrypted_json : pyval -> pyval -> res (bytes * bytes);
  (* public_key, private_key, passphrase *)
  encode_pair : pyval -> pyval -> pyval -> res bytes
}.
End substrateinterface.

Module nacl.
Class Lib : Type := {
  crypto_sign_ed25519_pk_to_curve25519 : pyval -> res bytes;
  crypto_sign_ed25519_sk_to_curve25519 : pyval -> res bytes;
  (* Box(PrivateKey(sk), PublicKey(pk)).encrypt(plaintext, nonce) *)
  box_encrypt : bytes -> bytes -> bytes -> pyval -> res bytes;
  (* Box(PrivateKey(sk), PublicKey(pk)).decrypt(ciphertext) *)
  box_decrypt : bytes -> bytes -> pyval -> res bytes
}.
End nacl.

(** The Python runtime and the libraries that read the world [W] outside
    the process: the clock and the sources of randomness. *)
Module py.
Class Lib (W : Type) : Type := {
  json_dumps : pyval -> res string;
  json_loads : string -> res pyval;
  b64encode : bytes -> string;
  (* b.decode() *)
  decode : bytes -> res string;
  (* the text of a value inside an f-string or str.format *)
  format : pyval -> string;
  (* int(time.time()) *)
  time : M W Z;
  (* secrets.token_bytes(n) *)
  token_bytes : nat -> M W bytes;
  (* words, language_code *)
  bip39_generate : pyval -> pyval -> M W string;
  (* mnemonic, password, language_code *)
  bip39_to_mini_secret : pyval -> string -> pyval -> res bytes;
  bip39_validate : pyval -> pyval -> res bool
}.
End py.

(** The methods [Keypair] inherits from [commune.Module]; the storage they
    read and write is part of the world [W]. *)
Module c.
Class Module (W : Type) : Type := {
  python2str : pyval -> pyval;
  hash : pyval -> res pyval;
  (* the keyword arguments among the caller's locals, self left out *)
  locals2kwargs : dict -> dict;
  (* data, password *)
  encrypt : pyval -> pyval -> res pyval;
  decrypt : pyval -> pyval -> res pyval;
  get_json : pyval -> M W pyval;
  put_json : pyval -> pyval -> M W unit;
  ls : M W (list string);
  file_exists : pyval -> M W bool;
  rm_json : pyval -> M W unit
}.
End c.

(** ** os.path *)

(** [os.path.basename(p)]: the text after the last slash. *)
Fixpoint basename (p : string) : string :=
  match p with
  | EmptyString => EmptyString
  | String ch r =>
      if str_contains "/" p
      then (if Ascii.eqb ch "/" then (if str_contains "/" r then basename r else r)
            else basename r)
      else p
  end.

(** Whether a character other than a dot occurs. *)
Fixpoint has_non_dot (s : string) : bool :=
  match s with
  | EmptyString => false
  | String ch r => negb (Ascii.eqb ch ".") || has_non_dot r
  end.

(** [os.path.splitext(p)[0]] on a base name: the text before the last dot,
    unless only dots come before it. *)
Fixpoint splitext_root (seen : bool) (p : string) : string :=
  match p with
  | EmptyString => EmptyString
  | String ch r =>
      if Ascii.eqb ch "." && seen && negb (str_contains "." r)
      then EmptyString
      else String ch (splitext_root (seen || negb (Ascii.eqb ch ".")) r)
  end.

(** ** The class Keypair *)

Module MnemonicLanguageCode.
Definition ENGLISH : pyval := PStr "en".
End MnemonicLanguageCode.

(** What the [class] statement computes once, when the module is loaded: the
    default value of the parameter [nonce] of [encrypt_message]. *)
Record class_Keypair : Type := {
  encrypt_message_nonce_default : pyval
}.

Section KeypairClass.

Context {W : Type}.
Context {Sr : sr25519.Lib} {Ed : ed25519_zebra.Lib} {Ec : ecdsa_helpers.Lib}
        {Eth : eth_keys.Lib} {Codec : ss58.Lib} {Sub : substrateinterface.Lib}
        {Na : nacl.Lib} {Py : py.Lib W} {CM : c.Module W}.

(** The state of an instance method: the attributes of [self] and the world. *)
Definition obj_state : Type := (dict * W)%type.

(** [self.name]. *)
Definition getattr (name : string) : M obj_state pyval :=
  fun s => match dict_get name (fst s) with
           | Some v => (Ok v, s)
           | None => (Err (AttributeError name), s)
           end.

(** [self.name = v]. *)
Definition setattr (name : string) (v : pyval) : M obj_state unit :=
  fun s => (Ok tt, (dict_set name v (fst s), snd s)).

(** [self.__dict__.update(kwargs)]. *)
Definition update_self (kwargs : dict) : M obj_state unit :=
  fun s => (Ok tt, (dict_update (fst s) kwargs, snd s)).

(** A class method or a library call, made from an instance method. *)
Definition in_world {A : Type} (m : M W A) : M obj_state A :=
  fun s => let (r, w) := m (snd s) in (r, (fst s, w)).

(** [self.name], read by a method that does not write. *)
Definition attr (self : dict) (name : string) : res pyval :=
  match dict_get name self with
  | Some v => Ok v
  | None => Err (AttributeError name)
  end.

(** A keyword argument, or the default of its parameter. *)
Definition kwarg (name : string) (default : pyval) (kw : dict) : pyval :=
  dict_get_default name default kw.

(** The call [f( **kw)] raises when [kw] names no parameter of [f]. *)
Definition check_keywords (params : list string) (kw : dict) : res unit :=
  if forallb (fun kv => existsb (String.eqb (fst kv)) params) kw
  then Ok tt
  else Err (TypeError "got an unexpected keyword argument").

(** The body of the [class] statement, as far as it computes: line 669,
    [nonce: bytes = secrets.token_bytes(24)]. *)
Definition class_body : M W class_Keypair :=
  nonce <- py.token_bytes 24 ;;
  ret {| encrypt_message_nonce_default := PBytes nonce |}.

(** Lines 229-241. *)
Definition generate_mnemonic (words language_code : pyval) : M W pyval :=
  phrase <- py.bip39_generate words language_code ;;
  ret (PStr phrase).

(** Lines 757-762: [ls_keys] and [key_exists]. *)
Definition ls_keys : M W (list string) :=
  paths <- c.ls ;;
  ret (map (fun p => splitext_root false (basename p)) paths).

Definition key_exists (key : pyval) : M W bool :=
  keys <- ls_keys ;;
  ret (existsb (fun k => eq_str key k) keys).

(** Lines 746-754. *)
Definition resolve_key_path (path : pyval) : M obj_state pyval :=
  if is_none path then getattr "path" else ret path.

(** What line 727 stores for a value [v]. *)
Definition hex_if_bytes (v : pyval) : pyval :=
  match v with
  | PBytes b => PStr (Hex.encode b)
  | _ => v
  end.

(** Lines 724-727.  [state_dict['data']] is [self.__dict__] itself, not a
    copy, so the loop assigns into the attributes of [self]; it replaces
    values of keys that exist, which is a pointwise map over the items.  The
    result is the one dictionary that is both [state_dict['data']] and the
    attributes of [self]. *)
Definition hex_bytes_in_place : M obj_state dict :=
  fun s =>
    let data := map (fun kv => (fst kv, hex_if_bytes (snd kv))) (fst s) in
    (Ok data, (data, snd s)).

(** Lines 723-734. *)
Definition state_dict (password : pyval) : M obj_state pyval :=
  data <- hex_bytes_in_place ;;
  dumped <- pure (py.json_dumps (PDict data)) ;;
  if negb (is_none password)
  then
    encrypted <- pure (c.encrypt (PStr dumped) password) ;;
    ret (PDict [("data", encrypted); ("encrypted", PBool true)])
  else
    ret (PDict [("data", PStr dumped); ("encrypted", PBool false)]).

(** Lines 736-744. *)
Definition save (path password : pyval) (override : pyval) : M obj_state unit :=
  path <- resolve_key_path path ;;
  (if eq_False override
   then
     present <- in_world (c.file_exists path) ;;
     if present
     then raise (AssertionError "Path already exists, set override=True to override")
     else ret tt
   else ret tt) ;;
  state <- state_dict password ;;
  in_world (c.put_json path state).

(** [v.get(key, default)]: a method of [dict]. *)
Definition py_get (v : pyval) (key : string) (default : pyval) : res pyval :=
  match v with
  | PDict d => Ok (dict_get_default key default d)
  | _ => Err (AttributeError "get")
  end.

(** Lines 770-776. *)
Definition is_encrypted (path state : pyval) : M obj_state pyval :=
  path <- resolve_key_path path ;;
  state <- (if is_none state then in_world (c.get_json path) else ret state) ;;
  encrypted <- pure (py_get state "encrypted" (PBool false)) ;;
  ret PNone.

(** *** The class methods that create a Keypair

    The class methods call the constructor [cls(...)], and the constructor
    calls them back with [return_dict=True].  [cls] is a parameter here and
    is instantiated below, once the constructor is defined.  An object is
    its attribute dictionary, so a method returns a [dict] for either value
    of [return_dict]. *)

Definition dquote : string := String (ascii_of_nat 34) EmptyString.

Section ClassMethods.

Variable cls : dict -> M W dict.

(** Lines 312-357. *)
Definition create_from_seed (seed_hex ss58_format crypto_type : pyval)
    (return_dict : bool) : M W dict :=
  seed_hex <- match seed_hex with
              | PStr s => b <- pure (fromhex (Hex.strip_0x s)) ;; ret (PBytes b)
              | _ => ret seed_hex
              end ;;
  keys <- (if eq_str crypto_type "sr25519"
           then pure (sr25519.pair_from_seed seed_hex)
           else if eq_str crypto_type "ed25519"
           then pair <- pure (ed25519_zebra.ed_from_seed seed_hex) ;;
                ret (snd pair, fst pair)
           else raise (ValueError ("crypto_type " ++ dquote ++ py.format crypto_type
                                     ++ dquote ++ " not supported"))) ;;
  let public_key := PBytes (fst keys) in
  let private_key := PBytes (snd keys) in
  ss58_address <- pure (ss58.ss58_encode public_key ss58_format) ;;
  let cls_kwargs :=
    [("ss58_address", PStr ss58_address);
     ("public_key", public_key);
     ("private_key", private_key);
     ("ss58_format", ss58_format);
     ("crypto_type", crypto_type);
     ("seed_hex", seed_hex)] in
  if return_dict then ret cls_kwargs else cls cls_kwargs.

(** Lines 465-487. *)
Definition create_from_private_key
    (private_key public_key ss58_address ss58_format crypto_type : pyval) : M W dict :=
  cls [("ss58_address", ss58_address);
       ("public_key", public_key);
       ("private_key", private_key);
       ("ss58_format", ss58_format);
       ("crypto_type", crypto_type)].

(** Lines 257-310. *)
Definition create_from_mnemonic (mnemonic ss58_format crypto_type language_code : pyval)
    (return_dict : bool) : M W dict :=
  mnemonic <- (if is_none mnemonic
               then generate_mnemonic (PInt 12) language_code
               else ret mnemonic) ;;
  if eq_str crypto_type "ecdsa"
  then
    (if negb (eq_str language_code "en")
     then raise (ValueError "ECDSA mnemonic only supports english")
     else ret tt) ;;
    private_key <- pure (ecdsa_helpers.mnemonic_to_ecdsa_private_key
                           mnemonic PNone (PStr "")) ;;
    let kwargs :=
      [("private_key", PBytes private_key);
       ("ss58_format", ss58_format);
       ("crypto_type", crypto_type)] in
    if return_dict
    then ret (dict_set "mnemonic" mnemonic kwargs)
    else
      keypair <- create_from_private_key (PBytes private_key) PNone PNone
                   ss58_format crypto_type ;;
      ret (dict_set "mnemonic" mnemonic keypair)
  else
    seed_array <- pure (py.bip39_to_mini_secret mnemonic "" language_code) ;;
    keypair <- create_from_seed (PStr (Hex.encode seed_array)) ss58_format
                 crypto_type return_dict ;;
    ret (dict_set "mnemonic" mnemonic keypair).

(** Lines 436-450: the walk over the junctions of a path. *)
Fixpoint derive_children (derive_junctions : list junction)
    (child_pubkey child_privkey : pyval) : res (pyval * pyval) :=
  match derive_junctions with
  | [] => Ok (child_pubkey, child_privkey)
  | junction :: rest =>
      let? child :=
        (if is_hard junction
         then sr25519.hard_derive_keypair
                (PBytes (chain_code junction), child_pubkey, child_privkey) []
         else sr25519.derive_keypair
                (PBytes (chain_code junction), child_pubkey, child_privkey) []) in
      derive_children rest (PBytes (snd (fst child))) (PBytes (snd child))
  end.

(** Lines 380-384: a slash is put before a URI that has none, and the
    development phrase before a URI that starts with a slash; so the phrase
    is put before every URI. *)
Definition with_dev_phrase (suri : string) : string :=
  let suri := if negb (String.prefix "/" suri) then ("/" ++ suri)%string else suri in
  if negb (String.eqb suri "") && String.prefix "/" suri
  then (substrateinterface.DEV_PHRASE ++ suri)%string
  else suri.

(** Lines 359-463. *)
Definition create_from_uri (suri ss58_format crypto_type language_code : pyval)
    (return_dict : bool) : M W dict :=
  match suri with
  | PStr suri =>
      let suri := with_dev_phrase suri in
      match re_match suri_pattern suri with
      | OutOfFuel => raise RecursionError
      | NoMatch => raise (AttributeError "groupdict")
      | Matched caps =>
          let suri_parts := groupdict caps in
          let phrase := dict_get_default "phrase" PNone suri_parts in
          let path := match dict_get_default "path" PNone suri_parts with
                      | PStr p => p
                      | _ => EmptyString
                      end in
          let password := dict_get_default "password" PNone suri_parts in
          if eq_str crypto_type "ecdsa"
          then
            (if negb (eq_str language_code "en")
             then raise (ValueError "ECDSA mnemonic only supports english")
             else ret tt) ;;
            private_key <- pure (ecdsa_helpers.mnemonic_to_ecdsa_private_key
                                   phrase (PStr (str_drop 1 path))
                                   (if truthy password then password else PStr "")) ;;
            let kwargs :=
              [("private_key", PBytes private_key);
               ("ss58_format", ss58_format);
               ("crypto_type", crypto_type)] in
            if return_dict
            then ret (dict_set "uri" (PStr suri) (dict_set "mnemonic" phrase kwargs))
            else
              (* line 405: the dictionary is passed as the first positional
                 argument, which is private_key *)
              create_from_private_key (PDict kwargs) PNone PNone PNone (PStr "sr25519")
          else
            (if truthy password
             then raise (NotImplementedError
                           ("Passwords in suri not supported for crypto_type '"
                              ++ py.format crypto_type ++ "'"))
             else ret tt) ;;
            derived_keypair <- create_from_mnemonic phrase ss58_format crypto_type
                                 language_code return_dict ;;
            if return_dict
            then ret (dict_set "uri" (PStr suri) derived_keypair)
            else if negb (String.eqb path "")
            then
              let derived_keypair := dict_set "derive_path" (PStr path) derived_keypair in
              (if negb (eq_str crypto_type "sr25519")
               then raise (NotImplementedError
                             "Derivation paths for this crypto type not supported")
               else ret tt) ;;
              derive_junctions <- pure (substrateinterface.extract_derive_path path) ;;
              child_pubkey <- pure (attr derived_keypair "public_key") ;;
              child_privkey <- pure (attr derived_keypair "private_key") ;;
              child <- pure (derive_children derive_junctions child_pubkey child_privkey) ;;
              let kwargs :=
                [("public_key", fst child);
                 ("private_key", snd child);
                 ("ss58_format", ss58_format);
                 ("crypto_type", crypto_type)] in
              if return_dict
              then raise (NameError "kwags")
              else cls kwargs
            else ret derived_keypair
      end
  | _ => raise (AttributeError "startswith")
  end.

(** Lines 489-521. *)
Definition create_from_encrypted_json (json_data passphrase ss58_format : pyval)
    : M W dict :=
  json_data <- match json_data with
               | PStr s => pure (py.json_loads s)
               | _ => ret json_data
               end ;;
  pair <- pure (substrateinterface.decode_pair_from_encrypted_json json_data passphrase) ;;
  let private_key := fst pair in
  let public_key := snd pair in
  encoding <- pure (py_getitem json_data "encoding") ;;
  content <- pure (py_getitem encoding "content") ;;
  is_sr <- pure (py_contains_str "sr25519" content) ;;
  chosen <- (if is_sr
             then ret (PStr "sr25519", private_key)
             else
               is_ed <- pure (py_contains_str "ed25519" content) ;;
               if is_ed
               then ret (PStr "ed25519", firstn 32 private_key)
               else raise (NotImplementedError "Unknown KeypairType found in JSON")) ;;
  let crypto_type := fst chosen in
  let private_key := snd chosen in
  has_address <- pure (py_contains_str "address" json_data) ;;
  ss58_format <- (if is_none ss58_format && has_address
                  then
                    address <- pure (py_getitem json_data "address") ;;
                    format <- pure (ss58.get_ss58_format address) ;;
                    ret (PInt format)
                  else ret ss58_format) ;;
  create_from_private_key (PBytes private_key) (PBytes public_key) PNone
    ss58_format crypto_type.

End ClassMethods.

(** *** The constructor: [set_params], [load] and [__init__] *)

(** The constructor of the class methods that [set_params] calls with
    [return_dict=True]: they return before they would call it. *)
Definition cls_not_called : dict -> M W dict :=
  fun _ => raise RecursionError.

Definition set_params_keywords : list string :=
  ["path"; "seed"; "ss58_address"; "public_key"; "private_key"; "ss58_format";
   "uri"; "seed_hex"; "mnemonic"; "password"; "derive_path"; "refresh"; "save";
   "load"; "crypto_type"].

(** Lines 144-170: the source of the key material. *)
Definition set_params_provenance (kw : dict) : M obj_state unit :=
  let seed := kwarg "seed" PNone kw in
  let ss58_address := kwarg "ss58_address" PNone kw in
  let public_key := kwarg "public_key" PNone kw in
  let private_key := kwarg "private_key" PNone kw in
  let ss58_format := kwarg "ss58_format" PNone kw in
  let uri := kwarg "uri" PNone kw in
  let seed_hex := kwarg "seed_hex" PNone kw in
  let mnemonic := kwarg "mnemonic" PNone kw in
  let derive_path := kwarg "derive_path" PNone kw in
  let crypto_type := kwarg "crypto_type" (PStr "sr25519") kw in
  mnemonic <- (if is_none seed && is_none ss58_address && is_none public_key
                  && is_none private_key && is_none seed_hex && is_none mnemonic
                  && is_none uri
               then in_world (generate_mnemonic (PInt 12) MnemonicLanguageCode.ENGLISH)
               else ret mnemonic) ;;
  seed_hex <- (if truthy seed
               then (if is_str seed then pure (c.hash seed) else ret seed_hex)
               else ret seed_hex) ;;
  if negb (is_none seed_hex)
  then
    kwargs <- in_world (create_from_seed cls_not_called seed_hex (PInt 42)
                          (PStr "sr25519") true) ;;
    update_self kwargs
  else if negb (is_none mnemonic)
  then
    kwargs <- in_world (create_from_mnemonic cls_not_called mnemonic (PInt 42)
                          (PStr "sr25519") MnemonicLanguageCode.ENGLISH true) ;;
    update_self kwargs
  else if negb (is_none uri)
  then
    kwargs <- in_world (create_from_uri cls_not_called uri (PInt 42)
                          (PStr "sr25519") MnemonicLanguageCode.ENGLISH true) ;;
    update_self kwargs
  else
    setattr "ss58_address" ss58_address ;;
    setattr "public_key" public_key ;;
    setattr "private_key" private_key ;;
    setattr "ss58_format" ss58_format ;;
    setattr "seed_hex" seed_hex ;;
    setattr "mnemonic" mnemonic ;;
    setattr "derive_path" derive_path ;;
    setattr "crypto_type" crypto_type.

(** Lines 178-192: the private key, when there is one.  [public_key] is the
    argument of [set_params], not the attribute. *)
Definition set_params_private_key (public_key : pyval) : M obj_state unit :=
  private_key <- getattr "private_key" ;;
  if truthy private_key
  then
    match private_key with
    | PStr s =>
        b <- pure (fromhex (Hex.strip_0x s)) ;;
        setattr "private_key" (PBytes b)
    | _ => ret tt
    end ;;
    crypto_type <- getattr "crypto_type" ;;
    (if eq_str crypto_type "sr25519"
     then
       private_key <- getattr "private_key" ;;
       n <- pure (py_len private_key) ;;
       if negb (Nat.eqb n 64)
       then raise (ValueError "Secret key should be 64 bytes long")
       else if negb (truthy public_key)
       then
         private_key <- getattr "private_key" ;;
         derived <- pure (sr25519.public_from_secret_key private_key) ;;
         setattr "public_key" (PBytes derived)
       else ret tt
     else ret tt) ;;
    crypto_type <- getattr "crypto_type" ;;
    (if eq_str crypto_type "ecdsa"
     then
       private_key <- getattr "private_key" ;;
       address <- pure (eth_keys.to_address private_key) ;;
       setattr "public_key" (PStr address) ;;
       checksum <- pure (eth_keys.to_checksum_address private_key) ;;
       setattr "ss58_address" (PStr checksum)
     else ret tt)
  else ret tt.

(** Lines 194-208: the public key and the address. *)
Definition set_params_public_key : M obj_state unit :=
  public_key <- getattr "public_key" ;;
  (if negb (truthy public_key)
   then raise (ValueError "No SS58 formatted address or public key provided")
   else ret tt) ;;
  public_key <- getattr "public_key" ;;
  match public_key with
  | PStr s =>
      b <- pure (fromhex (Hex.strip_0x s)) ;;
      setattr "public_key" (PBytes b)
  | _ => ret tt
  end ;;
  crypto_type <- getattr "crypto_type" ;;
  if eq_str crypto_type "ecdsa"
  then
    public_key <- getattr "public_key" ;;
    n <- pure (py_len public_key) ;;
    if negb (Nat.eqb n 20)
    then raise (ValueError "Public key should be 20 bytes long")
    else ret tt
  else
    public_key <- getattr "public_key" ;;
    n <- pure (py_len public_key) ;;
    (if negb (Nat.eqb n 32)
     then raise (ValueError "Public key should be 32 bytes long")
     else ret tt) ;;
    ss58_address <- getattr "ss58_address" ;;
    if negb (truthy ss58_address)
    then
      public_key <- getattr "public_key" ;;
      ss58_format <- getattr "ss58_format" ;;
      address <- pure (ss58.ss58_encode public_key ss58_format) ;;
      setattr "ss58_address" (PStr address)
    else ret tt.

(** Lines 172-208: normalization and validation of the key material. *)
Definition set_params_validate (public_key : pyval) : M obj_state unit :=
  setattr "derive_path" PNone ;;
  crypto_type <- getattr "crypto_type" ;;
  (if negb (eq_str crypto_type "ecdsa")
   then
     ss58_address <- getattr "ss58_address" ;;
     if truthy ss58_address
     then
       current <- getattr "public_key" ;;
       if negb (truthy current)
       then
         ss58_format <- getattr "ss58_format" ;;
         decoded <- pure (ss58.ss58_decode ss58_address ss58_format) ;;
         setattr "public_key" (PStr decoded)
       else ret tt
     else ret tt
   else ret tt) ;;
  set_params_private_key public_key ;;
  set_params_public_key.

(** Lines 107-211.  [self_load] is the method [self.load] of line 140; the
    console message of line 142 is not modelled. *)
Definition set_params_with (self_load : pyval -> pyval -> M obj_state unit)
    (kw : dict) : M obj_state unit :=
  pure (check_keywords set_params_keywords kw) ;;
  let path := kwarg "path" PNone kw in
  let password := kwarg "password" PNone kw in
  setattr "path" path ;;
  setattr "password" password ;;
  stored <- (if negb (is_none path) && truthy (kwarg "load" (PBool false) kw)
                && negb (truthy (kwarg "refresh" (PBool false) kw))
             then in_world (key_exists path)
             else ret false) ;;
  if stored
  then self_load path password
  else
    set_params_provenance kw ;;
    set_params_validate (kwarg "public_key" PNone kw) ;;
    if truthy (kwarg "save" (PBool false) kw)
    then
      path <- getattr "path" ;;
      password <- getattr "password" ;;
      save path password (PBool true)
    else ret tt.

(** Lines 779-806.  [self_set_params] is the method [self.set_params] of
    line 806. *)
Definition load_with (self_set_params : dict -> M obj_state unit)
    (path password : pyval) : M obj_state unit :=
  path <- resolve_key_path path ;;
  state <- in_world (c.get_json path) ;;
  encrypted <- pure (py_get state "encrypted" (PBool false)) ;;
  has_data <- pure (py_contains_str "data" state) ;;
  state <- (if has_data
            then
              if eq_True encrypted
              then
                data <- pure (py_getitem state "data") ;;
                pure (c.decrypt data password)
              else pure (py_getitem state "data")
            else ret state) ;;
  state <- match state with
           | PStr s => pure (py.json_loads s)
           | _ => ret state
           end ;;
  match state with
  | PDict d =>
      if dict_has "load" d
      then raise (TypeError "got multiple values for keyword argument 'load'")
      else self_set_params (d ++ [("load", PBool false)])
  | _ => raise (TypeError "argument after ** must be a mapping")
  end.

(** [set_params] called with [load=False], as [load] calls it: line 140 is
    not reached. *)
Definition set_params_no_load : dict -> M obj_state unit :=
  set_params_with (fun _ _ => raise RecursionError).

Definition load : pyval -> pyval -> M obj_state unit :=
  load_with set_params_no_load.

Definition set_params : dict -> M obj_state unit :=
  set_params_with load.

Definition init_keywords : list string :=
  ["seed"; "path"; "ss58_address"; "public_key"; "private_key"; "ss58_format";
   "seed_hex"; "mnemonic"; "password"; "uri"; "derive_path"; "crypto_type";
   "refresh"; "save"; "load"].

(** Lines 86-102: the locals of [__init__], each parameter with its
    default. *)
Definition init_locals (kw : dict) : dict :=
  [("seed", kwarg "seed" PNone kw);
   ("path", kwarg "path" (PStr "default") kw);
   ("ss58_address", kwarg "ss58_address" PNone kw);
   ("public_key", kwarg "public_key" PNone kw);
   ("private_key", kwarg "private_key" PNone kw);
   ("ss58_format", kwarg "ss58_format" PNone kw);
   ("seed_hex", kwarg "seed_hex" PNone kw);
   ("mnemonic", kwarg "mnemonic" PNone kw);
   ("password", kwarg "password" PNone kw);
   ("uri", kwarg "uri" PNone kw);
   ("derive_path", kwarg "derive_path" PNone kw);
   ("crypto_type", kwarg "crypto_type" (PStr "sr25519") kw);
   ("refresh", kwarg "refresh" (PBool false) kw);
   ("save", kwarg "save" (PBool true) kw);
   ("load", kwarg "load" (PBool true) kw)].

(** Lines 86-104. *)
Definition __init__ (kw : dict) : M obj_state unit :=
  pure (check_keywords init_keywords kw) ;;
  let params := c.locals2kwargs (init_locals kw) in
  set_params params.

(** [Keypair( **kw)]: a new object, initialised; an exception of
    [__init__] leaves no object. *)
Definition Keypair (kw : dict) : M W dict :=
  fun w =>
    match __init__ kw ([], w) with
    | (Ok _, (self, w')) => (Ok self, w')
    | (Err e, (_, w')) => (Err e, w')
    end.

(** The class methods of the class [Keypair] itself: [cls] is [Keypair]. *)
Definition Keypair_create_from_seed := create_from_seed Keypair.
Definition Keypair_create_from_mnemonic := create_from_mnemonic Keypair.
Definition Keypair_create_from_uri := create_from_uri Keypair.
Definition Keypair_create_from_private_key := create_from_private_key Keypair.
Definition Keypair_create_from_encrypted_json := create_from_encrypted_json Keypair.

(** *** Methods that read the object *)

(** An optional argument, or the default of its parameter. *)
Definition arg_or (default : pyval) (a : option pyval) : pyval :=
  match a with
  | Some v => v
  | None => default
  end.

(** Lines 571-576 and 635-641: the data as bytes. *)
Definition data_to_bytes (data : pyval) : res pyval :=
  match data with
  | PScaleBytes b => Ok (PBytes b)
  | _ =>
      let? hex := starts_0x data in
      if hex
      then match data with
           | PStr s => let? b := fromhex (str_drop 2 s) in Ok (PBytes b)
           | _ => Ok data
           end
      else match data with
           | PStr s => Ok (PBytes (str_encode s))
           | _ => Ok data
           end
  end.

(** [data.decode()]. *)
Definition py_decode (data : pyval) : res string :=
  match data with
  | PBytes b => py.decode b
  | _ => Err (AttributeError "decode")
  end.

(** Lines 557-600.  [crypto_type = None] is a call that omits the argument. *)
Definition sign (self : dict) (data : pyval) (crypto_type : option pyval)
    (return_dict : bool) : res pyval :=
  let crypto_type := arg_or (PStr "sr25519") crypto_type in
  let data := c.python2str data in
  let? data := data_to_bytes data in
  let? private_key := attr self "private_key" in
  if negb (truthy private_key)
  then Err (ConfigurationError "No private key set to create signatures")
  else
    let? signature :=
      (if eq_str crypto_type "sr25519"
       then
         let? public_key := attr self "public_key" in
         let? private_key := attr self "private_key" in
         sr25519.sign (public_key, private_key) data
       else if eq_str crypto_type "ed25519"
       then
         let? private_key := attr self "private_key" in
         ed25519_zebra.ed_sign private_key data
       else if eq_str crypto_type "ecdsa"
       then
         let? private_key := attr self "private_key" in
         ecdsa_helpers.ecdsa_sign private_key data
       else Err (ConfigurationError "Crypto type not supported")) in
    if return_dict
    then
      let? text := py_decode data in
      let? public_key := attr self "public_key" in
      let? public_hex := py_hex public_key in
      let? ss58_address := attr self "ss58_address" in
      Ok (PDict [("data", PStr text);
                 ("signature", PStr (Hex.encode signature));
                 ("public_key", PStr public_hex);
                 ("ss58_address", ss58_address)])
    else Ok (PBytes signature).

(** Lines 650-657: the verification function of a scheme. *)
Definition crypto_verify_fn (crypto_type : pyval)
    : res (pyval -> pyval -> pyval -> res bool) :=
  if eq_str crypto_type "sr25519" then Ok sr25519.verify
  else if eq_str crypto_type "ed25519" then Ok ed25519_zebra.ed_verify
  else if eq_str crypto_type "ecdsa" then Ok ecdsa_helpers.ecdsa_verify
  else Err (ConfigurationError "Crypto type not supported").

(** Lines 619-626: a call without a signature takes a record. *)
Definition verify_arguments (data signature public_key : pyval)
    : res (pyval * pyval * pyval) :=
  if is_none signature
  then
    match data with
    | PDict d =>
        if negb (dict_has "data" d)
        then Err (AssertionError
                    "If no signature is provided, data should be a dict with 'data' key")
        else if negb (dict_has "signature" d) then Err (AssertionError "")
        else if negb (dict_has "public_key" d) then Err (AssertionError "")
        else
          let? public_key := py_getitem data "public_key" in
          let? signature := py_getitem data "signature" in
          let? data := py_getitem data "data" in
          Ok (data, signature, public_key)
    | _ => Err (AssertionError "If no signature is provided, data should be a dict")
    end
  else Ok (data, signature, public_key).

(** Lines 602-666. *)
Definition verify (self : dict) (data signature public_key : pyval)
    (crypto_type : option pyval) : res bool :=
  let crypto_type := arg_or (PStr "sr25519") crypto_type in
  let? args := verify_arguments data signature public_key in
  let data := fst (fst args) in
  let signature := snd (fst args) in
  let public_key := snd args in
  let? signature := match signature with
                    | PStr s => let? b := fromhex s in Ok (PBytes b)
                    | _ => Ok signature
                    end in
  let data := c.python2str data in
  let? public_key := (if is_none public_key
                      then
                        let? own := attr self "public_key" in
                        let? h := py_hex own in
                        Ok (PStr h)
                      else Ok public_key) in
  let? data := data_to_bytes data in
  let? signature := match signature with
                    | PStr s =>
                        if String.prefix "0x" s
                        then let? b := fromhex (str_drop 2 s) in Ok (PBytes b)
                        else Ok signature
                    | _ => Ok signature
                    end in
  match signature with
  | PBytes _ =>
      let? fn := crypto_verify_fn crypto_type in
      let? own := attr self "public_key" in
      let? verified := fn signature data own in
      if negb verified
      then
        let? wrapped := wrap_bytes data in
        let? own := attr self "public_key" in
        fn signature wrapped own
      else Ok verified
  | _ => Err (TypeError "Signature should be of type bytes or a hex-string")
  end.

(** [message if isinstance(message, bytes) else message.encode("utf-8")]. *)
Definition message_bytes (message : pyval) : res bytes :=
  match message with
  | PBytes b => Ok b
  | PStr s => Ok (str_encode s)
  | _ => Err (AttributeError "encode")
  end.

(** Lines 668-692.  [nonce = None] is a call that omits the argument: the
    parameter then takes the default value that the class statement
    computed. *)
Definition encrypt_message (K : class_Keypair) (self : dict)
    (message recipient_public_key : pyval) (nonce : option pyval) : res pyval :=
  let nonce := arg_or (encrypt_message_nonce_default K) nonce in
  let? private_key := attr self "private_key" in
  if negb (truthy private_key)
  then Err (ConfigurationError "No private key set to encrypt")
  else
    let? crypto_type := attr self "crypto_type" in
    if negb (eq_str crypto_type "ed25519")
    then Err (ConfigurationError "Only ed25519 keypair type supported")
    else
      let? recipient := nacl.crypto_sign_ed25519_pk_to_curve25519 recipient_public_key in
      let? private_key := attr self "private_key" in
      let? public_key := attr self "public_key" in
      let? both := py_add private_key public_key in
      let? sender := nacl.crypto_sign_ed25519_sk_to_curve25519 both in
      let? plaintext := message_bytes message in
      let? encrypted := nacl.box_encrypt sender recipient plaintext nonce in
      Ok (PBytes encrypted).

(** Lines 694-714. *)
Definition decrypt_message (self : dict)
    (encrypted_message_with_nonce sender_public_key : pyval) : res pyval :=
  let? private_key := attr self "private_key" in
  if negb (truthy private_key)
  then Err (ConfigurationError "No private key set to decrypt")
  else
    let? crypto_type := attr self "crypto_type" in
    if negb (eq_str crypto_type "ed25519")
    then Err (ConfigurationError "Only ed25519 keypair type supported")
    else
      let? private_key := attr self "private_key" in
      let? public_key := attr self "public_key" in
      let? both := py_add private_key public_key in
      let? recipient := nacl.crypto_sign_ed25519_sk_to_curve25519 both in
      let? sender := nacl.crypto_sign_ed25519_pk_to_curve25519 sender_public_key in
      let? message := nacl.box_decrypt recipient sender encrypted_message_with_nonce in
      Ok (PBytes message).

(** Lines 523-555. *)
Definition export_to_encrypted_json (self : dict) (passphrase name : pyval)
    : M W pyval :=
  name <- (if negb (truthy name) then pure (attr self "ss58_address") else ret name) ;;
  crypto_type <- pure (attr self "crypto_type") ;;
  if negb (eq_str crypto_type "sr25519")
  then raise (NotImplementedError
                ("Cannot create JSON for crypto_type '" ++ py.format crypto_type ++ "'"))
  else
    private_key <- pure (attr self "private_key") ;;
    converted_private_key <- pure (sr25519.convert_secret_key_to_ed25519 private_key) ;;
    public_key <- pure (attr self "public_key") ;;
    encoded <- pure (substrateinterface.encode_pair public_key
                       (PBytes converted_private_key) passphrase) ;;
    ss58_address <- pure (attr self "ss58_address") ;;
    created <- py.time ;;
    ret (PDict
           [("encoded", PStr (py.b64encode encoded));
            ("encoding",
             PDict [("content", PList [PStr "pkcs8"; PStr "sr25519"]);
                    ("type", PList [PStr "scrypt"; PStr "xsalsa20-poly1305"]);
                    ("version", PStr "3")]);
            ("address", ss58_address);
            ("meta",
             PDict [("name", name);
                    ("tags", PList []);
                    ("whenCreated", PInt created)])]).

(** *** The remaining methods *)

(** Lines 214-216: the property [address]. *)
Definition address (self : dict) : res pyval := attr self "ss58_address".

(** An instance method run on an object that a class method holds. *)
Definition on_object {A : Type} (self : dict) (m : M obj_state A) : M W (A * dict) :=
  fun w => match m (self, w) with
           | (Ok a, (self', w')) => (Ok (a, self'), w')
           | (Err e, (_, w')) => (Err e, w')
           end.

(** [cls(path=path, password=password, **kwargs)]: a keyword given twice is
    a TypeError. *)
Definition Keypair_at (path password : pyval) (kwargs : dict) : M W dict :=
  if dict_has "path" kwargs || dict_has "password" kwargs
  then raise (TypeError "got multiple values for keyword argument")
  else Keypair (("path", path) :: ("password", password) :: kwargs).

(** Lines 218-221. *)
Definition add (path password : pyval) (kwargs : dict) : M W pyval :=
  Keypair_at path password kwargs ;;
  ret path.

(** Lines 223-226. *)
Definition get_key (path password : pyval) (kwargs : dict) : M W dict :=
  Keypair_at path password kwargs.

(** Lines 243-255. *)
Definition validate_mnemonic (mnemonic language_code : pyval) : res bool :=
  py.bip39_validate mnemonic language_code.

(** Lines 764-767. *)
Definition delete (path : pyval) : M W (list string) :=
  c.rm_json path ;;
  ls_keys.

(** Lines 716-720. *)
Definition __repr__ (self : dict) : res string :=
  let? ss58_address := attr self "ss58_address" in
  if truthy ss58_address
  then Ok ("<Keypair (address=" ++ py.format ss58_address ++ ")>")%string
  else
    let? public_key := attr self "public_key" in
    let? h := py_hex public_key in
    Ok ("<Keypair (public_key=0x" ++ h ++ ")>")%string.

(** Lines 815-823. *)
Definition load_from_dict (state password : pyval) : M obj_state unit :=
  encrypted <- pure (py_get state "encrypted" (PBool false)) ;;
  has_data <- pure (py_contains_str "data" state) ;;
  state <- (if has_data then pure (py_getitem state "data") else ret state) ;;
  state <- (if truthy encrypted then pure (c.decrypt state password) else ret state) ;;
  state <- match state with
           | PStr s => pure (py.json_loads s)
           | _ => ret state
           end ;;
  match state with
  | PDict d => set_params d
  | _ => raise (TypeError "argument after ** must be a mapping")
  end.

(** Lines 808-812. *)
Definition from_path (path password : pyval) : M W dict :=
  self <- Keypair [("path", path)] ;;
  loaded <- on_object self (load PNone password) ;;
  ret (snd loaded).

(** An instance method that keeps the attribute [k] of [self], whether it
    returns or raises. *)
Definition keeps {A : Type} (k : string) (m : M obj_state A) : Prop :=
  forall s : obj_state, dict_get k (fst (snd (m s))) = dict_get k (fst s).

(** The tag and the format in the dictionary of a class method called as
    [set_params] calls it. *)
Definition tagged_sr25519 (kwargs : dict) : Prop :=
  dict_get "crypto_type" (rev kwargs) = Some (PStr "sr25519") /\
  dict_get "ss58_format" (rev kwargs) = Some (PInt 42).

(** The attributes that lines 172-208 may write. *)
Definition validated_attributes : list string :=
  ["derive_path"; "public_key"; "private_key"; "ss58_address"].

(** The attributes of the object after lines 135-170, when the caller gave
    no seed, mnemonic or URI and the arguments are stored as they are (lines
    163-170). *)
Definition raw_attributes (kw : dict) : dict :=
  [("path", kwarg "path" (PStr "default") kw);
   ("password", kwarg "password" PNone kw);
   ("ss58_address", kwarg "ss58_address" PNone kw);
   ("public_key", kwarg "public_key" PNone kw);
   ("private_key", kwarg "private_key" PNone kw);
   ("ss58_format", kwarg "ss58_format" PNone kw);
   ("seed_hex", PNone);
   ("mnemonic", PNone);
   ("derive_path", kwarg "derive_path" PNone kw);
   ("crypto_type", kwarg "crypto_type" (PStr "sr25519") kw)].

(** A new object on which [m] runs as the body of the constructor; an
    exception leaves no object. *)
Definition construct (m : M obj_state unit) (attributes : dict) : M W dict :=
  fun w =>
    match m (attributes, w) with
    | (Ok _, (self, w')) => (Ok self, w')
    | (Err e, (_, w')) => (Err e, w')
    end.

(** The attributes of a keypair that holds a public key in bytes, as lines
    163-208 leave them. *)
Definition raw_keypair (path password ss58_format crypto_type private_key : pyval)
    (ss58_address : string) (public_key : bytes) : dict :=
  [("path", path);
   ("password", password);
   ("ss58_address", PStr ss58_address);
   ("public_key", PBytes public_key);
   ("private_key", private_key);
   ("ss58_format", ss58_format);
   ("seed_hex", PNone);
   ("mnemonic", PNone);
   ("derive_path", PNone);
   ("crypto_type", crypto_type)].

(** *** The URI //Alice *)

(** What the pattern of [create_from_uri] must find in the development
    phrase followed by the path //Alice. *)
Definition Alice_match : Prop :=
  re_match suri_pattern (substrateinterface.DEV_PHRASE ++ "//Alice")%string
  = Matched [("phrase", substrateinterface.DEV_PHRASE); ("path", "//Alice")].

(** The attributes that [create_from_uri] returns to [set_params] for the
    URI //Alice: those of the key of the development phrase itself. *)
Definition Alice_kwargs (seed pub priv : bytes) (addr : string) : dict :=
  [("ss58_address", PStr addr);
   ("public_key", PBytes pub);
   ("private_key", PBytes priv);
   ("ss58_format", PInt 42);
   ("crypto_type", PStr "sr25519");
   ("seed_hex", PBytes seed);
   ("mnemonic", PStr substrateinterface.DEV_PHRASE);
   ("uri", PStr (substrateinterface.DEV_PHRASE ++ "//Alice"))].

(** The object that the constructor builds for the URI //Alice. *)
Definition Alice_object (seed pub' priv : bytes) (addr : string) : dict :=
  [("path", PStr "default");
   ("password", PNone);
   ("ss58_address", PStr addr);
   ("public_key", PBytes pub');
   ("private_key", PBytes priv);
   ("ss58_format", PInt 42);
   ("crypto_type", PStr "sr25519");
   ("seed_hex", PBytes seed);
   ("mnemonic", PStr substrateinterface.DEV_PHRASE);
   ("uri", PStr (substrateinterface.DEV_PHRASE ++ "//Alice"));
   ("derive_path", PNone)].

End KeypairClass.

(** ** A small instance of the interfaces

    Stand-ins for the libraries, simple enough to run the methods on
    concrete inputs: keys are prefixes of their seed, a signature is the
    public key followed by the message, the storage is a list of files. *)

Module Toy.

Record world : Type := {
  files : list (string * pyval);
  draws : nat
}.

Definition pad (n : nat) (b : bytes) : bytes := firstn n (b ++ repeat x00 n).

Fixpoint bytes_eqb (a b : bytes) : bool :=
  match a, b with
  | [], [] => true
  | x :: a', y :: b' => Byte.eqb x y && bytes_eqb a' b'
  | _, _ => false
  end.

Definition bad_type {A : Type} : res A := Err (TypeError "expected bytes").
Arguments bad_type {A}, A.

Definition toy_derive (mix : bytes -> bytes) (parent : pyval * pyval * pyval)
    : res (bytes * bytes * bytes) :=
  match parent with
  | (PBytes cc, _, PBytes sk) =>
      let child := pad 64 (mix cc ++ sk) in Ok (cc, firstn 32 child, child)
  | _ => bad_type
  end.

#[export] Instance Sr : sr25519.Lib := {|
  sr25519.pair_from_seed seed :=
    match seed with
    | PBytes s => Ok (pad 32 s, pad 64 (s ++ s))
    | _ => bad_type
    end;
  sr25519.public_from_secret_key k :=
    match k with PBytes b => Ok (firstn 32 b) | _ => bad_type end;
  sr25519.hard_derive_keypair parent _ := toy_derive (fun cc => cc) parent;
  sr25519.derive_keypair parent _ := toy_derive (@rev byte) parent;
  sr25519.sign pair data :=
    match pair, data with
    | (_, PBytes sk), PBytes m => Ok (firstn 32 sk ++ m)
    | _, _ => bad_type
    end;
  sr25519.verify sg data pk :=
    match sg, data, pk with
    | PBytes s, PBytes m, PBytes k => Ok (bytes_eqb s (k ++ m))
    | _, _, _ => bad_type
    end;
  sr25519.convert_secret_key_to_ed25519 k :=
    match k with PBytes b => Ok (rev b) | _ => bad_type end
|}.

#[export] Instance Ed : ed25519_zebra.Lib := {|
  ed25519_zebra.ed_from_seed seed :=
    match seed with
    | PBytes s => Ok (pad 32 s, pad 32 (rev s))
    | _ => bad_type
    end;
  ed25519_zebra.ed_sign sk data :=
    match sk, data with
    | PBytes k, PBytes m => Ok (pad 32 (rev k) ++ m)
    | _, _ => bad_type
    end;
  ed25519_zebra.ed_verify sg data pk :=
    match sg, data, pk with
    | PBytes s, PBytes m, PBytes k => Ok (bytes_eqb s (k ++ m))
    | _, _, _ => bad_type
    end
|}.

#[export] Instance Ec : ecdsa_helpers.Lib := {|
  ecdsa_helpers.mnemonic_to_ecdsa_private_key _ _ _ := Ok (repeat x02 32);
  ecdsa_helpers.ecdsa_sign sk data :=
    match sk, data with
    | PBytes k, PBytes m => Ok (pad 20 k ++ m)
    | _, _ => bad_type
    end;
  ecdsa_helpers.ecdsa_verify sg data pk :=
    match sg, data, pk with
    | PBytes s, PBytes m, PBytes k => Ok (bytes_eqb s (k ++ m))
    | _, _, _ => bad_type
    end
|}.

#[export] Instance Eth : eth_keys.Lib := {|
  eth_keys.to_address k :=
    match k with
    | PBytes b => Ok (String "0" (String "x" (Hex.encode (pad 20 b))))
    | _ => bad_type
    end;
  eth_keys.to_checksum_address k :=
    match k with
    | PBytes b => Ok (String "0" (String "x" (Hex.encode (pad 20 b))))
    | _ => bad_type
    end
|}.

#[export] Instance Codec : ss58.Lib := {|
  ss58.ss58_encode pk _ :=
    match pk with
    | PBytes b => Ok (String "5" (Hex.encode b))
    | _ => bad_type
    end;
  ss58.ss58_decode address _ :=
    match address with
    | PStr (String "5" h) => Ok h
    | _ => Err (ValueError "Invalid address")
    end;
  ss58.get_ss58_format _ := Ok 42%Z
|}.

Definition toy_decode_pair (json_data passphrase : pyval) : res (bytes * bytes) :=
  match py_getitem json_data "encoded", passphrase with
  | Ok (PStr h), PStr p =>
      match Hex.decode h with
      | Some b =>
          if bytes_eqb (skipn 96 b) (str_encode p)
          then Ok (rev (firstn 64 (skipn 32 b)), firstn 32 b)
          else Err (LibraryError "DecryptionFailed")
      | None => Err (ValueError "Unsupported JSON format")
      end
  | _, _ => Err (ValueError "Unsupported JSON format")
  end.

#[export] Instance Sub : substrateinterface.Lib := {|
  substrateinterface.DEV_PHRASE :=
    "bottom drive obey lake curtain smoke basket hold race lonely fit walk";
  substrateinterface.extract_derive_path p :=
    Ok [ {| chain_code := pad 32 (str_encode p);
            is_hard := String.prefix "//" p |} ];
  substrateinterface.decode_pair_from_encrypted_json := toy_decode_pair;
  substrateinterface.encode_pair pk sk passphrase :=
    match pk, sk, passphrase with
    | PBytes k, PBytes s, PStr p => Ok (k ++ s ++ str_encode p)
    | _, _, _ => bad_type
    end
|}.

#[export] Instance Na : nacl.Lib := {|
  nacl.crypto_sign_ed25519_pk_to_curve25519 pk :=
    match pk with PBytes b => Ok (rev b) | _ => bad_type end;
  nacl.crypto_sign_ed25519_sk_to_curve25519 sk :=
    match sk with PBytes b => Ok (pad 32 b) | _ => bad_type end;
  nacl.box_encrypt sender recipient plaintext nonce :=
    match nonce with
    | PBytes n => Ok (n ++ plaintext)
    | _ => bad_type
    end;
  nacl.box_decrypt recipient sender ciphertext :=
    match ciphertext with
    | PBytes b => Ok (skipn 24 b)
    | _ => bad_type
    end
|}.

(** The stored snapshot that the stand-in for [json.loads] reads back. *)
Definition snapshot : pyval :=
  PDict [("path", PStr "default"); ("password", PNone);
         ("seed_hex", PStr (Hex.encode (repeat x07 32)))].

#[export] Instance Py : py.Lib world := {|
  py.json_dumps _ := Ok "{}";
  py.json_loads _ := Ok snapshot;
  py.b64encode := Hex.encode;
  py.decode b := Ok (string_of_list_byte b);
  py.format v := match v with PStr s => s | _ => "?" end;
  py.time := ret 1700000000%Z;
  py.token_bytes n :=
    fun w => (Ok (repeat (Hex.byte_of_N (N.of_nat (draws w))) n),
              {| files := files w; draws := S (draws w) |});
  py.bip39_generate _ _ := ret "abandon ability able about above absent";
  py.bip39_to_mini_secret m _ _ :=
    match m with
    | PStr s => Ok (pad 32 (str_encode s))
    | _ => bad_type
    end;
  py.bip39_validate _ _ := Ok true
|}.

Fixpoint file_set (p : string) (v : pyval) (fs : list (string * pyval))
    : list (string * pyval) :=
  match fs with
  | [] => [(p, v)]
  | (q, u) :: r => if String.eqb p q then (p, v) :: r else (q, u) :: file_set p v r
  end.

#[export] Instance CM : c.Module world := {|
  c.python2str v := v;
  c.hash v :=
    match v with
    | PStr s => Ok (PStr (Hex.encode (pad 32 (str_encode s))))
    | _ => bad_type
    end;
  c.locals2kwargs locals := locals;
  c.encrypt data _ := Ok data;
  c.decrypt data _ := Ok data;
  c.get_json path :=
    fun w => match path with
             | PStr p => match dict_get p (files w) with
                         | Some v => (Ok v, w)
                         | None => (Err (LibraryError "no such file"), w)
                         end
             | _ => (bad_type, w)
             end;
  c.put_json path state :=
    fun w => match path with
             | PStr p =>
                 (Ok tt, {| files := file_set p state (files w); draws := draws w |})
             | _ => (bad_type, w)
             end;
  c.ls := fun w => (Ok (map fst (files w)), w);
  c.file_exists path :=
    fun w => match path with
             | PStr p => (Ok (dict_has p (files w)), w)
             | _ => (Ok false, w)
             end;
  c.rm_json _ := ret tt
|}.

Definition empty : world := {| files := []; draws := 0 |}.

(** The key of the development phrase under the stand-ins. *)
Definition dev_seed : bytes := pad 32 (str_encode substrateinterface.DEV_PHRASE).
Definition dev_pub : bytes := pad 32 dev_seed.
Definition dev_priv : bytes := pad 64 (dev_seed ++ dev_seed).
Definition dev_pub' : bytes := firstn 32 dev_priv.
Definition dev_addr : string := String "5" (Hex.encode dev_pub).

(** A key pair of scheme Ed25519, held in bytes. *)
Definition ed_public : bytes := repeat x09 32.
Definition ed_private : bytes := repeat x0a 32.
Definition ed_keypair : dict :=
  [("crypto_type", PStr "ed25519");
   ("public_key", PBytes ed_public);
   ("private_key", PBytes ed_private)].

(** A keypair that holds a public key only. *)
Definition public_only : dict :=
  [("crypto_type", PStr "sr25519");
   ("public_key", PBytes ed_public);
   ("private_key", PNone)].

(** A signature of the stand-in scheme over the wrapped message. *)
Definition test_message : bytes := str_encode "test message".

(** An export record of the stand-in format for an Sr25519 key pair. *)
Definition sr_public : bytes := repeat x0b 32.
Definition sr_private : bytes := repeat x0c 64.
Definition export_record : pyval :=
  PDict
    [("encoded", PStr (Hex.encode (sr_public ++ rev sr_private ++ str_encode "pw")));
     ("encoding",
      PDict [("content", PList [PStr "pkcs8"; PStr "sr25519"]);
             ("type", PList [PStr "scrypt"; PStr "xsalsa20-poly1305"]);
             ("version", PStr "3")]);
     ("address", PStr (String "5" (Hex.encode sr_public)));
     ("meta", PDict [("name", PStr "k"); ("tags", PList []);
                     ("whenCreated", PInt 1700000000)])].

(** A storage that holds a key named default. *)
Definition with_default : world :=
  {| files := [("default", PDict [("data", PStr "{}"); ("encrypted", PBool false)])];
     draws := 0 |}.

End Toy.

(** More sample data for the stand-ins of [Toy]. *)
Module Samples.

Import Toy.

Definition K : class_Keypair :=
  {| encrypt_message_nonce_default := PBytes (repeat x00 24) |}.

(** An Sr25519 key pair of the stand-in scheme: the public key is the first
    half of the private key. *)
Definition signer : dict :=
  [("crypto_type", PStr "sr25519");
   ("public_key", PBytes (firstn 32 sr_private));
   ("private_key", PBytes sr_private)].

(** A second Ed25519 key pair. *)
Definition bob_public : bytes := repeat x0d 32.
Definition bob_private : bytes := repeat x0e 32.
Definition bob : dict :=
  [("crypto_type", PStr "ed25519");
   ("public_key", PBytes bob_public);
   ("private_key", PBytes bob_private)].

Definition nonce : bytes := repeat x01 24.

(** A keypair as the constructor leaves it for keys passed in bytes. *)
Definition saved_keypair : dict :=
  raw_keypair (PStr "default") PNone (PInt 42) (PStr "sr25519") (PBytes sr_private)
    (String "5" (Hex.encode sr_public)) sr_public.

(** A JSON codec that reads back the snapshot of [saved_keypair]. *)
Definition Py : py.Lib world := {|
  py.json_dumps _ := Ok "{}";
  py.json_loads _ :=
    Ok (PDict (map (fun kv => (fst kv, hex_if_bytes (snd kv))) saved_keypair));
  py.b64encode := Hex.encode;
  py.decode b := Ok (string_of_list_byte b);
  py.format v := match v with PStr s => s | _ => "?" end;
  py.time := ret 1700000000%Z;
  py.token_bytes n := fun w => (Ok (repeat x00 n), w);
  py.bip39_generate _ _ := ret "abandon ability able about above absent";
  py.bip39_to_mini_secret _ _ _ := Ok (repeat x00 32);
  py.bip39_validate _ _ := Ok true
|}.

(** A storage that lists one key file in a directory. *)
Definition with_alice : world :=
  {| files := [("keys/alice.json", PDict [])]; draws := 0 |}.

End Samples.


(** * Theorems *)

Module HexFacts.

Lemma decode_byte (x : byte) (r : string) :
  Hex.decode (String (Hex.digit (Byte.to_N x / 16))
            (String (Hex.digit (Byte.to_N x mod 16)) r))
  = match Hex.decode r with
    | Some t => Some (x :: t)
    | None => None
    end.
Proof. destruct x; cbn; destruct (Hex.decode r); reflexivity. Qed.

Lemma decode_encode (b : bytes) : Hex.decode (Hex.encode b) = Some b.
Proof.
  induction b as [|x r IH]; [reflexivity|].
  cbn [Hex.encode]. now rewrite decode_byte, IH.
Qed.

Lemma strip_0x_no_x (s : string) : Hex.no_x s = true -> Hex.strip_0x s = s.
Proof.
  induction s as [|c r IH]; [reflexivity|].
  cbn [Hex.no_x]. intros H. apply andb_prop in H as [Hc Hr].
  specialize (IH Hr).
  assert (Hstep : Hex.strip_0x (String c r) = String c (Hex.strip_0x r)).
  { destruct r as [|d r']; [destruct c as [[] [] [] [] [] [] [] []]; reflexivity|].
    cbn [Hex.no_x] in Hr. apply andb_prop in Hr as [Hd _].
    destruct (Ascii.eqb_spec d "x") as [->|Hne]; [discriminate|].
    destruct c as [[] [] [] [] [] [] [] []]; try reflexivity.
    destruct d as [[] [] [] [] [] [] [] []]; try reflexivity.
    now elim Hne. }
  now rewrite Hstep, IH.
Qed.

Lemma no_x_encode (b : bytes) : Hex.no_x (Hex.encode b) = true.
Proof.
  induction b as [|x r IH]; [reflexivity|].
  cbn [Hex.encode Hex.no_x]. rewrite IH. destruct x; reflexivity.
Qed.

Lemma strip_0x_encode (b : bytes) : Hex.strip_0x (Hex.encode b) = Hex.encode b.
Proof. apply strip_0x_no_x, no_x_encode. Qed.

Lemma length_encode (b : bytes) :
  String.length (Hex.encode b) = 2 * List.length b.
Proof. induction b as [|x r IH]; cbn [Hex.encode String.length List.length]; lia. Qed.

End HexFacts.

(** ** Dictionaries *)

Lemma dict_get_set_same (k : string) (v : pyval) (d : dict) :
  dict_get k (dict_set k v d) = Some v.
Proof.
  induction d as [|[k' v'] r IH]; cbn.
  - now rewrite String.eqb_refl.
  - destruct (String.eqb k k') eqn:E; cbn; rewrite ?String.eqb_refl, ?E; auto.
Qed.

Lemma dict_get_set_other (k k' : string) (v : pyval) (d : dict) :
  k <> k' -> dict_get k (dict_set k' v d) = dict_get k d.
Proof.
  intros Hne. induction d as [|[k0 v0] r IH]; cbn.
  - apply String.eqb_neq in Hne. now rewrite Hne.
  - destruct (String.eqb k' k0) eqn:E; cbn.
    + apply String.eqb_eq in E. subst k0.
      apply String.eqb_neq in Hne. now rewrite Hne.
    + destruct (String.eqb k k0); auto.
Qed.

Lemma dict_get_hex (k : string) (d : dict) :
  dict_get k (map (fun kv => (fst kv, hex_if_bytes (snd kv))) d)
  = option_map hex_if_bytes (dict_get k d).
Proof.
  induction d as [|[k' v'] r IH]; cbn; [reflexivity|].
  destruct (String.eqb k k'); auto.
Qed.

Lemma hex_if_bytes_not_bytes (v : pyval) (b : bytes) : hex_if_bytes v <> PBytes b.
Proof. destruct v; cbn; discriminate. Qed.

(** After the loop of [state_dict], no attribute holds bytes. *)
Lemma dict_get_hex_not_bytes (k : string) (d : dict) (b : bytes) :
  dict_get k (map (fun kv => (fst kv, hex_if_bytes (snd kv))) d) <> Some (PBytes b).
Proof.
  rewrite dict_get_hex. destruct (dict_get k d) as [v|]; cbn; [|discriminate].
  intros H. injection H as H. now apply hex_if_bytes_not_bytes in H.
Qed.

(** ** The monad *)

Lemma bind_Ok_inv {S A B : Type} (m : M S A) (f : A -> M S B) (s s' : S) (b : B) :
  bind m f s = (Ok b, s') ->
  exists a s1, m s = (Ok a, s1) /\ f a s1 = (Ok b, s').
Proof.
  unfold bind. destruct (m s) as [[a|e] s1]; intros H.
  - now exists a, s1.
  - discriminate.
Qed.

Lemma pure_Ok_inv {S A : Type} (r : res A) (s s' : S) (a : A) :
  pure r s = (Ok a, s') -> r = Ok a /\ s' = s.
Proof. unfold pure. intros H. injection H as -> ->. auto. Qed.

Lemma ret_Ok_inv {S A : Type} (x a : A) (s s' : S) :
  ret x s = (Ok a, s') -> x = a /\ s' = s.
Proof. unfold ret. intros H. injection H as -> ->. auto. Qed.

Section KeypairFacts.

Context {W : Type}.
Context {Sr : sr25519.Lib} {Ed : ed25519_zebra.Lib} {Ec : ecdsa_helpers.Lib}
        {Eth : eth_keys.Lib} {Codec : ss58.Lib} {Sub : substrateinterface.Lib}
        {Na : nacl.Lib} {Py : py.Lib W} {CM : c.Module W}.


(** C1.  The nonce of [encrypt_message] is not fresh per call: the class
    statement draws one value [n] from [secrets.token_bytes], once, and
    every later call that omits the nonce, on any keypair, message and
    recipient, encrypts exactly as the call that passes [n].  The claim that
    two such calls use independently fresh nonces fails. *)
Theorem encrypt_message_default_nonce_shared
    (w w' : W) (K : class_Keypair) :
  class_body w = (Ok K, w') ->
  exists n : bytes,
    py.token_bytes 24 w = (Ok n, w') /\
    forall (self1 self2 : dict) (m1 m2 r1 r2 : pyval),
      encrypt_message K self1 m1 r1 None
        = encrypt_message K self1 m1 r1 (Some (PBytes n)) /\
      encrypt_message K self2 m2 r2 None
        = encrypt_message K self2 m2 r2 (Some (PBytes n)).
Proof.
  unfold class_body. intros H.
  apply bind_Ok_inv in H as (n & w1 & Hn & Hret).
  apply ret_Ok_inv in Hret as [<- ->].
  exists n. split; [exact Hn|].
  intros. split; reflexivity.
Qed.

(** C3.  [state_dict] writes the object: an attribute that held bytes holds
    their hexadecimal text afterwards, whether or not the call then raises.
    [save], given a path, calls [state_dict] and has the same effect.  The
    claim that no operation after construction changes the fields fails for
    both. *)
Theorem state_dict_rewrites_bytes_attributes
    (self : dict) (w : W) (k : string) (b : bytes) (password : pyval) :
  dict_get k self = Some (PBytes b) ->
  dict_get k (fst (snd (state_dict password (self, w))))
    = Some (PStr (Hex.encode b)) /\
  forall path : pyval, is_none path = false ->
    dict_get k (fst (snd (save path password (PBool true) (self, w))))
      = Some (PStr (Hex.encode b)).
Proof.
  intros Hk.
  assert (Hhex : dict_get k (map (fun kv => (fst kv, hex_if_bytes (snd kv))) self)
                 = Some (PStr (Hex.encode b))).
  { rewrite dict_get_hex, Hk. reflexivity. }
  assert (Hsd : fst (snd (state_dict password (self, w)))
                = map (fun kv => (fst kv, hex_if_bytes (snd kv))) self).
  { unfold state_dict, bind, hex_bytes_in_place, pure, ret. cbn.
    destruct (py.json_dumps _); cbn; [|reflexivity].
    destruct (is_none password); cbn; [reflexivity|].
    destruct (c.encrypt _ _); reflexivity. }
  split.
  - now rewrite Hsd.
  - intros path Hpath.
    unfold save, resolve_key_path. rewrite Hpath.
    unfold bind at 1. unfold ret at 1. cbn [eq_False negb].
    unfold bind at 1. unfold ret at 1.
    unfold bind at 1.
    destruct (state_dict password (self, w)) as [[st|e] [self1 w1]] eqn:E;
      cbn [fst snd] in Hsd; subst self1.
    + unfold in_world. cbn [fst snd].
      destruct (c.put_json path st w1) as [r w2]. exact Hhex.
    + exact Hhex.
Qed.



(** C10.  [is_encrypted] reads the flag of the record and returns None: a
    call that returns, returns None; and for a path with a stored record,
    or for a record passed in, the call does return, whatever the flag
    'encrypted' of the record says. *)
Theorem is_encrypted_returns_None :
  (forall (path state v : pyval) (s s' : obj_state),
      is_encrypted path state s = (Ok v, s') -> v = PNone) /\
  (forall (self : dict) (w w1 : W) (path : pyval) (record : dict),
      is_none path = false ->
      c.get_json path w = (Ok (PDict record), w1) ->
      is_encrypted path PNone (self, w) = (Ok PNone, (self, w1))) /\
  (forall (self : dict) (w : W) (path : pyval) (record : dict),
      is_none path = false ->
      is_encrypted path (PDict record) (self, w) = (Ok PNone, (self, w))).
Proof.
  repeat split.
  - intros path state v s s' H. unfold is_encrypted in H.
    apply bind_Ok_inv in H as (p & s1 & _ & H).
    apply bind_Ok_inv in H as (st & s2 & _ & H).
    apply bind_Ok_inv in H as (e & s3 & _ & H).
    apply ret_Ok_inv in H as [H _]. now symmetry.
  - intros self w w1 path record Hp Hg.
    unfold is_encrypted, resolve_key_path. rewrite Hp.
    unfold bind, ret, in_world, pure. cbn. rewrite Hg. reflexivity.
  - intros self w path record Hp.
    unfold is_encrypted, resolve_key_path. rewrite Hp. reflexivity.
Qed.

(** ** The recursion between the constructor and the class methods

    With [return_dict=True] a class method returns before it would call the
    constructor, and with [load=False] [set_params] does not call [load]:
    the two stand-ins used to define [set_params] and [load] are never
    run. *)

Lemma create_from_seed_return_dict
    (cls1 cls2 : dict -> M W dict) (seed_hex ss58_format crypto_type : pyval) :
  create_from_seed cls1 seed_hex ss58_format crypto_type true
  = create_from_seed cls2 seed_hex ss58_format crypto_type true.
Proof. reflexivity. Qed.

Lemma create_from_mnemonic_return_dict
    (cls1 cls2 : dict -> M W dict)
    (mnemonic ss58_format crypto_type language_code : pyval) :
  create_from_mnemonic cls1 mnemonic ss58_format crypto_type language_code true
  = create_from_mnemonic cls2 mnemonic ss58_format crypto_type language_code true.
Proof. reflexivity. Qed.

Lemma create_from_uri_return_dict
    (cls1 cls2 : dict -> M W dict)
    (suri ss58_format crypto_type language_code : pyval) :
  create_from_uri cls1 suri ss58_format crypto_type language_code true
  = create_from_uri cls2 suri ss58_format crypto_type language_code true.
Proof. reflexivity. Qed.

Lemma set_params_without_load
    (load1 load2 : pyval -> pyval -> M obj_state unit) (kw : dict) :
  truthy (kwarg "load" (PBool false) kw) = false ->
  set_params_with load1 kw = set_params_with load2 kw.
Proof.
  intros H. unfold set_params_with. rewrite H, andb_false_r. reflexivity.
Qed.

(** ** What [save] leaves in the object *)

Lemma in_world_self {A : Type} (m : M W A) (s s' : obj_state) (r : res A) :
  in_world m s = (r, s') -> fst s' = fst s.
Proof.
  unfold in_world. destruct (m (snd s)) as [r0 w0]. intros H.
  injection H as _ <-. reflexivity.
Qed.

Lemma state_dict_self (password : pyval) (s : obj_state) :
  fst (snd (state_dict password s))
  = map (fun kv => (fst kv, hex_if_bytes (snd kv))) (fst s).
Proof.
  unfold state_dict, bind, hex_bytes_in_place, pure, ret. cbn.
  destruct (py.json_dumps _); cbn; [|reflexivity].
  destruct (is_none password); cbn; [reflexivity|].
  destruct (c.encrypt _ _); reflexivity.
Qed.

(** A [save] that returns has run the loop of [state_dict] on [self]. *)
Lemma save_Ok_no_bytes (path password override : pyval) (s s' : obj_state) :
  save path password override s = (Ok tt, s') ->
  forall (k : string) (b : bytes), dict_get k (fst s') <> Some (PBytes b).
Proof.
  unfold save. intros H k b.
  apply bind_Ok_inv in H as (p & s1 & _ & H).
  apply bind_Ok_inv in H as (u & s2 & _ & H).
  apply bind_Ok_inv in H as (st & s3 & Hsd & H).
  apply in_world_self in H. rewrite H.
  pose proof (state_dict_self password s2) as Hs.
  rewrite Hsd in Hs. cbn [fst snd] in Hs. rewrite Hs.
  apply dict_get_hex_not_bytes.
Qed.

(** A [set_params] that saves and does not load from the storage leaves no
    bytes in the object. *)
Lemma set_params_saved_no_bytes
    (self_load : pyval -> pyval -> M obj_state unit) (kw : dict) (s s' : obj_state) :
  truthy (kwarg "save" (PBool false) kw) = true ->
  truthy (kwarg "load" (PBool false) kw) = false ->
  set_params_with self_load kw s = (Ok tt, s') ->
  forall (k : string) (b : bytes), dict_get k (fst s') <> Some (PBytes b).
Proof.
  intros Hsave Hload H. unfold set_params_with in H.
  rewrite Hsave, Hload in H. rewrite andb_false_r in H. cbn [andb] in H.
  apply bind_Ok_inv in H as (u0 & s0 & _ & H).
  apply bind_Ok_inv in H as (u1 & s1 & _ & H).
  apply bind_Ok_inv in H as (u2 & s2 & _ & H).
  apply bind_Ok_inv in H as (stored & s3 & Hst & H).
  apply ret_Ok_inv in Hst as [<- _].
  apply bind_Ok_inv in H as (u4 & s4 & _ & H).
  apply bind_Ok_inv in H as (u5 & s5 & _ & H).
  apply bind_Ok_inv in H as (p & s6 & _ & H).
  apply bind_Ok_inv in H as (pw & s7 & _ & H).
  destruct s7 as [self7 w7]. eapply save_Ok_no_bytes. exact H.
Qed.

Lemma setattr_Ok_inv (k : string) (v : pyval) (u : unit) (s s' : @obj_state W) :
  setattr k v s = (Ok u, s') -> s' = (dict_set k v (fst s), snd s).
Proof. unfold setattr. intros H. now injection H as _ <-. Qed.

(** The same when the storage is consulted and has no such key. *)
Lemma set_params_saved_not_stored_no_bytes
    (self_load : pyval -> pyval -> M obj_state unit) (kw : dict) (s s' : obj_state) :
  truthy (kwarg "save" (PBool false) kw) = true ->
  fst (key_exists (kwarg "path" PNone kw) (snd s)) <> Ok true ->
  set_params_with self_load kw s = (Ok tt, s') ->
  forall (k : string) (b : bytes), dict_get k (fst s') <> Some (PBytes b).
Proof.
  intros Hsave Hnot H. unfold set_params_with in H.
  rewrite Hsave in H.
  apply bind_Ok_inv in H as (u0 & s0 & Hp & H).
  apply pure_Ok_inv in Hp as [_ ->].
  apply bind_Ok_inv in H as (u1 & s1 & Hp & H).
  apply setattr_Ok_inv in Hp. subst s1.
  apply bind_Ok_inv in H as (u2 & s2 & Hp & H).
  apply setattr_Ok_inv in Hp. subst s2. cbn [fst snd] in H.
  apply bind_Ok_inv in H as (stored & s3 & Hst & H).
  assert (Hstored : stored = false).
  { destruct (_ && _ && _).
    - unfold in_world in Hst. cbn [fst snd] in Hst.
      destruct (key_exists (kwarg "path" PNone kw) (snd s)) as [r w1] eqn:E.
      injection Hst as -> _. destruct stored; [|reflexivity].
      now elim Hnot.
    - now apply ret_Ok_inv in Hst as [<- _]. }
  subst stored.
  apply bind_Ok_inv in H as (u4 & s4 & _ & H).
  apply bind_Ok_inv in H as (u5 & s5 & _ & H).
  apply bind_Ok_inv in H as (p & s6 & _ & H).
  apply bind_Ok_inv in H as (pw & s7 & _ & H).
  eapply save_Ok_no_bytes. exact H.
Qed.

Lemma Keypair_Ok_inv (kw self : dict) (w w' : W) :
  Keypair kw w = (Ok self, w') ->
  __init__ kw ([], w) = (Ok tt, (self, w')).
Proof.
  unfold Keypair. destruct (__init__ kw ([], w)) as [[[]|e] [d w1]]; intros H.
  - now injection H as -> ->.
  - discriminate.
Qed.

Lemma init_Ok_inv (kw : dict) (s s' : obj_state) :
  (forall d, c.locals2kwargs d = d) ->
  __init__ kw s = (Ok tt, s') ->
  set_params (init_locals kw) s = (Ok tt, s').
Proof.
  intros Hid H. unfold __init__ in H.
  apply bind_Ok_inv in H as (u & s1 & Hp & H).
  apply pure_Ok_inv in Hp as [_ ->].
  now rewrite Hid in H.
Qed.

(** A keypair built by the constructor with [save] in force (the default)
    and [load=False] holds no bytes: every attribute that was bytes is
    hexadecimal text. *)
Lemma Keypair_saved_no_bytes (kw self : dict) (w w' : W) :
  (forall d, c.locals2kwargs d = d) ->
  truthy (kwarg "save" (PBool true) kw) = true ->
  truthy (kwarg "load" (PBool true) kw) = false ->
  Keypair kw w = (Ok self, w') ->
  forall (k : string) (b : bytes), dict_get k self <> Some (PBytes b).
Proof.
  intros Hid Hsave Hload H.
  apply Keypair_Ok_inv, (init_Ok_inv _ _ _ Hid) in H.
  intros k b.
  apply (set_params_saved_no_bytes load (init_locals kw) ([], w) (self, w'));
    [exact Hsave | exact Hload | exact H].
Qed.

(** ** Running a method step by step *)

Lemma bind_ret_l {S A B : Type} (a : A) (f : A -> M S B) (s : S) :
  bind (ret a) f s = f a s.
Proof. reflexivity. Qed.

Lemma bind_assoc {S A B C : Type} (m : M S A) (f : A -> M S B) (g : B -> M S C) (s : S) :
  bind (bind m f) g s = bind m (fun a => bind (f a) g) s.
Proof. unfold bind. destruct (m s) as [[a|e] s1]; reflexivity. Qed.

Lemma bind_pure_Ok {S A B : Type} (r : res A) (a : A) (f : A -> M S B) (s : S) :
  r = Ok a -> bind (pure r) f s = f a s.
Proof. intros ->. reflexivity. Qed.

Lemma bind_setattr {B : Type} (k : string) (v : pyval) (f : unit -> M (@obj_state W) B)
    (s : @obj_state W) :
  bind (setattr k v) f s = f tt (dict_set k v (fst s), snd s).
Proof. reflexivity. Qed.

Lemma bind_getattr {B : Type} (k : string) (v : pyval) (f : pyval -> M (@obj_state W) B)
    (s : @obj_state W) :
  dict_get k (fst s) = Some v -> bind (getattr k) f s = f v s.
Proof. intros H. unfold bind, getattr. now rewrite H. Qed.

Lemma bind_update_self {B : Type} (kwargs : dict) (f : unit -> M (@obj_state W) B)
    (s : @obj_state W) :
  bind (update_self kwargs) f s = f tt (dict_update (fst s) kwargs, snd s).
Proof. reflexivity. Qed.

Lemma bind_in_world_Ok {A B : Type} (m : M W A) (a : A) (w' : W)
    (f : A -> M (@obj_state W) B) (s : @obj_state W) :
  m (snd s) = (Ok a, w') -> bind (in_world m) f s = f a (fst s, w').
Proof. intros H. unfold bind, in_world. now rewrite H. Qed.

Ltac calc :=
  cbn [kwarg dict_get_default dict_get dict_set dict_update dict_has fold_left
       fst snd String.eqb Ascii.eqb Bool.eqb is_none is_str truthy eq_str
       eq_True eq_False negb andb orb py_len].

Ltac step :=
  first
    [ rewrite bind_ret_l
    | rewrite bind_assoc
    | rewrite bind_setattr
    | rewrite bind_update_self
    | erewrite bind_getattr by (calc; reflexivity) ];
  calc.

(** ** Construction from a URI *)

Lemma fromhex_encode (b : bytes) : fromhex (Hex.strip_0x (Hex.encode b)) = Ok b.
Proof.
  unfold fromhex. now rewrite HexFacts.strip_0x_encode, HexFacts.decode_encode.
Qed.

Lemma create_from_uri_Alice_dict
    (cls : dict -> M W dict) (w : W) (seed pub priv : bytes) (addr : string) :
  Alice_match ->
  py.bip39_to_mini_secret (PStr substrateinterface.DEV_PHRASE) "" (PStr "en") = Ok seed ->
  sr25519.pair_from_seed (PBytes seed) = Ok (pub, priv) ->
  ss58.ss58_encode (PBytes pub) (PInt 42) = Ok addr ->
  create_from_uri cls (PStr "//Alice") (PInt 42) (PStr "sr25519")
    MnemonicLanguageCode.ENGLISH true w
  = (Ok (Alice_kwargs seed pub priv addr), w).
Proof.
  intros Hre Hseed Hpair Haddr. unfold Alice_match in Hre.
  unfold create_from_uri.
  replace (with_dev_phrase "//Alice")
    with (substrateinterface.DEV_PHRASE ++ "//Alice")%string by reflexivity.
  rewrite Hre.
  cbn [groupdict map get_capture String.eqb Ascii.eqb Bool.eqb
       dict_get_default dict_get eq_str truthy].
  unfold bind at 1. unfold ret at 1.
  unfold create_from_mnemonic. cbn [is_none eq_str String.eqb Ascii.eqb Bool.eqb].
  unfold MnemonicLanguageCode.ENGLISH, bind, ret, pure. rewrite Hseed.
  unfold create_from_seed, bind, ret, pure.
  cbn [eq_str String.eqb Ascii.eqb Bool.eqb].
  rewrite fromhex_encode, Hpair. cbn [fst snd]. rewrite Haddr. reflexivity.
Qed.

(** The constructor on the URI //Alice, for any scheme tag [tag] the caller
    passes: [set_params] does not hand the tag on, [create_from_uri]
    returns at line 422, before the path is looked at, and the object is
    the Sr25519 key of the phrase. *)
Lemma Keypair_uri_Alice
    (tag : pyval) (w : W) (seed pub pub' priv : bytes) (addr : string) :
  (forall d, c.locals2kwargs d = d) ->
  Alice_match ->
  py.bip39_to_mini_secret (PStr substrateinterface.DEV_PHRASE) "" (PStr "en") = Ok seed ->
  sr25519.pair_from_seed (PBytes seed) = Ok (pub, priv) ->
  List.length pub = 32 ->
  List.length priv = 64 ->
  ss58.ss58_encode (PBytes pub) (PInt 42) = Ok addr ->
  addr <> EmptyString ->
  sr25519.public_from_secret_key (PBytes priv) = Ok pub' ->
  List.length pub' = 32 ->
  Keypair [("uri", PStr "//Alice"); ("crypto_type", tag);
           ("load", PBool false); ("save", PBool false)] w
  = (Ok (Alice_object seed pub' priv addr), w).
Proof.
  intros Hid Hre Hseed Hpair Hlenpub Hlen Haddr Hne Hpub Hlen'.
  assert (Ha : String.eqb addr "" = false) by now apply String.eqb_neq.
  unfold Keypair, __init__. rewrite Hid.
  rewrite bind_pure_Ok with (a := tt) by reflexivity.
  cbv zeta.
  unfold set_params, set_params_with, init_locals.
  rewrite bind_pure_Ok with (a := tt) by reflexivity.
  calc. repeat step.
  unfold set_params_provenance. calc. repeat step.
  erewrite bind_in_world_Ok
    by (apply (create_from_uri_Alice_dict cls_not_called w seed pub priv addr
             Hre Hseed Hpair Haddr)).
  unfold Alice_kwargs. repeat step.
  unfold set_params_validate. repeat step. rewrite Ha. calc. repeat step.
  rewrite Hlenpub. cbn [Nat.eqb negb]. repeat step.
  unfold set_params_private_key. repeat step.
  rewrite Hlen. cbn [Nat.eqb negb]. repeat step.
  rewrite bind_pure_Ok with (a := 64) by (cbn [py_len]; now rewrite Hlen).
  cbn [Nat.eqb negb]. repeat step.
  rewrite bind_pure_Ok with (a := pub') by exact Hpub.
  repeat step.
  unfold set_params_public_key. repeat step.
  rewrite Hlen'. cbn [Nat.eqb negb]. repeat step.
  rewrite bind_pure_Ok with (a := 32) by (cbn [py_len]; now rewrite Hlen').
  cbn [Nat.eqb negb]. repeat step.
  rewrite Ha. cbn [negb]. reflexivity.
Qed.

(** C2.  The constructor on the URI //Alice with scheme Sr25519 succeeds,
    but the object is not the hard-derived child: [create_from_uri] returns
    its dictionary at line 422, before the junctions of the path are
    walked, and the keypair holds the key of the development phrase itself,
    with the public key [public_from_secret_key] gives for the private key
    of [pair_from_seed].  No derivation backend is called. *)
Theorem uri_Alice_builds_the_key_of_the_phrase
    (w : W) (seed pub pub' priv : bytes) (addr : string) :
  (forall d, c.locals2kwargs d = d) ->
  Alice_match ->
  py.bip39_to_mini_secret (PStr substrateinterface.DEV_PHRASE) "" (PStr "en") = Ok seed ->
  sr25519.pair_from_seed (PBytes seed) = Ok (pub, priv) ->
  List.length pub = 32 ->
  List.length priv = 64 ->
  ss58.ss58_encode (PBytes pub) (PInt 42) = Ok addr ->
  addr <> EmptyString ->
  sr25519.public_from_secret_key (PBytes priv) = Ok pub' ->
  List.length pub' = 32 ->
  Keypair [("uri", PStr "//Alice"); ("load", PBool false); ("save", PBool false)] w
  = (Ok (Alice_object seed pub' priv addr), w).
Proof.
  intros Hid Hre Hseed Hpair Hlenpub Hlen Haddr Hne Hpub Hlen'.
  rewrite <- (Keypair_uri_Alice (PStr "sr25519") w seed pub pub' priv addr); auto.
Qed.

(** C9.  The constructor does not reject a path on another scheme.  For
    every URI text [u] and every scheme tag, the constructor called with the
    tag does what it does with 'sr25519': [set_params] calls
    [create_from_uri] without the tag.  On //Alice with 'ed25519' it
    returns an object, tagged 'sr25519', and raises nothing. *)
Theorem uri_path_on_other_scheme_is_not_rejected
    (tag : pyval) (w : W) (seed pub pub' priv : bytes) (addr : string) :
  (forall d, c.locals2kwargs d = d) ->
  Alice_match ->
  py.bip39_to_mini_secret (PStr substrateinterface.DEV_PHRASE) "" (PStr "en") = Ok seed ->
  sr25519.pair_from_seed (PBytes seed) = Ok (pub, priv) ->
  List.length pub = 32 ->
  List.length priv = 64 ->
  ss58.ss58_encode (PBytes pub) (PInt 42) = Ok addr ->
  addr <> EmptyString ->
  sr25519.public_from_secret_key (PBytes priv) = Ok pub' ->
  List.length pub' = 32 ->
  (forall (u : string) (load_flag save_flag : pyval),
      Keypair [("uri", PStr u); ("crypto_type", tag);
               ("load", load_flag); ("save", save_flag)] w
      = Keypair [("uri", PStr u); ("crypto_type", PStr "sr25519");
                 ("load", load_flag); ("save", save_flag)] w) /\
  Keypair [("uri", PStr "//Alice"); ("crypto_type", PStr "ed25519");
           ("load", PBool false); ("save", PBool false)] w
  = (Ok (Alice_object seed pub' priv addr), w) /\
  dict_get "crypto_type" (Alice_object seed pub' priv addr) = Some (PStr "sr25519").
Proof.
  intros Hid Hre Hseed Hpair Hlenpub Hlen Haddr Hne Hpub Hlen'.
  split; [|split].
  - intros u load_flag save_flag. unfold Keypair, __init__. rewrite !Hid.
    reflexivity.
  - now apply (Keypair_uri_Alice (PStr "ed25519") w seed pub pub' priv addr).
  - reflexivity.
Qed.

(** ** The length checks of [set_params] *)

Lemma getattr_Ok_inv (k : string) (v : pyval) (s s' : @obj_state W) :
  getattr k s = (Ok v, s') -> s' = s /\ dict_get k (fst s) = Some v.
Proof.
  unfold getattr. destruct (dict_get k (fst s)) as [x|]; intros H.
  - now injection H as -> ->.
  - discriminate.
Qed.

Lemma guard_Ok_inv (c : bool) (e : exn) (u : unit) (s s' : @obj_state W) :
  (if c then raise e else ret tt) s = (Ok u, s') -> c = false /\ s' = s.
Proof.
  destruct c; intros H; [discriminate|].
  apply ret_Ok_inv in H as [_ ->]. auto.
Qed.

(** Lines 194-208 return only with a public key that is no text and has the
    length of its scheme: 20 for 'ecdsa', 32 otherwise. *)
Lemma set_params_public_key_checks_length (s s' : @obj_state W) :
  set_params_public_key s = (Ok tt, s') ->
  exists public_key crypto_type : pyval,
    dict_get "public_key" (fst s') = Some public_key /\
    dict_get "crypto_type" (fst s') = Some crypto_type /\
    is_str public_key = false /\
    py_len public_key = Ok (if eq_str crypto_type "ecdsa" then 20 else 32).
Proof.
  unfold set_params_public_key. intros H.
  apply bind_Ok_inv in H as (pk0 & s0 & Hg & H).
  apply getattr_Ok_inv in Hg as [-> Hpk0].
  apply bind_Ok_inv in H as (u & s1 & Hg & H).
  apply guard_Ok_inv in Hg as [_ ->].
  apply bind_Ok_inv in H as (pk1 & s1 & Hg & H).
  apply getattr_Ok_inv in Hg as [-> Hpk1].
  apply bind_Ok_inv in H as (u2 & s2 & Hconv & H).
  assert (Hs2 : exists v, dict_get "public_key" (fst s2) = Some v /\ is_str v = false
                          /\ dict_get "crypto_type" (fst s2)
                             = dict_get "crypto_type" (fst s)).
  { destruct pk1;
      try (apply ret_Ok_inv in Hconv as [_ ->]; eexists; repeat split; eauto; fail).
    apply bind_Ok_inv in Hconv as (b & s3 & Hp & Hconv).
    apply pure_Ok_inv in Hp as [_ ->].
    apply setattr_Ok_inv in Hconv. subst s2. cbn [fst].
    exists (PBytes b). rewrite dict_get_set_same.
    rewrite dict_get_set_other by discriminate. auto. }
  destruct Hs2 as (v & Hv & Hstr & Hct).
  apply bind_Ok_inv in H as (ct & s3 & Hg & H).
  apply getattr_Ok_inv in Hg as [-> Hct2].
  exists v, ct.
  destruct (eq_str ct "ecdsa").
  - apply bind_Ok_inv in H as (pk & s3 & Hg & H).
    apply getattr_Ok_inv in Hg as [-> Hpk].
    apply bind_Ok_inv in H as (n & s3 & Hp & H).
    apply pure_Ok_inv in Hp as [Hn ->].
    apply guard_Ok_inv in H as [Hn20 ->].
    rewrite Hv in Hpk. injection Hpk as <-.
    apply negb_false_iff, Nat.eqb_eq in Hn20. subst n. auto.
  - apply bind_Ok_inv in H as (pk & s3 & Hg & H).
    apply getattr_Ok_inv in Hg as [-> Hpk].
    apply bind_Ok_inv in H as (n & s3 & Hp & H).
    apply pure_Ok_inv in Hp as [Hn ->].
    apply bind_Ok_inv in H as (u3 & s3 & Hg & H).
    apply guard_Ok_inv in Hg as [Hn32 ->].
    rewrite Hv in Hpk. injection Hpk as <-.
    apply negb_false_iff, Nat.eqb_eq in Hn32. subst n.
    apply bind_Ok_inv in H as (addr & s3 & Hg & H).
    apply getattr_Ok_inv in Hg as [-> Haddr].
    destruct (negb (truthy addr)).
    + apply bind_Ok_inv in H as (pk & s3 & Hg & H).
      apply getattr_Ok_inv in Hg as [-> _].
      apply bind_Ok_inv in H as (fmt & s3 & Hg & H).
      apply getattr_Ok_inv in Hg as [-> _].
      apply bind_Ok_inv in H as (a & s3 & Hp & H).
      apply pure_Ok_inv in Hp as [_ ->].
      apply setattr_Ok_inv in H. subst s'. cbn [fst].
      rewrite !dict_get_set_other by discriminate. auto.
    + apply ret_Ok_inv in H as [_ ->]. auto.
Qed.

(** A keypair built by the constructor without saving and without loading
    holds a public key of the length of its scheme. *)
Lemma Keypair_unsaved_public_key_length (kw self : dict) (w w' : W) :
  (forall d, c.locals2kwargs d = d) ->
  truthy (kwarg "save" (PBool true) kw) = false ->
  truthy (kwarg "load" (PBool true) kw) = false ->
  Keypair kw w = (Ok self, w') ->
  exists public_key crypto_type : pyval,
    dict_get "public_key" self = Some public_key /\
    dict_get "crypto_type" self = Some crypto_type /\
    is_str public_key = false /\
    py_len public_key = Ok (if eq_str crypto_type "ecdsa" then 20 else 32).
Proof.
  intros Hid Hsave Hload H.
  apply Keypair_Ok_inv, (init_Ok_inv _ _ _ Hid) in H.
  unfold set_params, set_params_with in H.
  assert (Hs : truthy (kwarg "save" (PBool false) (init_locals kw)) = false)
    by exact Hsave.
  assert (Hl : truthy (kwarg "load" (PBool false) (init_locals kw)) = false)
    by exact Hload.
  rewrite Hs, Hl, andb_false_r in H. cbn [andb] in H.
  apply bind_Ok_inv in H as (u0 & s0 & _ & H).
  apply bind_Ok_inv in H as (u1 & s1 & _ & H).
  apply bind_Ok_inv in H as (u2 & s2 & _ & H).
  apply bind_Ok_inv in H as (stored & s3 & Hst & H).
  apply ret_Ok_inv in Hst as [<- _].
  apply bind_Ok_inv in H as (u4 & s4 & _ & H).
  apply bind_Ok_inv in H as (u5 & s5 & Hval & H).
  apply ret_Ok_inv in H as [_ H]. subst s5.
  unfold set_params_validate in Hval.
  apply bind_Ok_inv in Hval as (u6 & s6 & _ & Hval).
  apply bind_Ok_inv in Hval as (ct & s7 & _ & Hval).
  apply bind_Ok_inv in Hval as (u8 & s8 & _ & Hval).
  apply bind_Ok_inv in Hval as (u9 & s9 & _ & Hval).
  destruct u5. exact (set_params_public_key_checks_length _ _ Hval).
Qed.

(** ** Import of an encrypted JSON export *)

(** The keyword arguments with which [create_from_private_key] calls the
    constructor. *)
Lemma create_from_encrypted_json_Ok_inv
    (json_data passphrase ss58_format : pyval) (kp : dict) (w w' : W) :
  Keypair_create_from_encrypted_json json_data passphrase ss58_format w = (Ok kp, w') ->
  exists private_key public_key format crypto_type : pyval,
    Keypair [("ss58_address", PNone);
             ("public_key", public_key);
             ("private_key", private_key);
             ("ss58_format", format);
             ("crypto_type", crypto_type)] w = (Ok kp, w').
Proof.
  unfold Keypair_create_from_encrypted_json, create_from_encrypted_json,
    create_from_private_key.
  intros H.
  apply bind_Ok_inv in H as (j & w1 & Hj & H).
  assert (w1 = w) as ->.
  { destruct json_data;
      try (now apply ret_Ok_inv in Hj as [_ ->]).
    now apply pure_Ok_inv in Hj as [_ ->]. }
  apply bind_Ok_inv in H as (pair & w1 & Hp & H).
  apply pure_Ok_inv in Hp as [_ ->].
  apply bind_Ok_inv in H as (enc & w1 & Hp & H).
  apply pure_Ok_inv in Hp as [_ ->].
  apply bind_Ok_inv in H as (content & w1 & Hp & H).
  apply pure_Ok_inv in Hp as [_ ->].
  apply bind_Ok_inv in H as (is_sr & w1 & Hp & H).
  apply pure_Ok_inv in Hp as [_ ->].
  apply bind_Ok_inv in H as (chosen & w1 & Hc & H).
  assert (w1 = w) as ->.
  { destruct is_sr.
    - now apply ret_Ok_inv in Hc as [_ ->].
    - apply bind_Ok_inv in Hc as (is_ed & w2 & Hp & Hc).
      apply pure_Ok_inv in Hp as [_ ->].
      destruct is_ed; [now apply ret_Ok_inv in Hc as [_ ->]|discriminate]. }
  apply bind_Ok_inv in H as (has_address & w1 & Hp & H).
  apply pure_Ok_inv in Hp as [_ ->].
  apply bind_Ok_inv in H as (format & w1 & Hf & H).
  assert (w1 = w) as ->.
  { destruct (is_none ss58_format && has_address).
    - apply bind_Ok_inv in Hf as (a & w2 & Hp & Hf).
      apply pure_Ok_inv in Hp as [_ ->].
      apply bind_Ok_inv in Hf as (f & w2 & Hp & Hf).
      apply pure_Ok_inv in Hp as [_ ->].
      now apply ret_Ok_inv in Hf as [_ ->].
    - now apply ret_Ok_inv in Hf as [_ ->]. }
  now exists (PBytes (snd chosen)), (PBytes (snd pair)), format, (fst chosen).
Qed.

(** C7.  The import does not give back the key of the export.
    [create_from_encrypted_json] hands the decrypted key to the constructor
    with the defaults path='default', load=True, save=True.  When the
    storage holds a key named default, the constructor loads that key and the
    import returns what [Keypair()] returns, whatever the JSON holds.  When it
    does not, the constructor saves the new keypair, and the object holds
    its public key as hexadecimal text, not as the bytes of the original. *)
Theorem import_returns_stored_key_or_hex_text
    (json_data passphrase ss58_format : pyval) (kp : dict) (w w' : W) :
  (forall d, c.locals2kwargs d = d) ->
  Keypair_create_from_encrypted_json json_data passphrase ss58_format w = (Ok kp, w') ->
  (fst (key_exists (PStr "default") w) = Ok true -> Keypair [] w = (Ok kp, w')) /\
  (fst (key_exists (PStr "default") w) <> Ok true ->
   forall (k : string) (b : bytes), dict_get k kp <> Some (PBytes b)).
Proof.
  intros Hid H.
  apply create_from_encrypted_json_Ok_inv in H
    as (private_key & public_key & format & crypto_type & H).
  split.
  - intros Hstored. rewrite <- H.
    unfold Keypair, __init__. rewrite !Hid.
    rewrite !bind_pure_Ok with (a := tt) by reflexivity. cbv zeta.
    unfold set_params, set_params_with.
    rewrite !bind_pure_Ok with (a := tt) by reflexivity.
    unfold init_locals. calc.
    rewrite !bind_setattr. calc.
    destruct (key_exists (PStr "default") w) as [[stored|e] w1] eqn:E;
      cbn [fst] in Hstored; [|discriminate].
    injection Hstored as ->.
    rewrite !(bind_in_world_Ok _ true w1) by exact E. reflexivity.
  - intros Hnot k b.
    apply Keypair_Ok_inv, (init_Ok_inv _ _ _ Hid) in H.
    refine (set_params_saved_not_stored_no_bytes load _ ([], w) (kp, w') _ _ H k b).
    + reflexivity.
    + exact Hnot.
Qed.

(** With no private key, [sign] raises the error of line 579 on every
    message that its normalisation accepts. *)
Lemma sign_without_private_key
    (self : dict) (data msg private_key : pyval) (ct : option pyval) (rd : bool) :
  dict_get "private_key" self = Some private_key ->
  truthy private_key = false ->
  data_to_bytes (c.python2str data) = Ok msg ->
  sign self data ct rd = Err (ConfigurationError "No private key set to create signatures").
Proof.
  intros Hsk Ht Hd. unfold sign, attr. rewrite Hd. cbn [res_bind].
  rewrite Hsk. cbn [res_bind]. now rewrite Ht.
Qed.

(** C6.  A keypair built by the constructor with [save] in force, which is
    the default, cannot verify: [save] has turned its public key into text,
    and [verify] raises AttributeError at line 633, for every data, every
    signature in bytes and every scheme, whoever signed.  (Signing does
    fail as claimed, see [sign_without_private_key].) *)
Theorem saved_keypair_cannot_verify
    (kw self : dict) (w w' : W) (data : pyval) (sig : bytes) (ct : option pyval) :
  (forall d, c.locals2kwargs d = d) ->
  truthy (kwarg "save" (PBool true) kw) = true ->
  truthy (kwarg "load" (PBool true) kw) = false ->
  Keypair kw w = (Ok self, w') ->
  exists name, verify self data (PBytes sig) PNone ct = Err (AttributeError name).
Proof.
  intros Hid Hsave Hload H.
  pose proof (Keypair_saved_no_bytes kw self w w' Hid Hsave Hload H "public_key")
    as Hnb.
  unfold verify, verify_arguments, attr. cbn [is_none res_bind fst snd].
  destruct (dict_get "public_key" self) as [v|].
  - exists "hex". cbn [res_bind].
    destruct v; try reflexivity. now elim (Hnb b).
  - exists "public_key". reflexivity.
Qed.

(** C8.  The checks of lines 183-205 are not the last step: [save] follows
    them, and a keypair built with [save] in force, which is the default,
    holds neither a public key nor a private key in bytes, of any length;
    what was bytes is hexadecimal text of twice the length. *)
Theorem saved_keypair_holds_no_key_bytes
    (kw self : dict) (w w' : W) :
  (forall d, c.locals2kwargs d = d) ->
  truthy (kwarg "save" (PBool true) kw) = true ->
  truthy (kwarg "load" (PBool true) kw) = false ->
  Keypair kw w = (Ok self, w') ->
  forall b : bytes,
    dict_get "public_key" self <> Some (PBytes b) /\
    dict_get "private_key" self <> Some (PBytes b).
Proof.
  intros Hid Hsave Hload H b.
  split; now apply (Keypair_saved_no_bytes kw self w w' Hid Hsave Hload H).
Qed.

(** * Further properties of the class *)

(** ** Data and signatures as text *)

Lemma data_to_bytes_0x (b : bytes) :
  data_to_bytes (PStr (String "0" (String "x" (Hex.encode b)))) = Ok (PBytes b).
Proof.
  unfold data_to_bytes, starts_0x.
  replace (String.prefix "0x" (String "0" (String "x" (Hex.encode b)))) with true
    by (destruct (Hex.encode b); reflexivity).
  cbn [res_bind str_drop]. unfold fromhex.
  now rewrite HexFacts.decode_encode.
Qed.

Lemma data_to_bytes_text (t : string) :
  String.prefix "0x" t = false ->
  data_to_bytes (PStr t) = Ok (PBytes (str_encode t)).
Proof. intros H. unfold data_to_bytes, starts_0x. now rewrite H. Qed.

(** X1.  [sign] reads text that starts with 0x as hexadecimal digits and any
    other text as its UTF-8 bytes, so a text and the 0x-text of its bytes
    get the same signature, under every scheme and for either form of the
    result.  ([python2str] returns a str as it is.) *)
Theorem sign_reads_0x_text_as_hex
    (self : dict) (t : string) (ct : option pyval) (rd : bool) :
  String.prefix "0x" t = false ->
  (forall s : string, c.python2str (PStr s) = PStr s) ->
  sign self (PStr (String "0" (String "x" (Hex.encode (str_encode t))))) ct rd
  = sign self (PStr t) ct rd.
Proof.
  intros Ht Hstr. unfold sign.
  rewrite !Hstr, data_to_bytes_0x, (data_to_bytes_text t Ht). reflexivity.
Qed.

(** X2.  [verify] reads a signature given as text as plain hexadecimal
    digits: the text that [bytes.hex] prints for a signature (as [sign]
    returns it with [return_dict]) is verified as the signature in bytes,
    while 0x-prefixed text is never accepted: it goes to [bytes.fromhex] at
    line 628 with its prefix, which raises ValueError, for every keypair,
    data and scheme; the branch of lines 643-644 that would strip the prefix
    is not reached with a str. *)
Theorem verify_reads_signature_text_as_plain_hex
    (self : dict) (data public_key : pyval) (sig : bytes) (h : string)
    (ct : option pyval) :
  verify self data (PStr (Hex.encode sig)) public_key ct
  = verify self data (PBytes sig) public_key ct /\
  verify self data (PStr (String "0" (String "x" h))) public_key ct
  = Err (ValueError "non-hexadecimal number found in fromhex() arg").
Proof.
  split; [|reflexivity].
  unfold verify, verify_arguments. cbn [is_none res_bind fst snd].
  unfold fromhex. rewrite HexFacts.decode_encode. reflexivity.
Qed.

(** [verify] on arguments passed apart, a signature in bytes, a public key
    held in bytes and data that normalises. *)
Lemma verify_eval
    (self : dict) (data public_key crypto_type : pyval)
    (fn : pyval -> pyval -> pyval -> res bool) (sig msg own : bytes) :
  crypto_verify_fn crypto_type = Ok fn ->
  data_to_bytes (c.python2str data) = Ok (PBytes msg) ->
  dict_get "public_key" self = Some (PBytes own) ->
  verify self data (PBytes sig) public_key (Some crypto_type)
  = match fn (PBytes sig) (PBytes msg) (PBytes own) with
    | Ok true => Ok true
    | Ok false =>
        fn (PBytes sig)
           (PBytes (str_encode "<Bytes>" ++ msg ++ str_encode "</Bytes>")) (PBytes own)
    | Err e => Err e
    end.
Proof.
  intros Hfn Hdata Hown. unfold verify, verify_arguments, attr.
  cbn [arg_or is_none res_bind fst snd]. rewrite Hown. cbn [res_bind py_hex].
  destruct (is_none public_key); cbn [res_bind];
    rewrite Hdata, Hfn; cbn [res_bind wrap_bytes];
    destruct (fn (PBytes sig) (PBytes msg) (PBytes own)) as [[|]|e]; reflexivity.
Qed.

Lemma sign_eval
    (self : dict) (data msg public_key private_key : pyval) (crypto_type : pyval) :
  dict_get "public_key" self = Some public_key ->
  dict_get "private_key" self = Some private_key ->
  truthy private_key = true ->
  data_to_bytes (c.python2str data) = Ok msg ->
  sign self data (Some crypto_type) false
  = let? signature :=
      (if eq_str crypto_type "sr25519" then sr25519.sign (public_key, private_key) msg
       else if eq_str crypto_type "ed25519" then ed25519_zebra.ed_sign private_key msg
       else if eq_str crypto_type "ecdsa" then ecdsa_helpers.ecdsa_sign private_key msg
       else Err (ConfigurationError "Crypto type not supported")) in
    Ok (PBytes signature).
Proof.
  intros Hpk Hsk Ht Hd. unfold sign, attr. cbn [arg_or].
  rewrite Hd. cbn [res_bind]. rewrite Hsk. cbn [res_bind]. rewrite Ht. cbn [negb].
  rewrite Hpk. cbn [res_bind].
  destruct (eq_str crypto_type "sr25519"); [reflexivity|].
  destruct (eq_str crypto_type "ed25519"); [reflexivity|].
  destruct (eq_str crypto_type "ecdsa"); reflexivity.
Qed.

(** X3.  A signature that [sign] returns is accepted by [verify] of the same
    keypair under the same scheme, on the first attempt, whenever the
    backend of the scheme accepts its own signatures for this key pair:
    [sign] and [verify] normalise the data alike and hand the backend the
    same message and the keypair's own keys. *)
Theorem sign_then_verify
    (self : dict) (data private_key : pyval) (scheme : string) (msg own sig : bytes) :
  dict_get "public_key" self = Some (PBytes own) ->
  dict_get "private_key" self = Some private_key ->
  truthy private_key = true ->
  data_to_bytes (c.python2str data) = Ok (PBytes msg) ->
  (scheme = "sr25519" ->
   sr25519.sign (PBytes own, private_key) (PBytes msg) = Ok sig ->
   sr25519.verify (PBytes sig) (PBytes msg) (PBytes own) = Ok true) ->
  (scheme = "ed25519" ->
   ed25519_zebra.ed_sign private_key (PBytes msg) = Ok sig ->
   ed25519_zebra.ed_verify (PBytes sig) (PBytes msg) (PBytes own) = Ok true) ->
  (scheme = "ecdsa" ->
   ecdsa_helpers.ecdsa_sign private_key (PBytes msg) = Ok sig ->
   ecdsa_helpers.ecdsa_verify (PBytes sig) (PBytes msg) (PBytes own) = Ok true) ->
  sign self data (Some (PStr scheme)) false = Ok (PBytes sig) ->
  verify self data (PBytes sig) PNone (Some (PStr scheme)) = Ok true.
Proof.
  intros Hpk Hsk Ht Hd Hsr Hed Hec Hsign.
  rewrite (sign_eval self data (PBytes msg) (PBytes own) private_key (PStr scheme)
             Hpk Hsk Ht Hd) in Hsign.
  cbn [eq_str] in Hsign.
  destruct (String.eqb scheme "sr25519") eqn:E1.
  { apply String.eqb_eq in E1.
    destruct (sr25519.sign (PBytes own, private_key) (PBytes msg)) as [s|e] eqn:Es;
      [|discriminate].
    cbn [res_bind] in Hsign. injection Hsign as ->.
    rewrite (verify_eval self data PNone (PStr scheme) sr25519.verify sig msg own);
      [now rewrite (Hsr E1 eq_refl) | now subst scheme | exact Hd | exact Hpk]. }
  destruct (String.eqb scheme "ed25519") eqn:E2.
  { apply String.eqb_eq in E2.
    destruct (ed25519_zebra.ed_sign private_key (PBytes msg)) as [s|e] eqn:Es;
      [|discriminate].
    cbn [res_bind] in Hsign. injection Hsign as ->.
    rewrite (verify_eval self data PNone (PStr scheme) ed25519_zebra.ed_verify
               sig msg own);
      [now rewrite (Hed E2 eq_refl) | now subst scheme | exact Hd | exact Hpk]. }
  destruct (String.eqb scheme "ecdsa") eqn:E3; [|discriminate].
  apply String.eqb_eq in E3.
  destruct (ecdsa_helpers.ecdsa_sign private_key (PBytes msg)) as [s|e] eqn:Es;
    [|discriminate].
  cbn [res_bind] in Hsign. injection Hsign as ->.
  rewrite (verify_eval self data PNone (PStr scheme) ecdsa_helpers.ecdsa_verify
             sig msg own);
    [now rewrite (Hec E3 eq_refl) | now subst scheme | exact Hd | exact Hpk].
Qed.

(** ** Messages *)

(** X4.  [encrypt_message] and [decrypt_message] first ask for a private
    key and then for the scheme tag 'ed25519' of the keypair itself (not an
    argument, unlike [sign]): without a private key both raise
    ConfigurationError 'No private key set ...', and with one but another
    tag both raise 'Only ed25519 keypair type supported', before any
    library is called and whatever the message, the other key or the
    nonce. *)
Theorem messages_need_ed25519_private_key
    (K : class_Keypair) (self : dict) (private_key : pyval)
    (message other : pyval) (nonce : option pyval) :
  dict_get "private_key" self = Some private_key ->
  (truthy private_key = false ->
   encrypt_message K self message other nonce
     = Err (ConfigurationError "No private key set to encrypt") /\
   decrypt_message self message other
     = Err (ConfigurationError "No private key set to decrypt")) /\
  (forall crypto_type : pyval,
      truthy private_key = true ->
      dict_get "crypto_type" self = Some crypto_type ->
      eq_str crypto_type "ed25519" = false ->
      encrypt_message K self message other nonce
        = Err (ConfigurationError "Only ed25519 keypair type supported") /\
      decrypt_message self message other
        = Err (ConfigurationError "Only ed25519 keypair type supported")).
Proof.
  intros Hsk. unfold encrypt_message, decrypt_message, attr. rewrite Hsk.
  cbn [res_bind]. split.
  - intros ->. split; reflexivity.
  - intros crypto_type -> Hct Hne. rewrite Hct. cbn [res_bind negb].
    rewrite Hne. split; reflexivity.
Qed.

(** X5.  What one Ed25519 keypair encrypts for the public key of another,
    the other decrypts with the public key of the first: each side converts
    its own private key followed by its public key, and the public key of
    the other side, so that the two boxes are built from matching keys.
    The conversions and the box are those of the library; its law is the
    last hypothesis. *)
Theorem encrypt_then_decrypt
    (K : class_Keypair) (alice bob : dict) (message nonce : pyval)
    (ska pka skb pkb : bytes) (csa cpa csb cpb plain cipher : bytes) :
  dict_get "crypto_type" alice = Some (PStr "ed25519") ->
  dict_get "private_key" alice = Some (PBytes ska) ->
  dict_get "public_key" alice = Some (PBytes pka) ->
  dict_get "crypto_type" bob = Some (PStr "ed25519") ->
  dict_get "private_key" bob = Some (PBytes skb) ->
  dict_get "public_key" bob = Some (PBytes pkb) ->
  ska <> [] -> skb <> [] ->
  nacl.crypto_sign_ed25519_sk_to_curve25519 (PBytes (ska ++ pka)) = Ok csa ->
  nacl.crypto_sign_ed25519_pk_to_curve25519 (PBytes pka) = Ok cpa ->
  nacl.crypto_sign_ed25519_sk_to_curve25519 (PBytes (skb ++ pkb)) = Ok csb ->
  nacl.crypto_sign_ed25519_pk_to_curve25519 (PBytes pkb) = Ok cpb ->
  message_bytes message = Ok plain ->
  (nacl.box_encrypt csa cpb plain nonce = Ok cipher ->
   nacl.box_decrypt csb cpa (PBytes cipher) = Ok plain) ->
  encrypt_message K alice message (PBytes pkb) (Some nonce) = Ok (PBytes cipher) ->
  decrypt_message bob (PBytes cipher) (PBytes pka) = Ok (PBytes plain).
Proof.
  intros Hca Hska Hpka Hcb Hskb Hpkb Hna Hnb Hcsa Hcpa Hcsb Hcpb Hplain Hbox Henc.
  assert (Hta : truthy (PBytes ska) = true) by (destruct ska; [now elim Hna|reflexivity]).
  assert (Htb : truthy (PBytes skb) = true) by (destruct skb; [now elim Hnb|reflexivity]).
  unfold encrypt_message, attr in Henc. cbn [arg_or] in Henc.
  rewrite Hska, Hca, Hpka in Henc. cbn [res_bind] in Henc.
  rewrite Hta in Henc. cbn [negb eq_str String.eqb Ascii.eqb Bool.eqb res_bind] in Henc.
  rewrite Hcpb in Henc. cbn [res_bind py_add] in Henc.
  rewrite Hcsa, Hplain in Henc. cbn [res_bind] in Henc.
  destruct (nacl.box_encrypt csa cpb plain nonce) as [c0|e] eqn:E; [|discriminate].
  cbn [res_bind] in Henc. injection Henc as ->.
  unfold decrypt_message, attr. rewrite Hskb, Hcb, Hpkb. cbn [res_bind].
  rewrite Htb. cbn [negb eq_str String.eqb Ascii.eqb Bool.eqb res_bind py_add].
  rewrite Hcsb. cbn [res_bind]. rewrite Hcpa. cbn [res_bind].
  now rewrite (Hbox eq_refl).
Qed.

(** ** Derivation URIs *)

Lemma prefix_slash_cons (s : string) : String.prefix "/" (String "/" s) = true.
Proof. destruct s; reflexivity. Qed.

(** X6.  Lines 380-384 put the development phrase before every URI, not
    only before one that starts with a slash: a URI without a leading slash
    is given one first, and then always starts with a slash.  A mnemonic
    written at the start of a URI therefore comes after the development
    phrase and a slash, where the pattern reads it as part of the path. *)
Theorem with_dev_phrase_always_prepends (suri : string) :
  with_dev_phrase suri
  = (substrateinterface.DEV_PHRASE
       ++ (if String.prefix "/" suri then suri else String "/" suri))%string.
Proof.
  unfold with_dev_phrase.
  destruct (String.prefix "/" suri) eqn:E; cbn [negb].
  - rewrite E. destruct suri as [|ch r]; [discriminate|]. reflexivity.
  - cbn [append]. now rewrite prefix_slash_cons.
Qed.

(** X7.  A URI with a password part is refused for every scheme but
    'ecdsa': once the pattern has found a non-empty password in the URI,
    [create_from_uri] raises NotImplementedError before the phrase is
    resolved, for either value of [return_dict], and the world is left as
    it was. *)
Theorem uri_password_is_not_supported
    (cls : dict -> M W dict) (suri : string) (caps : captures) (password : string)
    (ss58_format crypto_type language_code : pyval) (return_dict : bool) (w : W) :
  re_match suri_pattern (with_dev_phrase suri) = Matched caps ->
  get_capture "password" caps = Some password ->
  password <> EmptyString ->
  eq_str crypto_type "ecdsa" = false ->
  create_from_uri cls (PStr suri) ss58_format crypto_type language_code return_dict w
  = (Err (NotImplementedError
            ("Passwords in suri not supported for crypto_type '"
               ++ py.format crypto_type ++ "'")), w).
Proof.
  intros Hre Hpw Hne Hct. unfold create_from_uri. rewrite Hre.
  cbv zeta. rewrite Hct. unfold groupdict.
  cbn [map dict_get_default dict_get String.eqb Ascii.eqb Bool.eqb].
  rewrite Hpw. cbn [truthy].
  apply String.eqb_neq in Hne. rewrite Hne. reflexivity.
Qed.

(** X8.  The class method [create_from_uri] called with [return_dict=False]
    does reach the guard of lines 428-429: for a URI with a non-empty path
    and no password, and a scheme tag other than 'sr25519' and 'ecdsa', it
    raises NotImplementedError as soon as the phrase has been resolved to a
    keypair, and derives nothing. *)
Theorem class_method_rejects_path_on_other_scheme
    (cls : dict -> M W dict) (suri : string) (caps : captures) (path : string)
    (ss58_format crypto_type language_code : pyval) (keypair : dict) (w w1 : W) :
  re_match suri_pattern (with_dev_phrase suri) = Matched caps ->
  get_capture "path" caps = Some path ->
  path <> EmptyString ->
  get_capture "password" caps = None ->
  eq_str crypto_type "ecdsa" = false ->
  eq_str crypto_type "sr25519" = false ->
  create_from_mnemonic cls (dict_get_default "phrase" PNone (groupdict caps))
    ss58_format crypto_type language_code false w = (Ok keypair, w1) ->
  create_from_uri cls (PStr suri) ss58_format crypto_type language_code false w
  = (Err (NotImplementedError "Derivation paths for this crypto type not supported"),
     w1).
Proof.
  intros Hre Hpath Hne Hpw Hec Hsr Hm. unfold create_from_uri. rewrite Hre.
  cbv zeta. rewrite Hec.
  assert (Hp : dict_get_default "path" PNone (groupdict caps) = PStr path).
  { unfold groupdict.
    cbn [map dict_get_default dict_get String.eqb Ascii.eqb Bool.eqb].
    now rewrite Hpath. }
  assert (Hw : dict_get_default "password" PNone (groupdict caps) = PNone).
  { unfold groupdict.
    cbn [map dict_get_default dict_get String.eqb Ascii.eqb Bool.eqb].
    now rewrite Hpw. }
  rewrite Hp, Hw. cbn [truthy].
  rewrite bind_ret_l. unfold bind at 1. rewrite Hm.
  apply String.eqb_neq in Hne. rewrite Hne, Hsr. reflexivity.
Qed.

(** ** Snapshots and exports *)

Lemma hex_if_bytes_idempotent (v : pyval) :
  hex_if_bytes (hex_if_bytes v) = hex_if_bytes v.
Proof. destruct v; reflexivity. Qed.

(** X9.  [state_dict] writes the object only once: after a first call a
    second one, with any password, leaves every attribute as the first left
    it; and no call adds, drops or reorders an attribute, or changes one
    that is not bytes. *)
Theorem state_dict_changes_the_object_once
    (password1 password2 : pyval) (s : obj_state) :
  let after1 := fst (snd (state_dict password1 s)) in
  let after2 := fst (snd (state_dict password2 (snd (state_dict password1 s)))) in
  after2 = after1 /\
  map fst after1 = map fst (fst s) /\
  forall (k : string) (v : pyval),
    dict_get k (fst s) = Some v -> (forall b, v <> PBytes b) ->
    dict_get k after1 = Some v.
Proof.
  cbv zeta. rewrite !state_dict_self. repeat split.
  - rewrite map_map. apply map_ext. intros [k v]. cbn [fst snd].
    now rewrite hex_if_bytes_idempotent.
  - rewrite map_map. reflexivity.
  - intros k v Hk Hv. rewrite dict_get_hex, Hk. cbn [option_map].
    destruct v; try reflexivity. now elim (Hv b).
Qed.

(** X10.  [export_to_encrypted_json] is for keypairs tagged 'sr25519' only:
    with any other tag it raises NotImplementedError and calls no library.
    When it returns, the record carries the address of the keypair, the
    fixed encoding fields of the PolkadotJS format, and as name the address
    when no name was given. *)
Theorem export_record_shape
    (self : dict) (passphrase name : pyval) (w w' : W) :
  (forall crypto_type : pyval,
      dict_get "ss58_address" self <> None ->
      dict_get "crypto_type" self = Some crypto_type ->
      eq_str crypto_type "sr25519" = false ->
      export_to_encrypted_json self passphrase name w
      = (Err (NotImplementedError
                ("Cannot create JSON for crypto_type '"
                   ++ py.format crypto_type ++ "'")), w)) /\
  (forall record : pyval,
      export_to_encrypted_json self passphrase name w = (Ok record, w') ->
      exists (encoded : string) (created : Z) (ss58_address : pyval),
        dict_get "ss58_address" self = Some ss58_address /\
        record
        = PDict
            [("encoded", PStr encoded);
             ("encoding",
              PDict [("content", PList [PStr "pkcs8"; PStr "sr25519"]);
                     ("type", PList [PStr "scrypt"; PStr "xsalsa20-poly1305"]);
                     ("version", PStr "3")]);
             ("address", ss58_address);
             ("meta",
              PDict [("name", if truthy name then name else ss58_address);
                     ("tags", PList []);
                     ("whenCreated", PInt created)])]).
Proof.
  split.
  - intros crypto_type Haddr Hct Hne. unfold export_to_encrypted_json, attr.
    destruct (dict_get "ss58_address" self) as [a|]; [|now elim Haddr].
    rewrite Hct.
    destruct (truthy name); cbn [negb];
      rewrite ?bind_ret_l; unfold bind, pure; rewrite Hne; reflexivity.
  - intros record H. unfold export_to_encrypted_json in H.
    apply bind_Ok_inv in H as (name' & w1 & Hname & H).
    apply bind_Ok_inv in H as (ct & w2 & Hp & H).
    apply pure_Ok_inv in Hp as [_ ->].
    destruct (negb (eq_str ct "sr25519")); [discriminate|].
    apply bind_Ok_inv in H as (sk & w2 & Hp & H).
    apply pure_Ok_inv in Hp as [_ ->].
    apply bind_Ok_inv in H as (conv & w2 & Hp & H).
    apply pure_Ok_inv in Hp as [_ ->].
    apply bind_Ok_inv in H as (pk & w2 & Hp & H).
    apply pure_Ok_inv in Hp as [_ ->].
    apply bind_Ok_inv in H as (encoded & w2 & Hp & H).
    apply pure_Ok_inv in Hp as [_ ->].
    apply bind_Ok_inv in H as (addr & w2 & Hp & H).
    apply pure_Ok_inv in Hp as [Haddr ->].
    apply bind_Ok_inv in H as (created & w2 & _ & H).
    apply ret_Ok_inv in H as [<- _].
    unfold attr in Haddr.
    destruct (dict_get "ss58_address" self) as [a|] eqn:Ea; [|discriminate].
    injection Haddr as ->.
    exists (py.b64encode encoded), created, addr. split; [reflexivity|].
    destruct (truthy name).
    + apply ret_Ok_inv in Hname as [<- _]. reflexivity.
    + apply pure_Ok_inv in Hname as [Hn _]. unfold attr in Hn. rewrite Ea in Hn.
      now injection Hn as <-.
Qed.

(** ** Sources of the key material *)

Lemma create_from_seed_hex_text
    (cls : dict -> M W dict) (seed : bytes) (ss58_format crypto_type : pyval)
    (return_dict : bool) (w : W) :
  create_from_seed cls (PStr (Hex.encode seed)) ss58_format crypto_type return_dict w
  = create_from_seed cls (PBytes seed) ss58_format crypto_type return_dict w.
Proof.
  unfold create_from_seed. rewrite fromhex_encode.
  rewrite bind_assoc, (bind_pure_Ok _ seed) by reflexivity.
  now rewrite !bind_ret_l.
Qed.

(** X11.  For every scheme but 'ecdsa', a keypair from a mnemonic is the
    keypair from the seed that [bip39_to_mini_secret] gives for it, with
    the mnemonic added as an attribute: the seed passes through hexadecimal
    text and back unchanged.  This holds for either value of
    [return_dict]. *)
Theorem mnemonic_is_seed_construction
    (cls : dict -> M W dict) (mnemonic ss58_format crypto_type language_code : pyval)
    (return_dict : bool) (seed : bytes) (w : W) :
  is_none mnemonic = false ->
  eq_str crypto_type "ecdsa" = false ->
  py.bip39_to_mini_secret mnemonic "" language_code = Ok seed ->
  create_from_mnemonic cls mnemonic ss58_format crypto_type language_code return_dict w
  = (keypair <- create_from_seed cls (PBytes seed) ss58_format crypto_type return_dict ;;
     ret (dict_set "mnemonic" mnemonic keypair)) w.
Proof.
  intros Hm Hct Hseed. unfold create_from_mnemonic.
  rewrite Hm, Hct, bind_ret_l, (bind_pure_Ok _ seed) by exact Hseed.
  unfold bind. now rewrite create_from_seed_hex_text.
Qed.

(** ** Attributes that validation keeps *)

Lemma keeps_ret {A : Type} (k : string) (a : A) : keeps k (@ret (@obj_state W) A a).
Proof. intros s. reflexivity. Qed.

Lemma keeps_raise {A : Type} (k : string) (e : exn) :
  keeps k (@raise (@obj_state W) A e).
Proof. intros s. reflexivity. Qed.

Lemma keeps_pure {A : Type} (k : string) (r : res A) :
  keeps k (@pure (@obj_state W) A r).
Proof. intros s. reflexivity. Qed.

Lemma keeps_getattr (k name : string) : keeps (W := W) k (getattr name).
Proof. intros s. unfold getattr. destruct (dict_get name (fst s)); reflexivity. Qed.

Lemma keeps_setattr (k name : string) (v : pyval) :
  k <> name -> keeps (W := W) k (setattr name v).
Proof. intros H s. cbn. now apply dict_get_set_other. Qed.

Lemma keeps_in_world {A : Type} (k : string) (m : M W A) : keeps k (in_world m).
Proof.
  intros s. unfold in_world. destruct (m (snd s)) as [r w1]. reflexivity.
Qed.

Lemma keeps_bind {A B : Type} (k : string) (m : M (@obj_state W) A)
    (f : A -> M (@obj_state W) B) :
  keeps k m -> (forall a, keeps k (f a)) -> keeps k (bind m f).
Proof.
  intros Hm Hf s. unfold bind. specialize (Hm s).
  destruct (m s) as [[a|e] s1]; cbn [fst snd] in *.
  - now rewrite (Hf a s1).
  - exact Hm.
Qed.

Ltac keeps_steps :=
  repeat first
    [ apply keeps_ret
    | apply keeps_raise
    | apply keeps_pure
    | apply keeps_getattr
    | apply keeps_in_world
    | apply keeps_setattr; assumption
    | apply keeps_bind; [|intros ?]
    | match goal with
      | |- keeps _ (if ?c then _ else _) => destruct c
      | |- keeps _ (match ?v with _ => _ end) => destruct v
      end ].

Lemma set_params_validate_keeps (k : string) (public_key : pyval) :
  k <> "derive_path" -> k <> "public_key" -> k <> "private_key" ->
  k <> "ss58_address" ->
  keeps (W := W) k (set_params_validate public_key).
Proof.
  intros H1 H2 H3 H4.
  unfold set_params_validate, set_params_private_key, set_params_public_key.
  keeps_steps.
Qed.

(** X12.  Lines 172-208 write four attributes at most: [derive_path],
    [public_key], [private_key] and [ss58_address].  Every other attribute
    of the object (the scheme tag, the address format, the seed, the
    mnemonic, the path, the password, ...) is after the validation what it
    was before, whether the validation returns or raises. *)
Theorem validation_keeps_other_attributes (k : string) (public_key : pyval) :
  ~ In k validated_attributes ->
  keeps (W := W) k (set_params_validate public_key).
Proof.
  intros Hk.
  apply set_params_validate_keeps; intros ->; apply Hk; cbn; auto 6.
Qed.

(** ** The scheme of a keypair built from a seed, a mnemonic or a URI *)

Lemma dict_get_app (k : string) (d1 d2 : dict) :
  dict_get k (d1 ++ d2)
  = match dict_get k d1 with
    | Some v => Some v
    | None => dict_get k d2
    end.
Proof.
  induction d1 as [|[k' v'] r IH]; cbn; [reflexivity|].
  destruct (String.eqb k k'); auto.
Qed.

(** In [d.update(kw)] the last value that [kw] gives a key wins, and a key
    that [kw] does not give keeps its value. *)
Lemma dict_get_update (k : string) (d kw : dict) :
  dict_get k (dict_update d kw)
  = match dict_get k (rev kw) with
    | Some v => Some v
    | None => dict_get k d
    end.
Proof.
  unfold dict_update. revert d.
  induction kw as [|[k' v'] r IH]; intros d; cbn [fold_left rev fst snd];
    [reflexivity|].
  rewrite IH, dict_get_app. destruct (dict_get k (rev r)); [reflexivity|].
  cbn [dict_get]. destruct (String.eqb k k') eqn:E.
  - apply String.eqb_eq in E. subst k'. apply dict_get_set_same.
  - apply String.eqb_neq in E. now apply dict_get_set_other.
Qed.

Lemma create_from_seed_tagged
    (cls : dict -> M W dict) (seed_hex : pyval) (kwargs : dict) (w w' : W) :
  create_from_seed cls seed_hex (PInt 42) (PStr "sr25519") true w = (Ok kwargs, w') ->
  tagged_sr25519 kwargs.
Proof.
  unfold create_from_seed. intros H.
  apply bind_Ok_inv in H as (s1 & w1 & _ & H).
  apply bind_Ok_inv in H as (keys & w2 & _ & H).
  apply bind_Ok_inv in H as (addr & w3 & _ & H).
  apply ret_Ok_inv in H as [<- _]. split; reflexivity.
Qed.

Lemma create_from_mnemonic_tagged
    (cls : dict -> M W dict) (mnemonic language_code : pyval) (kwargs : dict)
    (w w' : W) :
  create_from_mnemonic cls mnemonic (PInt 42) (PStr "sr25519") language_code true w
  = (Ok kwargs, w') ->
  tagged_sr25519 kwargs.
Proof.
  unfold create_from_mnemonic. cbn [eq_str String.eqb Ascii.eqb Bool.eqb].
  intros H.
  apply bind_Ok_inv in H as (m1 & w1 & _ & H).
  apply bind_Ok_inv in H as (seed & w2 & _ & H).
  apply bind_Ok_inv in H as (kp & w3 & Hs & H).
  apply ret_Ok_inv in H as [<- _].
  unfold create_from_seed in Hs.
  apply bind_Ok_inv in Hs as (s1 & w4 & _ & Hs).
  apply bind_Ok_inv in Hs as (keys & w5 & _ & Hs).
  apply bind_Ok_inv in Hs as (addr & w6 & _ & Hs).
  apply ret_Ok_inv in Hs as [<- _]. split; reflexivity.
Qed.

Lemma create_from_uri_tagged
    (cls : dict -> M W dict) (uri language_code : pyval) (kwargs : dict) (w w' : W) :
  create_from_uri cls uri (PInt 42) (PStr "sr25519") language_code true w
  = (Ok kwargs, w') ->
  tagged_sr25519 kwargs.
Proof.
  unfold create_from_uri. intros H.
  destruct uri; try discriminate.
  cbv zeta in H.
  destruct (re_match suri_pattern (with_dev_phrase s)); try discriminate.
  cbn [eq_str String.eqb Ascii.eqb Bool.eqb] in H.
  apply bind_Ok_inv in H as (u & w1 & _ & H).
  apply bind_Ok_inv in H as (kp & w2 & Hm & H).
  apply ret_Ok_inv in H as [<- _].
  unfold create_from_mnemonic in Hm.
  cbn [eq_str String.eqb Ascii.eqb Bool.eqb] in Hm.
  apply bind_Ok_inv in Hm as (m1 & w3 & _ & Hm).
  apply bind_Ok_inv in Hm as (seed & w4 & _ & Hm).
  apply bind_Ok_inv in Hm as (kp1 & w5 & Hs & Hm).
  apply ret_Ok_inv in Hm as [<- _].
  unfold create_from_seed in Hs.
  apply bind_Ok_inv in Hs as (s1 & w6 & _ & Hs).
  apply bind_Ok_inv in Hs as (keys & w7 & _ & Hs).
  apply bind_Ok_inv in Hs as (addr & w8 & _ & Hs).
  apply ret_Ok_inv in Hs as [<- _]. split; reflexivity.
Qed.

Lemma in_world_Ok_inv {A : Type} (m : M W A) (a : A) (s s' : @obj_state W) :
  in_world m s = (Ok a, s') -> m (snd s) = (Ok a, snd s') /\ fst s' = fst s.
Proof.
  unfold in_world. destruct (m (snd s)) as [r w1]. intros H.
  injection H as -> <-. auto.
Qed.

Lemma update_tagged (kwargs : dict) (u : unit) (s s' : @obj_state W) :
  tagged_sr25519 kwargs ->
  update_self kwargs s = (Ok u, s') ->
  dict_get "crypto_type" (fst s') = Some (PStr "sr25519") /\
  dict_get "ss58_format" (fst s') = Some (PInt 42).
Proof.
  intros [Hc Hf] H. unfold update_self in H. injection H as _ <-. cbn [fst].
  rewrite !dict_get_update, Hc, Hf. auto.
Qed.

(** Lines 144-170 with a seed in hexadecimal, a mnemonic or a URI among
    the arguments, and no seed text. *)
Lemma provenance_tagged (kw : dict) (s s' : @obj_state W) :
  truthy (kwarg "seed" PNone kw) = false ->
  is_none (kwarg "seed_hex" PNone kw) = false \/
  is_none (kwarg "mnemonic" PNone kw) = false \/
  is_none (kwarg "uri" PNone kw) = false ->
  set_params_provenance kw s = (Ok tt, s') ->
  dict_get "crypto_type" (fst s') = Some (PStr "sr25519") /\
  dict_get "ss58_format" (fst s') = Some (PInt 42).
Proof.
  intros Hseed Hsrc H. unfold set_params_provenance in H. cbv zeta in H.
  rewrite Hseed in H.
  apply bind_Ok_inv in H as (mnemonic & s1 & Hm & H).
  rewrite bind_ret_l in H.
  destruct (is_none (kwarg "seed_hex" PNone kw)) eqn:E1; cbn [negb] in H.
  - assert (Hm' : is_none mnemonic = false \/ is_none (kwarg "uri" PNone kw) = false).
    { destruct Hsrc as [Hs|[Hs|Hs]]; [discriminate| |now right].
      left. rewrite Hs, !andb_false_r in Hm. cbn [andb] in Hm.
      now apply ret_Ok_inv in Hm as [<- _]. }
    destruct (is_none mnemonic) eqn:E2; cbn [negb] in H.
    + destruct Hm' as [?|Hu]; [discriminate|]. rewrite Hu in H. cbn [negb] in H.
      apply bind_Ok_inv in H as (kwargs & s2 & Hc & H).
      apply in_world_Ok_inv in Hc as [Hc _].
      apply create_from_uri_tagged in Hc. now apply (update_tagged kwargs tt s2).
    + apply bind_Ok_inv in H as (kwargs & s2 & Hc & H).
      apply in_world_Ok_inv in Hc as [Hc _].
      apply create_from_mnemonic_tagged in Hc. now apply (update_tagged kwargs tt s2).
  - apply bind_Ok_inv in H as (kwargs & s2 & Hc & H).
    apply in_world_Ok_inv in Hc as [Hc _].
    apply create_from_seed_tagged in Hc. now apply (update_tagged kwargs tt s2).
Qed.

Lemma save_Ok_self (path password override : pyval) (s s' : @obj_state W) :
  save path password override s = (Ok tt, s') ->
  fst s' = map (fun kv => (fst kv, hex_if_bytes (snd kv))) (fst s).
Proof.
  unfold save, resolve_key_path. intros H.
  apply bind_Ok_inv in H as (p & s1 & Hp & H).
  assert (s1 = s) as ->.
  { destruct (is_none path).
    - now apply getattr_Ok_inv in Hp as [-> _].
    - now apply ret_Ok_inv in Hp as [_ ->]. }
  apply bind_Ok_inv in H as (u & s2 & Hg & H).
  assert (fst s2 = fst s) as Hs2.
  { destruct (eq_False override).
    - apply bind_Ok_inv in Hg as (present & s3 & Hf & Hg).
      apply in_world_self in Hf.
      destruct present; [discriminate|].
      apply ret_Ok_inv in Hg as [_ ->]. exact Hf.
    - now apply ret_Ok_inv in Hg as [_ ->]. }
  apply bind_Ok_inv in H as (st & s3 & Hsd & H).
  apply in_world_self in H. rewrite H.
  pose proof (state_dict_self password s2) as Hs.
  rewrite Hsd in Hs. cbn [fst snd] in Hs. now rewrite Hs, Hs2.
Qed.

Lemma keeps_Ok {A : Type} (k : string) (m : M (@obj_state W) A) (a : A)
    (s s' : @obj_state W) :
  keeps k m -> m s = (Ok a, s') -> dict_get k (fst s') = dict_get k (fst s).
Proof. intros Hk H. specialize (Hk s). now rewrite H in Hk. Qed.

(** X13.  A keypair that the constructor builds from [seed_hex], [mnemonic]
    or [uri] is tagged 'sr25519' with address format 42, whatever
    [crypto_type] and [ss58_format] the caller passed: [set_params] hands
    neither to the class method.  Since message encryption asks for the tag
    'ed25519', such a keypair can never encrypt a message. *)
Theorem source_keypair_is_sr25519 (kw self : dict) (w w' : W) :
  (forall d, c.locals2kwargs d = d) ->
  truthy (kwarg "load" (PBool true) kw) = false ->
  truthy (kwarg "seed" PNone kw) = false ->
  is_none (kwarg "seed_hex" PNone kw) = false \/
  is_none (kwarg "mnemonic" PNone kw) = false \/
  is_none (kwarg "uri" PNone kw) = false ->
  Keypair kw w = (Ok self, w') ->
  dict_get "crypto_type" self = Some (PStr "sr25519") /\
  dict_get "ss58_format" self = Some (PInt 42) /\
  forall (K : class_Keypair) (message recipient : pyval) (nonce : option pyval),
    exists e : exn, encrypt_message K self message recipient nonce = Err e.
Proof.
  intros Hid Hload Hseed Hsrc H.
  apply Keypair_Ok_inv, (init_Ok_inv _ _ _ Hid) in H.
  unfold set_params, set_params_with in H.
  assert (Hl : truthy (kwarg "load" (PBool false) (init_locals kw)) = false)
    by exact Hload.
  rewrite Hl, andb_false_r in H. cbn [andb] in H.
  apply bind_Ok_inv in H as (u0 & s0 & _ & H).
  apply bind_Ok_inv in H as (u1 & s1 & _ & H).
  apply bind_Ok_inv in H as (u2 & s2 & _ & H).
  apply bind_Ok_inv in H as (stored & s3 & Hst & H).
  apply ret_Ok_inv in Hst as [<- ->].
  apply bind_Ok_inv in H as (u4 & s4 & Hprov & H).
  apply bind_Ok_inv in H as (u5 & s5 & Hval & H).
  destruct u4.
  apply (provenance_tagged (init_locals kw) s2 s4 Hseed Hsrc) in Hprov
    as [Hc Hf].
  assert (Hc5 : dict_get "crypto_type" (fst s5) = Some (PStr "sr25519")).
  { rewrite <- Hc. eapply keeps_Ok; [|exact Hval].
    apply set_params_validate_keeps; discriminate. }
  assert (Hf5 : dict_get "ss58_format" (fst s5) = Some (PInt 42)).
  { rewrite <- Hf. eapply keeps_Ok; [|exact Hval].
    apply set_params_validate_keeps; discriminate. }
  assert (Hfinal : dict_get "crypto_type" self = Some (PStr "sr25519") /\
                   dict_get "ss58_format" self = Some (PInt 42)).
  { destruct (truthy (kwarg "save" (PBool false) (init_locals kw))).
    - apply bind_Ok_inv in H as (p & s6 & Hg & H).
      apply getattr_Ok_inv in Hg as [-> _].
      apply bind_Ok_inv in H as (pw & s6 & Hg & H).
      apply getattr_Ok_inv in Hg as [-> _].
      apply save_Ok_self in H. cbn [fst] in H. rewrite H, !dict_get_hex, Hc5, Hf5.
      auto.
    - apply ret_Ok_inv in H as [_ H]. subst s5. auto. }
  destruct Hfinal as [Hct Hfmt]. repeat split; auto.
  intros K message recipient nonce. unfold encrypt_message, attr.
  destruct (dict_get "private_key" self) as [sk|]; cbn [res_bind]; [|eauto].
  destruct (truthy sk); cbn [negb]; [|eauto].
  rewrite Hct. cbn. eauto.
Qed.

(** ** The names of the stored keys *)

Lemma prefix_char (c ch : ascii) (r : string) :
  String.prefix (String c EmptyString) (String ch r) = Ascii.eqb ch c.
Proof.
  cbn [String.prefix]. destruct (ascii_dec c ch) as [->|Hne].
  - rewrite Ascii.eqb_refl. destruct r; reflexivity.
  - symmetry. apply Ascii.eqb_neq. congruence.
Qed.

Lemma contains_char_cons (c ch : ascii) (r : string) :
  str_contains (String c EmptyString) (String ch r)
  = Ascii.eqb ch c || str_contains (String c EmptyString) r.
Proof. cbn [str_contains]. now rewrite prefix_char. Qed.

Lemma contains_char_app (c : ascii) (a b : string) :
  str_contains (String c EmptyString) (a ++ b)
  = str_contains (String c EmptyString) a || str_contains (String c EmptyString) b.
Proof.
  induction a as [|ch r IH].
  - reflexivity.
  - cbn [append]. now rewrite !contains_char_cons, IH, orb_assoc.
Qed.

Lemma basename_no_slash (p : string) : str_contains "/" (basename p) = false.
Proof.
  induction p as [|ch r IH]; [reflexivity|].
  cbn [basename]. destruct (str_contains "/" (String ch r)) eqn:E; [|exact E].
  destruct (Ascii.eqb ch "/"); [|exact IH].
  destruct (str_contains "/" r) eqn:Er; [exact IH|exact Er].
Qed.

Lemma basename_of_file (dir name : string) :
  str_contains "/" name = false ->
  basename (dir ++ String "/" name) = name.
Proof.
  intros Hn. induction dir as [|ch d IH].
  - cbn [append basename]. rewrite contains_char_cons, Ascii.eqb_refl, Hn.
    reflexivity.
  - cbn [append basename].
    assert (Hr : str_contains "/" (d ++ String "/" name) = true).
    { rewrite contains_char_app, contains_char_cons, Ascii.eqb_refl.
      now rewrite orb_true_r. }
    rewrite contains_char_cons, Hr, orb_true_r.
    destruct (Ascii.eqb ch "/"); exact IH.
Qed.

Lemma splitext_root_no_slash (seen : bool) (p : string) :
  str_contains "/" p = false -> str_contains "/" (splitext_root seen p) = false.
Proof.
  revert seen. induction p as [|ch r IH]; intros seen H; [reflexivity|].
  rewrite contains_char_cons in H. apply orb_false_iff in H as [Hc Hr].
  cbn [splitext_root].
  destruct (Ascii.eqb ch "." && seen && negb (str_contains "." r)); [reflexivity|].
  rewrite contains_char_cons, Hc. now apply IH.
Qed.

Lemma splitext_root_of_file (seen : bool) (name ext : string) :
  seen || has_non_dot name = true ->
  str_contains "." ext = false ->
  splitext_root seen (name ++ String "." ext) = name.
Proof.
  intros Hseen Hext. revert seen Hseen. induction name as [|ch r IH]; intros seen Hseen.
  - cbn [has_non_dot] in Hseen. rewrite orb_false_r in Hseen. subst seen.
    cbn [append splitext_root]. now rewrite Hext.
  - cbn [append splitext_root].
    rewrite contains_char_app, contains_char_cons, Ascii.eqb_refl.
    rewrite orb_true_r, andb_false_r. f_equal. apply IH.
    cbn [has_non_dot] in Hseen.
    destruct seen, (Ascii.eqb ch "."), (has_non_dot r); auto.
Qed.

Lemma key_exists_eval (key : pyval) (paths : list string) (w w1 : W) :
  c.ls w = (Ok paths, w1) ->
  key_exists key w
  = (Ok (existsb (fun k => eq_str key k)
           (map (fun p => splitext_root false (basename p)) paths)), w1).
Proof. intros H. unfold key_exists, ls_keys, bind. now rewrite H. Qed.

(** X14.  A file that the storage lists as [dir/name.ext] is the key
    [name]: [ls_keys] drops the directories and the last extension of every
    listed path, so [key_exists] finds the key under its bare name, for any
    directory and extension.  (The name has no slash and is not made of
    dots only; it may contain dots.) *)
Theorem listed_file_is_a_key
    (dir name ext : string) (paths : list string) (w w1 : W) :
  str_contains "/" name = false ->
  has_non_dot name = true ->
  str_contains "/" ext = false ->
  str_contains "." ext = false ->
  c.ls w = (Ok paths, w1) ->
  In (dir ++ "/" ++ name ++ "." ++ ext)%string paths ->
  ls_keys w = (Ok (map (fun p => splitext_root false (basename p)) paths), w1) /\
  key_exists (PStr name) w = (Ok true, w1).
Proof.
  intros Hname Hdot Hext Hext' Hls Hin. split.
  - unfold ls_keys, bind. now rewrite Hls.
  - rewrite (key_exists_eval _ paths w w1 Hls). f_equal. f_equal.
    apply existsb_exists. exists name. split; [|apply String.eqb_refl].
    apply in_map_iff. exists (dir ++ "/" ++ name ++ "." ++ ext)%string.
    split; [|exact Hin].
    change (dir ++ "/" ++ name ++ "." ++ ext)%string
      with (dir ++ String "/" (name ++ String "." ext))%string.
    rewrite basename_of_file.
    + apply splitext_root_of_file; [now rewrite Hdot|exact Hext'].
    + rewrite contains_char_app, contains_char_cons, Hname, Hext. reflexivity.
Qed.

(** X15.  A key name with a slash is never found: the names [ls_keys]
    returns are base names, so [key_exists] answers False for it whatever
    the storage lists, also right after the key was saved under that
    name. *)
Theorem key_with_slash_is_never_found
    (key : string) (paths : list string) (w w1 : W) :
  str_contains "/" key = true ->
  c.ls w = (Ok paths, w1) ->
  key_exists (PStr key) w = (Ok false, w1).
Proof.
  intros Hkey Hls. rewrite (key_exists_eval _ paths w w1 Hls). f_equal. f_equal.
  induction paths as [|p r IH] in |- *; [reflexivity|].
  cbn [map existsb]. rewrite IH, orb_false_r. cbn [eq_str].
  apply String.eqb_neq. intros ->.
  rewrite splitext_root_no_slash in Hkey; [discriminate|apply basename_no_slash].
Qed.

(** ** A key that is stored at the path *)

(** Lines 135-140 when the storage holds the key: the constructor is the
    method [load] on an object that has its path and password only. *)
Lemma Keypair_stored (kw : dict) (w w1 : W) :
  (forall d, c.locals2kwargs d = d) ->
  check_keywords init_keywords kw = Ok tt ->
  is_none (kwarg "path" (PStr "default") kw) = false ->
  truthy (kwarg "load" (PBool true) kw) = true ->
  truthy (kwarg "refresh" (PBool false) kw) = false ->
  key_exists (kwarg "path" (PStr "default") kw) w = (Ok true, w1) ->
  Keypair kw w
  = match load (kwarg "path" (PStr "default") kw) (kwarg "password" PNone kw)
            ([("path", kwarg "path" (PStr "default") kw);
              ("password", kwarg "password" PNone kw)], w1) with
    | (Ok _, (self, w')) => (Ok self, w')
    | (Err e, (_, w')) => (Err e, w')
    end.
Proof.
  intros Hid Hkw Hpath Hload Hrefresh Hex.
  unfold Keypair, __init__. rewrite Hid, Hkw.
  rewrite bind_pure_Ok with (a := tt) by reflexivity.
  unfold set_params, set_params_with, init_locals.
  rewrite bind_pure_Ok with (a := tt) by reflexivity.
  remember (kwarg "path" (PStr "default") kw) as path.
  remember (kwarg "password" PNone kw) as password.
  remember (kwarg "load" (PBool true) kw) as ld.
  remember (kwarg "refresh" (PBool false) kw) as refresh.
  cbn [kwarg dict_get_default dict_get String.eqb Ascii.eqb Bool.eqb].
  rewrite !bind_setattr. cbn [dict_set fst snd String.eqb Ascii.eqb Bool.eqb].
  rewrite Hpath, Hload, Hrefresh. cbn [negb andb].
  erewrite bind_in_world_Ok by exact Hex. reflexivity.
Qed.

(** X16.  When the storage holds a key at the path, and [load] is in force
    and [refresh] is not (the defaults), the constructor returns the stored
    key and reads nothing else of its arguments: the seed, the mnemonic, the
    URI, the keys, the address, the scheme tag and [save] have no effect.
    Two calls that agree on the path and the password give the same
    result. *)
Theorem stored_key_overrides_arguments (kw1 kw2 : dict) (w w1 : W) :
  (forall d, c.locals2kwargs d = d) ->
  check_keywords init_keywords kw1 = Ok tt ->
  check_keywords init_keywords kw2 = Ok tt ->
  kwarg "path" (PStr "default") kw1 = kwarg "path" (PStr "default") kw2 ->
  kwarg "password" PNone kw1 = kwarg "password" PNone kw2 ->
  is_none (kwarg "path" (PStr "default") kw1) = false ->
  truthy (kwarg "load" (PBool true) kw1) = true ->
  truthy (kwarg "load" (PBool true) kw2) = true ->
  truthy (kwarg "refresh" (PBool false) kw1) = false ->
  truthy (kwarg "refresh" (PBool false) kw2) = false ->
  key_exists (kwarg "path" (PStr "default") kw1) w = (Ok true, w1) ->
  Keypair kw1 w = Keypair kw2 w.
Proof.
  intros Hid Hk1 Hk2 Hpath Hpw Hnone Hl1 Hl2 Hr1 Hr2 Hex.
  rewrite (Keypair_stored kw1 w w1 Hid Hk1 Hnone Hl1 Hr1 Hex).
  rewrite Hpath in Hnone, Hex.
  rewrite (Keypair_stored kw2 w w1 Hid Hk2 Hnone Hl2 Hr2 Hex).
  now rewrite Hpath, Hpw.
Qed.

(** ** Key material passed as it is *)

(** Lines 135-170 without a seed, a mnemonic or a URI: the arguments become
    the attributes, and lines 172-211 run on them. *)
Lemma Keypair_raw (kw : dict) (w : W) :
  (forall d, c.locals2kwargs d = d) ->
  check_keywords init_keywords kw = Ok tt ->
  truthy (kwarg "load" (PBool true) kw) = false ->
  truthy (kwarg "seed" PNone kw) && is_str (kwarg "seed" PNone kw) = false ->
  kwarg "seed_hex" PNone kw = PNone ->
  kwarg "mnemonic" PNone kw = PNone ->
  kwarg "uri" PNone kw = PNone ->
  is_none (kwarg "seed" PNone kw) && is_none (kwarg "ss58_address" PNone kw)
    && is_none (kwarg "public_key" PNone kw)
    && is_none (kwarg "private_key" PNone kw) = false ->
  Keypair kw w
  = construct
      (set_params_validate (kwarg "public_key" PNone kw) ;;
       if truthy (kwarg "save" (PBool true) kw)
       then
         path <- getattr "path" ;;
         password <- getattr "password" ;;
         save path password (PBool true)
       else ret tt)
      (raw_attributes kw) w.
Proof.
  intros Hid Hkw Hload Hseed Hhex Hmn Huri Hsome.
  unfold Keypair, construct, __init__. rewrite Hid, Hkw.
  rewrite bind_pure_Ok with (a := tt) by reflexivity.
  unfold set_params, set_params_with, init_locals, raw_attributes.
  rewrite bind_pure_Ok with (a := tt) by reflexivity.
  rewrite Hhex, Hmn, Huri.
  remember (kwarg "path" (PStr "default") kw) as path.
  remember (kwarg "password" PNone kw) as password.
  remember (kwarg "load" (PBool true) kw) as ld.
  remember (kwarg "refresh" (PBool false) kw) as refresh.
  remember (kwarg "save" (PBool true) kw) as sv.
  remember (kwarg "seed" PNone kw) as seed.
  remember (kwarg "ss58_address" PNone kw) as ss58_address.
  remember (kwarg "public_key" PNone kw) as public_key.
  remember (kwarg "private_key" PNone kw) as private_key.
  remember (kwarg "ss58_format" PNone kw) as ss58_format.
  remember (kwarg "derive_path" PNone kw) as derive_path.
  remember (kwarg "crypto_type" (PStr "sr25519") kw) as crypto_type.
  cbn [kwarg dict_get_default dict_get String.eqb Ascii.eqb Bool.eqb].
  rewrite !bind_setattr. cbn [dict_set fst snd String.eqb Ascii.eqb Bool.eqb].
  rewrite Hload, andb_false_r. cbn [andb]. rewrite bind_ret_l.
  unfold set_params_provenance.
  cbn [kwarg dict_get_default dict_get String.eqb Ascii.eqb Bool.eqb is_none].
  rewrite !andb_true_r, Hsome.
  rewrite bind_assoc, bind_ret_l, bind_assoc.
  assert (Hs : (if truthy seed
                then if is_str seed then pure (c.hash seed) else ret PNone
                else @ret (@obj_state W) _ PNone) = ret PNone).
  { destruct (truthy seed); [|reflexivity].
    cbn [andb] in Hseed. now rewrite Hseed. }
  rewrite Hs, bind_ret_l. cbn [is_none negb].
  rewrite !bind_assoc, !bind_setattr.
  cbn [dict_set fst snd String.eqb Ascii.eqb Bool.eqb].
  rewrite !bind_assoc, !bind_setattr.
  cbn [dict_set fst snd String.eqb Ascii.eqb Bool.eqb].
  reflexivity.
Qed.

Ltac name_kwargs :=
  repeat match goal with
         | |- context [kwarg ?k ?d ?kw] =>
             let v := fresh "arg" in
             let E := fresh "Earg" in
             remember (kwarg k d kw) as v eqn:E; clear E
         end.

(** X17.  Without key material the constructor raises ValueError and
    leaves the storage as it was: this is the case when an argument is
    given but empty or unusable (an empty seed text, a seed that is not
    text, an empty address, empty keys), so that no mnemonic is generated
    either, and nothing else is given. *)
Theorem no_key_material_is_refused (kw : dict) (w : W) :
  (forall d, c.locals2kwargs d = d) ->
  check_keywords init_keywords kw = Ok tt ->
  truthy (kwarg "load" (PBool true) kw) = false ->
  truthy (kwarg "seed" PNone kw) && is_str (kwarg "seed" PNone kw) = false ->
  kwarg "seed_hex" PNone kw = PNone ->
  kwarg "mnemonic" PNone kw = PNone ->
  kwarg "uri" PNone kw = PNone ->
  is_none (kwarg "seed" PNone kw) && is_none (kwarg "ss58_address" PNone kw)
    && is_none (kwarg "public_key" PNone kw)
    && is_none (kwarg "private_key" PNone kw) = false ->
  truthy (kwarg "ss58_address" PNone kw) = false ->
  truthy (kwarg "public_key" PNone kw) = false ->
  truthy (kwarg "private_key" PNone kw) = false ->
  Keypair kw w
  = (Err (ValueError "No SS58 formatted address or public key provided"), w).
Proof.
  intros Hid Hkw Hload Hseed Hhex Hmn Huri Hsome Haddr Hpk Hsk.
  rewrite (Keypair_raw kw w Hid Hkw Hload Hseed Hhex Hmn Huri Hsome).
  unfold construct, raw_attributes. clear Hkw Hload Hseed Hhex Hmn Huri Hsome.
  name_kwargs.
  unfold set_params_validate, set_params_private_key, set_params_public_key.
  repeat step.
  destruct (eq_str _ "ecdsa"); cbn [negb]; repeat step;
    rewrite ?Haddr; repeat step; rewrite Hsk; repeat step;
    rewrite Hpk; reflexivity.
Qed.

(** X18.  A private key alone makes a keypair for the schemes 'sr25519'
    and 'ecdsa' only.  With any other scheme tag ('ed25519' among them) no
    public key is derived from the private key, and the constructor raises
    ValueError 'No SS58 formatted address or public key provided' and
    leaves the storage as it was. *)
Theorem private_key_alone_is_refused_for_other_schemes
    (kw : dict) (sk : bytes) (w : W) :
  (forall d, c.locals2kwargs d = d) ->
  check_keywords init_keywords kw = Ok tt ->
  truthy (kwarg "load" (PBool true) kw) = false ->
  truthy (kwarg "seed" PNone kw) && is_str (kwarg "seed" PNone kw) = false ->
  kwarg "seed_hex" PNone kw = PNone ->
  kwarg "mnemonic" PNone kw = PNone ->
  kwarg "uri" PNone kw = PNone ->
  kwarg "private_key" PNone kw = PBytes sk ->
  sk <> [] ->
  eq_str (kwarg "crypto_type" (PStr "sr25519") kw) "sr25519" = false ->
  eq_str (kwarg "crypto_type" (PStr "sr25519") kw) "ecdsa" = false ->
  truthy (kwarg "ss58_address" PNone kw) = false ->
  truthy (kwarg "public_key" PNone kw) = false ->
  Keypair kw w
  = (Err (ValueError "No SS58 formatted address or public key provided"), w).
Proof.
  intros Hid Hkw Hload Hseed Hhex Hmn Huri Hsk Hne Hsr Hec Haddr Hpk.
  assert (Hsome : is_none (kwarg "seed" PNone kw)
                    && is_none (kwarg "ss58_address" PNone kw)
                    && is_none (kwarg "public_key" PNone kw)
                    && is_none (kwarg "private_key" PNone kw) = false).
  { rewrite Hsk. cbn [is_none]. apply andb_false_r. }
  assert (Ht : negb (Nat.eqb (List.length sk) 0) = true)
    by (destruct sk; [now elim Hne|reflexivity]).
  rewrite (Keypair_raw kw w Hid Hkw Hload Hseed Hhex Hmn Huri Hsome).
  unfold construct, raw_attributes. rewrite Hsk.
  clear Hkw Hload Hseed Hhex Hmn Huri Hsome Hsk.
  name_kwargs.
  unfold set_params_validate, set_params_private_key, set_params_public_key.
  repeat step. rewrite Hec. cbn [negb]. repeat step. rewrite Haddr. repeat step.
  rewrite Ht. repeat step. rewrite Hsr. repeat step. rewrite Hec. repeat step.
  rewrite Hpk. reflexivity.
Qed.

Lemma encode_nonempty (b : bytes) : b <> [] -> String.eqb (Hex.encode b) "" = false.
Proof. destruct b; [now intros H; elim H|reflexivity]. Qed.

Lemma fromhex_0x_encode (b : bytes) :
  fromhex (Hex.strip_0x (String "0" (String "x" (Hex.encode b)))) = Ok b.
Proof. cbn [Hex.strip_0x]. apply fromhex_encode. Qed.

(** X19.  An Sr25519 private key that is not 64 bytes long is refused: given
    as bytes, as hexadecimal text or as 0x-prefixed hexadecimal text, with
    the scheme tag 'sr25519', the constructor raises ValueError 'Secret key
    should be 64 bytes long' and leaves the storage as it was.  (The address
    is not decoded first: none is given, or a public key is.) *)
Theorem sr25519_private_key_must_be_64_bytes
    (kw : dict) (sk : bytes) (w : W) :
  (forall d, c.locals2kwargs d = d) ->
  check_keywords init_keywords kw = Ok tt ->
  truthy (kwarg "load" (PBool true) kw) = false ->
  truthy (kwarg "seed" PNone kw) && is_str (kwarg "seed" PNone kw) = false ->
  kwarg "seed_hex" PNone kw = PNone ->
  kwarg "mnemonic" PNone kw = PNone ->
  kwarg "uri" PNone kw = PNone ->
  kwarg "private_key" PNone kw = PBytes sk \/
  kwarg "private_key" PNone kw = PStr (Hex.encode sk) \/
  kwarg "private_key" PNone kw = PStr (String "0" (String "x" (Hex.encode sk))) ->
  sk <> [] ->
  List.length sk <> 64 ->
  kwarg "crypto_type" (PStr "sr25519") kw = PStr "sr25519" ->
  truthy (kwarg "ss58_address" PNone kw) = false \/
  truthy (kwarg "public_key" PNone kw) = true ->
  Keypair kw w = (Err (ValueError "Secret key should be 64 bytes long"), w).
Proof.
  intros Hid Hkw Hload Hseed Hhex Hmn Huri Hsk Hne Hlen Hct Hskip.
  assert (Hsome : is_none (kwarg "seed" PNone kw)
                    && is_none (kwarg "ss58_address" PNone kw)
                    && is_none (kwarg "public_key" PNone kw)
                    && is_none (kwarg "private_key" PNone kw) = false).
  { destruct Hsk as [Hsk|[Hsk|Hsk]]; rewrite Hsk; cbn [is_none]; apply andb_false_r. }
  assert (Ht : negb (Nat.eqb (List.length sk) 0) = true)
    by (destruct sk; [now elim Hne|reflexivity]).
  assert (H64 : negb (Nat.eqb (List.length sk) 64) = true)
    by (apply negb_true_iff, Nat.eqb_neq; exact Hlen).
  pose proof (encode_nonempty sk Hne) as Henc.
  rewrite (Keypair_raw kw w Hid Hkw Hload Hseed Hhex Hmn Huri Hsome).
  unfold construct, raw_attributes. rewrite Hct.
  clear Hkw Hload Hseed Hhex Hmn Huri Hsome Hct.
  assert (Hskip' : truthy (kwarg "ss58_address" PNone kw)
                     && negb (truthy (kwarg "public_key" PNone kw)) = false).
  { destruct Hskip as [->| ->]; [reflexivity|apply andb_false_r]. }
  clear Hskip.
  remember (kwarg "ss58_address" PNone kw) as addr eqn:Eaddr. clear Eaddr.
  remember (kwarg "public_key" PNone kw) as pk eqn:Epk. clear Epk.
  destruct Hsk as [Hsk|[Hsk|Hsk]]; rewrite Hsk; clear Hsk; name_kwargs;
    unfold set_params_validate, set_params_private_key, set_params_public_key;
    repeat step;
    (destruct (truthy addr) eqn:Ea; repeat step;
     [cbn [andb] in Hskip'; rewrite Hskip'; repeat step|]);
    rewrite ?Ht, ?Henc; calc; repeat step;
    rewrite ?(bind_pure_Ok _ sk) by (apply fromhex_encode || apply fromhex_0x_encode);
    repeat step;
    rewrite (bind_pure_Ok _ (List.length sk)) by reflexivity;
    rewrite H64; reflexivity.
Qed.

(** X20.  A public key of the wrong length is refused: given as bytes or as
    hexadecimal text, without a private key, the constructor raises
    ValueError unless the key has 20 bytes under the scheme tag 'ecdsa' and
    32 bytes under any other tag, and leaves the storage as it was. *)
Theorem public_key_length_is_checked
    (kw : dict) (pk : bytes) (w : W) :
  (forall d, c.locals2kwargs d = d) ->
  check_keywords init_keywords kw = Ok tt ->
  truthy (kwarg "load" (PBool true) kw) = false ->
  truthy (kwarg "seed" PNone kw) && is_str (kwarg "seed" PNone kw) = false ->
  kwarg "seed_hex" PNone kw = PNone ->
  kwarg "mnemonic" PNone kw = PNone ->
  kwarg "uri" PNone kw = PNone ->
  kwarg "public_key" PNone kw = PBytes pk \/
  kwarg "public_key" PNone kw = PStr (Hex.encode pk) ->
  pk <> [] ->
  truthy (kwarg "private_key" PNone kw) = false ->
  List.length pk
  <> (if eq_str (kwarg "crypto_type" (PStr "sr25519") kw) "ecdsa" then 20 else 32) ->
  Keypair kw w
  = (Err (ValueError
            (if eq_str (kwarg "crypto_type" (PStr "sr25519") kw) "ecdsa"
             then "Public key should be 20 bytes long"
             else "Public key should be 32 bytes long")), w).
Proof.
  intros Hid Hkw Hload Hseed Hhex Hmn Huri Hpk Hne Hsk Hlen.
  assert (Hsome : is_none (kwarg "seed" PNone kw)
                    && is_none (kwarg "ss58_address" PNone kw)
                    && is_none (kwarg "public_key" PNone kw)
                    && is_none (kwarg "private_key" PNone kw) = false).
  { destruct Hpk as [Hpk|Hpk]; rewrite Hpk; cbn [is_none];
      now rewrite andb_false_r. }
  assert (Ht : negb (Nat.eqb (List.length pk) 0) = true)
    by (destruct pk; [now elim Hne|reflexivity]).
  pose proof (encode_nonempty pk Hne) as Henc.
  rewrite (Keypair_raw kw w Hid Hkw Hload Hseed Hhex Hmn Huri Hsome).
  unfold construct, raw_attributes.
  clear Hkw Hload Hseed Hhex Hmn Huri Hsome.
  remember (kwarg "ss58_address" PNone kw) as addr eqn:Eaddr. clear Eaddr.
  remember (kwarg "private_key" PNone kw) as sk eqn:Esk. clear Esk.
  remember (kwarg "crypto_type" (PStr "sr25519") kw) as ct eqn:Ect. clear Ect.
  destruct Hpk as [Hpk|Hpk]; rewrite Hpk; clear Hpk; name_kwargs;
    unfold set_params_validate, set_params_private_key, set_params_public_key;
    repeat step;
    destruct (eq_str ct "ecdsa") eqn:Eec; calc; repeat step;
    try (destruct (truthy addr) eqn:Ea; repeat step);
    rewrite ?Ht, ?Henc; calc; repeat step;
    rewrite Hsk; repeat step;
    rewrite ?Ht, ?Henc; calc; repeat step;
    rewrite ?(bind_pure_Ok _ pk) by apply fromhex_encode;
    repeat step; rewrite ?Eec; repeat step;
    rewrite (bind_pure_Ok _ (List.length pk)) by reflexivity;
    apply Nat.eqb_neq in Hlen; rewrite Hlen; reflexivity.
Qed.

(** X21.  An address alone gives a keypair that can verify and cannot
    sign: for a scheme other than 'ecdsa' the constructor decodes the
    address to the public key (32 bytes, held as bytes), keeps the address
    as given and holds no private key, and [sign] on the keypair raises
    ConfigurationError for every data it can read.  With [save=False] the
    storage is left as it was. *)
Theorem address_alone_gives_a_public_keypair
    (kw : dict) (h : string) (pk : bytes) (w : W) :
  (forall d, c.locals2kwargs d = d) ->
  check_keywords init_keywords kw = Ok tt ->
  truthy (kwarg "load" (PBool true) kw) = false ->
  truthy (kwarg "save" (PBool true) kw) = false ->
  truthy (kwarg "seed" PNone kw) && is_str (kwarg "seed" PNone kw) = false ->
  kwarg "seed_hex" PNone kw = PNone ->
  kwarg "mnemonic" PNone kw = PNone ->
  kwarg "uri" PNone kw = PNone ->
  truthy (kwarg "ss58_address" PNone kw) = true ->
  truthy (kwarg "public_key" PNone kw) = false ->
  truthy (kwarg "private_key" PNone kw) = false ->
  eq_str (kwarg "crypto_type" (PStr "sr25519") kw) "ecdsa" = false ->
  ss58.ss58_decode (kwarg "ss58_address" PNone kw) (kwarg "ss58_format" PNone kw)
  = Ok h ->
  fromhex (Hex.strip_0x h) = Ok pk ->
  List.length pk = 32 ->
  exists self : dict,
    Keypair kw w = (Ok self, w) /\
    dict_get "public_key" self = Some (PBytes pk) /\
    dict_get "ss58_address" self = Some (kwarg "ss58_address" PNone kw) /\
    dict_get "private_key" self = Some (kwarg "private_key" PNone kw) /\
    forall (data msg : pyval) (ct : option pyval) (rd : bool),
      data_to_bytes (c.python2str data) = Ok msg ->
      sign self data ct rd
      = Err (ConfigurationError "No private key set to create signatures").
Proof.
  intros Hid Hkw Hload Hsave Hseed Hhex Hmn Huri Haddr Hpk Hsk Hec Hdec Hfrom Hlen.
  assert (Hsome : is_none (kwarg "seed" PNone kw)
                    && is_none (kwarg "ss58_address" PNone kw)
                    && is_none (kwarg "public_key" PNone kw)
                    && is_none (kwarg "private_key" PNone kw) = false).
  { destruct (kwarg "ss58_address" PNone kw); try discriminate;
      cbn [is_none]; now rewrite andb_false_r. }
  assert (Hh : String.eqb h "" = false).
  { destruct h; [|reflexivity]. cbn in Hfrom. injection Hfrom as <-. discriminate. }
  rewrite (Keypair_raw kw w Hid Hkw Hload Hseed Hhex Hmn Huri Hsome).
  unfold construct, raw_attributes.
  clear Hkw Hload Hseed Hhex Hmn Huri Hsome.
  remember (kwarg "ss58_address" PNone kw) as addr eqn:Eaddr. clear Eaddr.
  remember (kwarg "public_key" PNone kw) as pub eqn:Epub. clear Epub.
  remember (kwarg "private_key" PNone kw) as sk eqn:Esk. clear Esk.
  remember (kwarg "ss58_format" PNone kw) as fmt eqn:Efmt. clear Efmt.
  remember (kwarg "crypto_type" (PStr "sr25519") kw) as ct eqn:Ect. clear Ect.
  remember (kwarg "save" (PBool true) kw) as sv eqn:Esv. clear Esv.
  name_kwargs.
  unfold set_params_validate, set_params_private_key, set_params_public_key.
  repeat step. rewrite Hec. calc. repeat step. rewrite Haddr. repeat step.
  rewrite Hpk. calc. repeat step.
  rewrite (bind_pure_Ok _ h) by exact Hdec. repeat step.
  rewrite Hsk. repeat step. rewrite Hh. calc. repeat step.
  rewrite (bind_pure_Ok _ pk) by exact Hfrom. repeat step.
  rewrite Hec. repeat step.
  rewrite (bind_pure_Ok _ (List.length pk)) by reflexivity.
  rewrite Hlen. cbn [Nat.eqb negb]. repeat step.
  rewrite Haddr. calc. repeat step. rewrite Hsave.
  eexists. split; [reflexivity|]. split; [reflexivity|]. split; [reflexivity|].
  split; [reflexivity|].
  intros data msg ct0 rd Hd.
  eapply sign_without_private_key; [reflexivity|exact Hsk|exact Hd].
Qed.

(** ** A snapshot read back *)

Lemma state_dict_eval (password : pyval) (text : string) (s : @obj_state W) :
  py.json_dumps (PDict (map (fun kv => (fst kv, hex_if_bytes (snd kv))) (fst s)))
  = Ok text ->
  state_dict password s
  = ((if is_none password
      then Ok (PDict [("data", PStr text); ("encrypted", PBool false)])
      else let? encrypted := c.encrypt (PStr text) password in
           Ok (PDict [("data", encrypted); ("encrypted", PBool true)])),
     (map (fun kv => (fst kv, hex_if_bytes (snd kv))) (fst s), snd s)).
Proof.
  intros H. unfold state_dict, hex_bytes_in_place, bind, pure, ret. cbn [fst snd].
  rewrite H. destruct (is_none password); cbn [negb]; [reflexivity|].
  destruct (c.encrypt (PStr text) password); reflexivity.
Qed.

(** Lines 816-822 on a record of [state_dict]. *)
Lemma load_from_dict_eval
    (data : pyval) (flag : bool) (password : pyval) (text : string) (d : dict)
    (s : @obj_state W) :
  (if flag then c.decrypt data password = Ok (PStr text) else data = PStr text) ->
  py.json_loads text = Ok (PDict d) ->
  load_from_dict (PDict [("data", data); ("encrypted", PBool flag)]) password s
  = set_params d s.
Proof.
  intros Hdata Hloads. unfold load_from_dict.
  rewrite bind_pure_Ok with (a := PBool flag) by reflexivity.
  rewrite bind_pure_Ok with (a := true) by reflexivity.
  cbv beta iota.
  rewrite bind_pure_Ok with (a := data) by reflexivity.
  cbn [truthy]. destruct flag.
  - rewrite (bind_pure_Ok _ (PStr text)) by exact Hdata.
    rewrite (bind_pure_Ok _ (PDict d)) by exact Hloads. reflexivity.
  - subst data. rewrite !bind_ret_l.
    rewrite (bind_pure_Ok _ (PDict d)) by exact Hloads. reflexivity.
Qed.

(** [set_params] on the snapshot of a keypair, run on the object that
    [state_dict] left. *)
Lemma set_params_restores
    (path password fmt ct priv : pyval) (a : string) (pk sk : bytes) (w : W) :
  hex_if_bytes path = path ->
  hex_if_bytes password = password ->
  hex_if_bytes fmt = fmt ->
  hex_if_bytes ct = ct ->
  a <> EmptyString ->
  List.length pk = 32 ->
  priv = PNone \/
  (priv = PBytes sk /\ sk <> [] /\ (eq_str ct "sr25519" = true -> List.length sk = 64)) ->
  eq_str ct "ecdsa" = false ->
  set_params
    (map (fun kv => (fst kv, hex_if_bytes (snd kv)))
       (raw_keypair path password fmt ct priv a pk))
    (map (fun kv => (fst kv, hex_if_bytes (snd kv)))
       (raw_keypair path password fmt ct priv a pk), w)
  = (Ok tt, (raw_keypair path password fmt ct priv a pk, w)).
Proof.
  intros Hpath Hpassword Hfmt Hct Ha Hlen Hpriv Hec.
  apply String.eqb_neq in Ha.
  assert (Hpk : pk <> []) by (intros ->; discriminate).
  pose proof (encode_nonempty pk Hpk) as Henc.
  unfold raw_keypair.
  destruct Hpriv as [->|(-> & Hsk & H64)]; cbn [map fst snd hex_if_bytes];
    rewrite Hpath, Hpassword, Hfmt, Hct;
    unfold set_params, set_params_with;
    rewrite bind_pure_Ok with (a := tt) by reflexivity;
    calc; repeat step; rewrite andb_false_r; repeat step;
    unfold set_params_provenance; calc; repeat step;
    unfold set_params_validate; repeat step; rewrite Hec; calc; repeat step;
    rewrite Ha; calc; repeat step; rewrite Henc; calc; repeat step.
  - unfold set_params_private_key. repeat step.
    unfold set_params_public_key. repeat step. rewrite Henc. calc. repeat step.
    rewrite (bind_pure_Ok _ pk) by apply fromhex_encode. repeat step.
    rewrite Hec. repeat step.
    rewrite (bind_pure_Ok _ (List.length pk)) by reflexivity.
    rewrite Hlen. cbn [Nat.eqb negb]. repeat step. rewrite Ha. reflexivity.
  - unfold set_params_private_key. repeat step.
    rewrite (encode_nonempty sk Hsk). calc. repeat step.
    rewrite (bind_pure_Ok _ sk) by apply fromhex_encode. repeat step.
    destruct (eq_str ct "sr25519") eqn:Esr; repeat step.
    + rewrite (bind_pure_Ok _ (List.length sk)) by reflexivity.
      rewrite (H64 eq_refl). cbn [Nat.eqb negb]. rewrite Henc. calc. repeat step.
      rewrite Hec. repeat step.
      unfold set_params_public_key. repeat step. rewrite Henc. calc. repeat step.
      rewrite (bind_pure_Ok _ pk) by apply fromhex_encode. repeat step.
      rewrite Hec. repeat step.
      rewrite (bind_pure_Ok _ (List.length pk)) by reflexivity.
      rewrite Hlen. cbn [Nat.eqb negb]. repeat step. rewrite Ha. reflexivity.
    + rewrite Hec. repeat step.
      unfold set_params_public_key. repeat step. rewrite Henc. calc. repeat step.
      rewrite (bind_pure_Ok _ pk) by apply fromhex_encode. repeat step.
      rewrite Hec. repeat step.
      rewrite (bind_pure_Ok _ (List.length pk)) by reflexivity.
      rewrite Hlen. cbn [Nat.eqb negb]. repeat step. rewrite Ha. reflexivity.
Qed.

(** X22.  [load_from_dict] undoes what [state_dict] did to the object: on a
    keypair that holds its keys in bytes (scheme other than 'ecdsa', built
    from keys passed as they are), the snapshot that [state_dict] returns,
    with or without a password, read back by [load_from_dict] with the same
    password, restores every attribute, the keys again in bytes.  The laws
    of the JSON codec and of the cipher on this snapshot are hypotheses. *)
Theorem load_from_dict_restores_the_snapshot
    (path password fmt ct priv pw : pyval) (a text : string) (pk sk : bytes) (w : W) :
  hex_if_bytes path = path ->
  hex_if_bytes password = password ->
  hex_if_bytes fmt = fmt ->
  hex_if_bytes ct = ct ->
  a <> EmptyString ->
  List.length pk = 32 ->
  priv = PNone \/
  (priv = PBytes sk /\ sk <> [] /\ (eq_str ct "sr25519" = true -> List.length sk = 64)) ->
  eq_str ct "ecdsa" = false ->
  py.json_dumps
    (PDict (map (fun kv => (fst kv, hex_if_bytes (snd kv)))
              (raw_keypair path password fmt ct priv a pk))) = Ok text ->
  py.json_loads text
  = Ok (PDict (map (fun kv => (fst kv, hex_if_bytes (snd kv)))
                 (raw_keypair path password fmt ct priv a pk))) ->
  (is_none pw = false ->
   exists enc : pyval,
     c.encrypt (PStr text) pw = Ok enc /\ c.decrypt enc pw = Ok (PStr text)) ->
  (state <- state_dict pw ;; load_from_dict state pw)
    (raw_keypair path password fmt ct priv a pk, w)
  = (Ok tt, (raw_keypair path password fmt ct priv a pk, w)).
Proof.
  intros Hpath Hpassword Hfmt Hct Ha Hlen Hpriv Hec Hdumps Hloads Hpw.
  unfold bind at 1.
  rewrite (state_dict_eval pw text) by exact Hdumps. cbn [fst snd].
  destruct (is_none pw).
  - rewrite (load_from_dict_eval (PStr text) false pw text _ _ eq_refl Hloads).
    now apply (set_params_restores path password fmt ct priv a pk sk w).
  - destruct (Hpw eq_refl) as (enc & Henc & Hdec). rewrite Henc. cbn [res_bind].
    rewrite (load_from_dict_eval enc true pw text _ _ Hdec Hloads).
    now apply (set_params_restores path password fmt ct priv a pk sk w).
Qed.

(** ** A URI under the scheme 'ecdsa' *)

(** X23.  The class method [create_from_uri] cannot build an 'ecdsa'
    keypair: line 405 hands the dictionary of arguments to
    [create_from_private_key] as its first positional argument, so the
    constructor receives a dictionary of three entries as private key under
    the default tag 'sr25519', and raises ValueError 'Secret key should be
    64 bytes long'.  This holds for every URI that the pattern matches and
    whose phrase the library resolves, when no key named default is
    stored. *)
Theorem ecdsa_uri_class_method_raises
    (suri : string) (caps : captures) (ss58_format : pyval) (private_key : bytes)
    (w w1 : W) :
  (forall d, c.locals2kwargs d = d) ->
  re_match suri_pattern (with_dev_phrase suri) = Matched caps ->
  ecdsa_helpers.mnemonic_to_ecdsa_private_key
    (dict_get_default "phrase" PNone (groupdict caps))
    (PStr (str_drop 1 match dict_get_default "path" PNone (groupdict caps) with
                      | PStr p => p
                      | _ => EmptyString
                      end))
    (if truthy (dict_get_default "password" PNone (groupdict caps))
     then dict_get_default "password" PNone (groupdict caps)
     else PStr "")
  = Ok private_key ->
  key_exists (PStr "default") w = (Ok false, w1) ->
  Keypair_create_from_uri (PStr suri) ss58_format (PStr "ecdsa") (PStr "en") false w
  = (Err (ValueError "Secret key should be 64 bytes long"), w1).
Proof.
  intros Hid Hre Hkey Hex.
  unfold Keypair_create_from_uri, create_from_uri. rewrite Hre. cbv zeta.
  cbn [eq_str String.eqb Ascii.eqb Bool.eqb negb].
  rewrite bind_ret_l, (bind_pure_Ok _ private_key) by exact Hkey.
  unfold create_from_private_key, Keypair, __init__. rewrite Hid.
  rewrite bind_pure_Ok with (a := tt) by reflexivity.
  unfold set_params, set_params_with, init_locals.
  rewrite bind_pure_Ok with (a := tt) by reflexivity.
  calc. repeat step.
  erewrite bind_in_world_Ok by exact Hex. cbn [fst snd].
  unfold set_params_provenance. calc. repeat step.
  unfold set_params_validate, set_params_private_key. repeat step.
  reflexivity.
Qed.

(** ** Saving over a stored key *)

(** X24.  [save] with [override=False] refuses a path that exists: it
    raises AssertionError before [state_dict] runs, so the attributes of
    the object are untouched (keys stay bytes) and nothing is written.  With
    [override=True], the default and what the constructor passes, the
    storage is not asked and the key at the path is overwritten. *)
Theorem save_asks_the_storage_only_without_override
    (path password own : pyval) (s : obj_state) :
  dict_get "path" (fst s) = Some own ->
  let target := if is_none path then own else path in
  (forall w1 : W,
      c.file_exists target (snd s) = (Ok true, w1) ->
      save path password (PBool false) s
      = (Err (AssertionError "Path already exists, set override=True to override"),
         (fst s, w1))) /\
  save path password (PBool true) s
  = (state <- state_dict password ;; in_world (c.put_json target state)) s.
Proof.
  intros Hown target.
  assert (Hres : forall (B : Type) (f : pyval -> M (@obj_state W) B),
             bind (resolve_key_path path) f s = f target s).
  { intros B f. unfold resolve_key_path, target. destruct (is_none path).
    - now apply bind_getattr.
    - apply bind_ret_l. }
  split.
  - intros w1 Hex. unfold save. rewrite Hres. cbn [eq_False negb].
    rewrite bind_assoc. erewrite bind_in_world_Ok by exact Hex. reflexivity.
  - unfold save. rewrite Hres. cbn [eq_False negb]. now rewrite bind_ret_l.
Qed.

(** ** A stored keypair read by the constructor *)




End KeypairFacts.

(** * The theorems at concrete inputs

    Each statement above is applied once here, on the small instance of the
    interfaces, with its hypotheses computed. *)

Module Examples.

Import Toy.

Lemma toy_locals2kwargs : forall d : dict, c.locals2kwargs d = d.
Proof. reflexivity. Defined.

Lemma encrypt_message_default_nonce_shared_witness :
  class_body Toy.empty
  = (Ok {| encrypt_message_nonce_default := PBytes (repeat x00 24) |},
     {| files := []; draws := 1 |}) /\
  exists n : bytes,
    py.token_bytes 24 Toy.empty = (Ok n, {| files := []; draws := 1 |}) /\
    forall (self1 self2 : dict) (m1 m2 r1 r2 : pyval),
      encrypt_message {| encrypt_message_nonce_default := PBytes (repeat x00 24) |}
        self1 m1 r1 None
      = encrypt_message {| encrypt_message_nonce_default := PBytes (repeat x00 24) |}
          self1 m1 r1 (Some (PBytes n)) /\
      encrypt_message {| encrypt_message_nonce_default := PBytes (repeat x00 24) |}
        self2 m2 r2 None
      = encrypt_message {| encrypt_message_nonce_default := PBytes (repeat x00 24) |}
          self2 m2 r2 (Some (PBytes n)).
Proof.
  split; [reflexivity|].
  apply (encrypt_message_default_nonce_shared Toy.empty). reflexivity.
Defined.

Lemma toy_Alice_match : Alice_match.
Proof. vm_compute. reflexivity. Defined.

Lemma uri_Alice_builds_the_key_of_the_phrase_witness :
  Alice_match /\
  sr25519.pair_from_seed (PBytes dev_seed) = Ok (dev_pub, dev_priv) /\
  sr25519.public_from_secret_key (PBytes dev_priv) = Ok dev_pub' /\
  Keypair [("uri", PStr "//Alice"); ("load", PBool false); ("save", PBool false)]
    Toy.empty
  = (Ok (Alice_object dev_seed dev_pub' dev_priv dev_addr), Toy.empty).
Proof.
  split; [exact toy_Alice_match|]. split; [reflexivity|]. split; [reflexivity|].
  apply (uri_Alice_builds_the_key_of_the_phrase Toy.empty
           dev_seed dev_pub dev_pub' dev_priv dev_addr).
  - exact toy_locals2kwargs.
  - exact toy_Alice_match.
  - reflexivity.
  - reflexivity.
  - reflexivity.
  - reflexivity.
  - reflexivity.
  - discriminate.
  - reflexivity.
  - reflexivity.
Defined.

(** Under the stand-ins, the child that the walk of lines 436-450 derives
    for //Alice is another key than the one the constructor builds. *)
Example toy_Alice_child_is_another_key :
  exists child_pub child_priv : bytes,
    (let? junctions := substrateinterface.extract_derive_path "//Alice" in
     derive_children junctions (PBytes dev_pub') (PBytes dev_priv))
    = Ok (PBytes child_pub, PBytes child_priv) /\
    child_pub <> dev_pub'.
Proof.
  eexists. eexists. split; [vm_compute; reflexivity|].
  vm_compute. discriminate.
Qed.

Lemma state_dict_rewrites_bytes_attributes_witness :
  dict_get "public_key" ed_keypair = Some (PBytes ed_public) /\
  dict_get "public_key" (fst (snd (state_dict PNone (ed_keypair, Toy.empty))))
    = Some (PStr (Hex.encode ed_public)) /\
  forall path : pyval, is_none path = false ->
    dict_get "public_key"
      (fst (snd (save path PNone (PBool true) (ed_keypair, Toy.empty))))
    = Some (PStr (Hex.encode ed_public)).
Proof.
  split; [reflexivity|].
  apply (state_dict_rewrites_bytes_attributes ed_keypair Toy.empty "public_key"
           ed_public PNone).
  reflexivity.
Defined.



Lemma uri_path_on_other_scheme_is_not_rejected_witness :
  Alice_match /\
  Keypair [("uri", PStr "//Alice"); ("crypto_type", PStr "ed25519");
           ("load", PBool false); ("save", PBool false)] Toy.empty
  = (Ok (Alice_object dev_seed dev_pub' dev_priv dev_addr), Toy.empty).
Proof.
  split; [exact toy_Alice_match|].
  apply (uri_path_on_other_scheme_is_not_rejected (PStr "ed25519") Toy.empty
           dev_seed dev_pub dev_pub' dev_priv dev_addr).
  - exact toy_locals2kwargs.
  - exact toy_Alice_match.
  - reflexivity.
  - reflexivity.
  - reflexivity.
  - reflexivity.
  - reflexivity.
  - discriminate.
  - reflexivity.
  - reflexivity.
Defined.

Lemma saved_keypair_cannot_verify_witness :
  exists (self : dict) (w' : Toy.world),
    Keypair [("public_key", PBytes ed_public); ("load", PBool false)] Toy.empty
    = (Ok self, w') /\
    dict_get "public_key" self = Some (PStr (Hex.encode ed_public)) /\
    exists name,
      verify self (PStr "test message") (PBytes (ed_public ++ test_message)) PNone None
      = Err (AttributeError name).
Proof.
  eexists. eexists. split; [vm_compute; reflexivity|]. split; [reflexivity|].
  eapply (saved_keypair_cannot_verify
            [("public_key", PBytes ed_public); ("load", PBool false)] _
            Toy.empty _ (PStr "test message") (ed_public ++ test_message) None
            toy_locals2kwargs eq_refl eq_refl).
  vm_compute. reflexivity.
Defined.

Lemma saved_keypair_holds_no_key_bytes_witness :
  exists (self : dict) (w' : Toy.world),
    Keypair [("seed_hex", PBytes (repeat x00 32)); ("load", PBool false)] Toy.empty
    = (Ok self, w') /\
    dict_get "public_key" self = Some (PStr (Hex.encode (repeat x00 32))) /\
    forall b : bytes,
      dict_get "public_key" self <> Some (PBytes b) /\
      dict_get "private_key" self <> Some (PBytes b).
Proof.
  eexists. eexists. split; [vm_compute; reflexivity|]. split; [reflexivity|].
  eapply (saved_keypair_holds_no_key_bytes
            [("seed_hex", PBytes (repeat x00 32)); ("load", PBool false)] _
            Toy.empty _ toy_locals2kwargs eq_refl eq_refl).
  vm_compute. reflexivity.
Defined.

Lemma import_returns_stored_key_or_hex_text_witness :
  (exists (kp : dict) (w' : Toy.world),
      Keypair_create_from_encrypted_json export_record (PStr "pw") PNone Toy.empty
      = (Ok kp, w') /\
      dict_get "public_key" kp = Some (PStr (Hex.encode sr_public)) /\
      forall (k : string) (b : bytes), dict_get k kp <> Some (PBytes b)) /\
  (exists (kp : dict) (w' : Toy.world),
      Keypair_create_from_encrypted_json export_record (PStr "pw") PNone
        Toy.with_default
      = (Ok kp, w') /\
      dict_get "public_key" kp = Some (PBytes (repeat x07 32)) /\
      Keypair [] Toy.with_default = (Ok kp, w')).
Proof.
  split.
  - eexists. eexists. split; [vm_compute; reflexivity|]. split; [reflexivity|].
    eapply (fun H => proj2 (import_returns_stored_key_or_hex_text export_record
                              (PStr "pw") PNone _ Toy.empty _ toy_locals2kwargs H)).
    + vm_compute. reflexivity.
    + vm_compute. discriminate.
  - eexists. eexists. split; [vm_compute; reflexivity|]. split; [reflexivity|].
    eapply (fun H => proj1 (import_returns_stored_key_or_hex_text export_record
                              (PStr "pw") PNone _ Toy.with_default _
                              toy_locals2kwargs H)).
    + vm_compute. reflexivity.
    + vm_compute. reflexivity.
Defined.

Lemma is_encrypted_returns_None_witness :
  c.get_json (PStr "default") Toy.with_default
  = (Ok (PDict [("data", PStr "{}"); ("encrypted", PBool false)]), Toy.with_default) /\
  is_encrypted (PStr "default") PNone (public_only, Toy.with_default)
  = (Ok PNone, (public_only, Toy.with_default)) /\
  is_encrypted (PStr "default")
    (PDict [("data", PStr "secret"); ("encrypted", PBool true)])
    (public_only, Toy.with_default)
  = (Ok PNone, (public_only, Toy.with_default)).
Proof.
  split; [reflexivity|]. split.
  - apply (proj1 (proj2 is_encrypted_returns_None) public_only Toy.with_default
             Toy.with_default (PStr "default")
             [("data", PStr "{}"); ("encrypted", PBool false)]);
      reflexivity.
  - apply (proj2 (proj2 is_encrypted_returns_None) public_only Toy.with_default
             (PStr "default")).
    reflexivity.
Defined.

End Examples.

(** * Further properties at concrete inputs *)

Module MoreExamples.

Import Toy Samples.

Lemma sample_locals2kwargs : forall d : dict, c.locals2kwargs d = d.
Proof. reflexivity. Defined.

Lemma sign_reads_0x_text_as_hex_witness :
  String.prefix "0x" "test message" = false /\
  sign ed_keypair
    (PStr (String "0" (String "x" (Hex.encode (str_encode "test message")))))
    None false
  = sign ed_keypair (PStr "test message") None false.
Proof.
  split; [reflexivity|].
  apply (sign_reads_0x_text_as_hex ed_keypair "test message" None false);
    reflexivity.
Defined.

Lemma sign_then_verify_witness :
  sign signer (PStr "test message") (Some (PStr "sr25519")) false
  = Ok (PBytes (firstn 32 sr_private ++ test_message)) /\
  verify signer (PStr "test message") (PBytes (firstn 32 sr_private ++ test_message))
    PNone (Some (PStr "sr25519"))
  = Ok true.
Proof.
  split; [reflexivity|].
  apply (sign_then_verify signer (PStr "test message") (PBytes sr_private) "sr25519"
           test_message (firstn 32 sr_private) (firstn 32 sr_private ++ test_message)).
  - reflexivity.
  - reflexivity.
  - reflexivity.
  - reflexivity.
  - intros _ _. vm_compute. reflexivity.
  - intros H. discriminate H.
  - intros H. discriminate H.
  - reflexivity.
Defined.

Lemma messages_need_ed25519_private_key_witness :
  dict_get "private_key" signer = Some (PBytes sr_private) /\
  encrypt_message K signer (PStr "test message") (PBytes bob_public) None
  = Err (ConfigurationError "Only ed25519 keypair type supported") /\
  decrypt_message signer (PStr "test message") (PBytes bob_public)
  = Err (ConfigurationError "Only ed25519 keypair type supported").
Proof.
  split; [reflexivity|].
  apply (proj2 (messages_need_ed25519_private_key K signer (PBytes sr_private)
                  (PStr "test message") (PBytes bob_public) None eq_refl)
           (PStr "sr25519"));
    reflexivity.
Defined.

Lemma encrypt_then_decrypt_witness :
  encrypt_message K ed_keypair (PStr "test message") (PBytes bob_public)
    (Some (PBytes nonce))
  = Ok (PBytes (nonce ++ test_message)) /\
  decrypt_message bob (PBytes (nonce ++ test_message)) (PBytes ed_public)
  = Ok (PBytes test_message).
Proof.
  split; [reflexivity|].
  apply (encrypt_then_decrypt K ed_keypair bob (PStr "test message") (PBytes nonce)
           ed_private ed_public bob_private bob_public
           (pad 32 (ed_private ++ ed_public)) (rev ed_public)
           (pad 32 (bob_private ++ bob_public)) (rev bob_public)
           test_message (nonce ++ test_message)).
  - reflexivity.
  - reflexivity.
  - reflexivity.
  - reflexivity.
  - reflexivity.
  - reflexivity.
  - discriminate.
  - discriminate.
  - reflexivity.
  - reflexivity.
  - reflexivity.
  - reflexivity.
  - reflexivity.
  - intros _. reflexivity.
  - reflexivity.
Defined.

Lemma uri_password_is_not_supported_witness :
  get_capture "password"
    [("phrase", substrateinterface.DEV_PHRASE); ("path", "//Alice"); ("password", "pw")]
  = Some "pw" /\
  create_from_uri Keypair (PStr "//Alice///pw") (PInt 42) (PStr "sr25519") (PStr "en")
    false Toy.empty
  = (Err (NotImplementedError
            ("Passwords in suri not supported for crypto_type '"
               ++ py.format (PStr "sr25519") ++ "'")),
     Toy.empty).
Proof.
  split; [reflexivity|].
  apply (uri_password_is_not_supported Keypair "//Alice///pw"
           [("phrase", substrateinterface.DEV_PHRASE); ("path", "//Alice");
            ("password", "pw")] "pw" (PInt 42) (PStr "sr25519") (PStr "en") false
           Toy.empty).
  - vm_compute. reflexivity.
  - reflexivity.
  - discriminate.
  - reflexivity.
Defined.

Lemma class_method_rejects_path_on_other_scheme_witness :
  exists (keypair : dict) (w1 : world),
    create_from_mnemonic Keypair (PStr substrateinterface.DEV_PHRASE) (PInt 42)
      (PStr "ed25519") (PStr "en") false Toy.empty
    = (Ok keypair, w1) /\
    create_from_uri Keypair (PStr "//Alice") (PInt 42) (PStr "ed25519") (PStr "en")
      false Toy.empty
    = (Err (NotImplementedError "Derivation paths for this crypto type not supported"),
       w1).
Proof.
  eexists. eexists. split; [vm_compute; reflexivity|].
  eapply (class_method_rejects_path_on_other_scheme Keypair "//Alice"
            [("phrase", substrateinterface.DEV_PHRASE); ("path", "//Alice")]
            "//Alice" (PInt 42) (PStr "ed25519") (PStr "en")).
  - vm_compute. reflexivity.
  - reflexivity.
  - discriminate.
  - reflexivity.
  - reflexivity.
  - reflexivity.
  - vm_compute. reflexivity.
Defined.

Lemma state_dict_changes_the_object_once_witness :
  dict_get "crypto_type" ed_keypair = Some (PStr "ed25519") /\
  dict_get "crypto_type" (fst (snd (state_dict PNone (ed_keypair, Toy.empty))))
  = Some (PStr "ed25519").
Proof.
  split; [reflexivity|].
  apply (proj2 (proj2 (state_dict_changes_the_object_once PNone (PStr "pw")
                         (ed_keypair, Toy.empty)))).
  - reflexivity.
  - intros b. discriminate.
Defined.

Lemma export_record_shape_witness :
  dict_get "crypto_type" ed_keypair = Some (PStr "ed25519") /\
  export_to_encrypted_json (dict_set "ss58_address" (PStr "5ed") ed_keypair)
    (PStr "pw") PNone Toy.empty
  = (Err (NotImplementedError
            ("Cannot create JSON for crypto_type '"
               ++ py.format (PStr "ed25519") ++ "'")),
     Toy.empty).
Proof.
  split; [reflexivity|].
  apply (proj1 (export_record_shape (dict_set "ss58_address" (PStr "5ed") ed_keypair)
                  (PStr "pw") PNone Toy.empty Toy.empty) (PStr "ed25519")).
  - discriminate.
  - reflexivity.
  - reflexivity.
Defined.

Lemma mnemonic_is_seed_construction_witness :
  py.bip39_to_mini_secret (PStr substrateinterface.DEV_PHRASE) "" (PStr "en")
  = Ok dev_seed /\
  create_from_mnemonic Keypair (PStr substrateinterface.DEV_PHRASE) (PInt 42)
    (PStr "sr25519") (PStr "en") true Toy.empty
  = (keypair <- create_from_seed Keypair (PBytes dev_seed) (PInt 42) (PStr "sr25519")
                  true ;;
     ret (dict_set "mnemonic" (PStr substrateinterface.DEV_PHRASE) keypair)) Toy.empty.
Proof.
  split; [reflexivity|].
  apply (mnemonic_is_seed_construction Keypair (PStr substrateinterface.DEV_PHRASE)
           (PInt 42) (PStr "sr25519") (PStr "en") true dev_seed Toy.empty);
    reflexivity.
Defined.

Lemma not_validated_crypto_type : ~ In "crypto_type" validated_attributes.
Proof.
  intros [H|[H|[H|[H|[]]]]]; discriminate H.
Defined.

Lemma validation_keeps_other_attributes_witness :
  ~ In "crypto_type" validated_attributes /\
  keeps (W := world) "crypto_type" (set_params_validate PNone).
Proof.
  split; [exact not_validated_crypto_type|].
  apply (validation_keeps_other_attributes "crypto_type" PNone).
  exact not_validated_crypto_type.
Defined.

Lemma source_keypair_is_sr25519_witness :
  exists (self : dict) (w' : world),
    Keypair [("seed_hex", PBytes (repeat x00 32)); ("crypto_type", PStr "ed25519");
             ("ss58_format", PInt 0); ("load", PBool false)] Toy.empty
    = (Ok self, w') /\
    dict_get "crypto_type" self = Some (PStr "sr25519") /\
    dict_get "ss58_format" self = Some (PInt 42) /\
    forall (K0 : class_Keypair) (message recipient : pyval) (nonce0 : option pyval),
      exists e : exn, encrypt_message K0 self message recipient nonce0 = Err e.
Proof.
  eexists. eexists. split; [vm_compute; reflexivity|].
  eapply (source_keypair_is_sr25519
            [("seed_hex", PBytes (repeat x00 32)); ("crypto_type", PStr "ed25519");
             ("ss58_format", PInt 0); ("load", PBool false)] _ Toy.empty _
            sample_locals2kwargs eq_refl eq_refl (or_introl eq_refl)).
  vm_compute. reflexivity.
Defined.

Lemma listed_file_is_a_key_witness :
  c.ls with_alice = (Ok ["keys/alice.json"], with_alice) /\
  ls_keys with_alice = (Ok ["alice"], with_alice) /\
  key_exists (PStr "alice") with_alice = (Ok true, with_alice).
Proof.
  split; [reflexivity|].
  apply (listed_file_is_a_key "keys" "alice" "json" ["keys/alice.json"]
           with_alice with_alice).
  - reflexivity.
  - reflexivity.
  - reflexivity.
  - reflexivity.
  - reflexivity.
  - left. reflexivity.
Defined.

Lemma key_with_slash_is_never_found_witness :
  str_contains "/" "keys/alice" = true /\
  key_exists (PStr "keys/alice") with_alice = (Ok false, with_alice).
Proof.
  split; [reflexivity|].
  apply (key_with_slash_is_never_found "keys/alice" ["keys/alice.json"]
           with_alice with_alice);
    reflexivity.
Defined.

Lemma stored_key_overrides_arguments_witness :
  key_exists (PStr "default") with_default = (Ok true, with_default) /\
  Keypair [] with_default
  = Keypair [("seed_hex", PBytes (repeat x00 32)); ("crypto_type", PStr "ed25519");
             ("save", PBool false)] with_default.
Proof.
  split; [reflexivity|].
  apply (stored_key_overrides_arguments []
           [("seed_hex", PBytes (repeat x00 32)); ("crypto_type", PStr "ed25519");
            ("save", PBool false)] with_default with_default);
    reflexivity.
Defined.

Lemma no_key_material_is_refused_witness :
  truthy (PStr "") = false /\
  Keypair [("seed", PStr ""); ("load", PBool false)] Toy.empty
  = (Err (ValueError "No SS58 formatted address or public key provided"), Toy.empty).
Proof.
  split; [reflexivity|].
  apply (no_key_material_is_refused [("seed", PStr ""); ("load", PBool false)]
           Toy.empty);
    reflexivity.
Defined.

Lemma private_key_alone_is_refused_for_other_schemes_witness :
  ed_private <> [] /\
  Keypair [("private_key", PBytes ed_private); ("crypto_type", PStr "ed25519");
           ("load", PBool false)] Toy.empty
  = (Err (ValueError "No SS58 formatted address or public key provided"), Toy.empty).
Proof.
  split; [discriminate|].
  apply (private_key_alone_is_refused_for_other_schemes
           [("private_key", PBytes ed_private); ("crypto_type", PStr "ed25519");
            ("load", PBool false)] ed_private Toy.empty);
    try reflexivity.
  discriminate.
Defined.

Lemma sr25519_private_key_must_be_64_bytes_witness :
  List.length ed_private = 32 /\
  Keypair [("private_key", PStr (Hex.encode ed_private)); ("load", PBool false)]
    Toy.empty
  = (Err (ValueError "Secret key should be 64 bytes long"), Toy.empty).
Proof.
  split; [reflexivity|].
  apply (sr25519_private_key_must_be_64_bytes
           [("private_key", PStr (Hex.encode ed_private)); ("load", PBool false)]
           ed_private Toy.empty);
    try reflexivity.
  - right. left. reflexivity.
  - discriminate.
  - vm_compute. discriminate.
  - left. reflexivity.
Defined.

Lemma public_key_length_is_checked_witness :
  List.length (repeat x09 31) = 31 /\
  Keypair [("public_key", PBytes (repeat x09 31)); ("load", PBool false)] Toy.empty
  = (Err (ValueError "Public key should be 32 bytes long"), Toy.empty).
Proof.
  split; [reflexivity|].
  apply (public_key_length_is_checked
           [("public_key", PBytes (repeat x09 31)); ("load", PBool false)]
           (repeat x09 31) Toy.empty);
    try reflexivity.
  - left. reflexivity.
  - discriminate.
  - vm_compute. discriminate.
Defined.

Lemma address_alone_gives_a_public_keypair_witness :
  ss58.ss58_decode (PStr (String "5" (Hex.encode ed_public))) PNone
  = Ok (Hex.encode ed_public) /\
  exists self : dict,
    Keypair [("ss58_address", PStr (String "5" (Hex.encode ed_public)));
             ("load", PBool false); ("save", PBool false)] Toy.empty
    = (Ok self, Toy.empty) /\
    dict_get "public_key" self = Some (PBytes ed_public) /\
    dict_get "ss58_address" self = Some (PStr (String "5" (Hex.encode ed_public))) /\
    dict_get "private_key" self = Some PNone /\
    forall (data msg : pyval) (ct : option pyval) (rd : bool),
      data_to_bytes (c.python2str data) = Ok msg ->
      sign self data ct rd
      = Err (ConfigurationError "No private key set to create signatures").
Proof.
  split; [reflexivity|].
  apply (address_alone_gives_a_public_keypair
           [("ss58_address", PStr (String "5" (Hex.encode ed_public)));
            ("load", PBool false); ("save", PBool false)]
           (Hex.encode ed_public) ed_public Toy.empty);
    reflexivity.
Defined.

Lemma load_from_dict_restores_the_snapshot_witness :
  py.json_loads (Lib := Samples.Py) "{}"
  = Ok (PDict (map (fun kv => (fst kv, hex_if_bytes (snd kv))) saved_keypair)) /\
  (state <- state_dict (Py := Samples.Py) (PStr "pw") ;;
   load_from_dict (Py := Samples.Py) state (PStr "pw")) (saved_keypair, Toy.empty)
  = (Ok tt, (saved_keypair, Toy.empty)).
Proof.
  split; [reflexivity|].
  apply (load_from_dict_restores_the_snapshot (Py := Samples.Py)
           (PStr "default") PNone (PInt 42) (PStr "sr25519") (PBytes sr_private)
           (PStr "pw") (String "5" (Hex.encode sr_public)) "{}" sr_public sr_private
           Toy.empty).
  - reflexivity.
  - reflexivity.
  - reflexivity.
  - reflexivity.
  - discriminate.
  - reflexivity.
  - right. split; [reflexivity|]. split; [discriminate|]. intros _. reflexivity.
  - reflexivity.
  - reflexivity.
  - reflexivity.
  - intros _. exists (PStr "{}"). split; reflexivity.
Defined.

Lemma ecdsa_uri_class_method_raises_witness :
  key_exists (PStr "default") Toy.empty = (Ok false, Toy.empty) /\
  Keypair_create_from_uri (PStr "//Alice") (PInt 42) (PStr "ecdsa") (PStr "en") false
    Toy.empty
  = (Err (ValueError "Secret key should be 64 bytes long"), Toy.empty).
Proof.
  split; [reflexivity|].
  apply (ecdsa_uri_class_method_raises "//Alice"
           [("phrase", substrateinterface.DEV_PHRASE); ("path", "//Alice")]
           (PInt 42) (repeat x02 32) Toy.empty Toy.empty).
  - reflexivity.
  - vm_compute. reflexivity.
  - reflexivity.
  - reflexivity.
Defined.

Lemma save_asks_the_storage_only_without_override_witness :
  c.file_exists (PStr "default") with_default = (Ok true, with_default) /\
  save PNone PNone (PBool false) (saved_keypair, with_default)
  = (Err (AssertionError "Path already exists, set override=True to override"),
     (saved_keypair, with_default)).
Proof.
  split; [reflexivity|].
  apply (proj1 (save_asks_the_storage_only_without_override PNone PNone
                  (PStr "default") (saved_keypair, with_default) eq_refl)).
  reflexivity.
Defined.


End MoreExamples.
